(** * gcp-livestream-demo: the provisioning and teardown programs

    A shallow embedding of [createStream/main.go] and [deleteAll/main.go].
    Both programs are straight-line sequences of calls to an external
    collaborator (the Live Stream API client, the file system, the logger).
    Every such call is an element of [call]; a program is a function of the
    environment that answers the calls, and it records every call together
    with its answer in a trace.  The theorems quantify over all
    environments unless they say otherwise. *)

From Stdlib Require Import String Ascii List Arith Lia Bool.
From stdpp Require Import base option list strings gmap.
Import ListNotations.
Local Open Scope string_scope.
Local Open Scope list_scope.

(** ** Go values *)

(** gRPC status codes returned by the API client. *)
Inductive Code :=
| NotFound | PermissionDenied | Unavailable | AlreadyExists
| FailedPrecondition | DeadlineExceeded | Internal.

(** Go [error] values.  [Wrap label e] is [fmt.Errorf("label: %w", e)];
    [Fmt label e] is [fmt.Errorf("label: %v", e)], which keeps only the text
    of [e]. *)
Inductive error :=
| StatusErr (c : Code) (desc : string)
| OsErr (msg : string)
| ParseErr (msg : string)
| Wrap (label : string) (e : error)
| Fmt (label : string) (e : error).

Definition Code_String (c : Code) : string :=
  match c with
  | NotFound => "NotFound"
  | PermissionDenied => "PermissionDenied"
  | Unavailable => "Unavailable"
  | AlreadyExists => "AlreadyExists"
  | FailedPrecondition => "FailedPrecondition"
  | DeadlineExceeded => "DeadlineExceeded"
  | Internal => "Internal"
  end.

(** [err.Error()]. *)
Fixpoint Error (e : error) : string :=
  match e with
  | StatusErr c d => "rpc error: code = " +:+ Code_String c +:+ " desc = " +:+ d
  | OsErr m => m
  | ParseErr m => m
  | Wrap l e' => l +:+ ": " +:+ Error e'
  | Fmt l e' => l +:+ ": " +:+ Error e'
  end.

(** The answer of a fallible library call: Go's [(value, err)] pair with the
    library's convention that exactly one of the two is meaningful. *)
Inductive result (A : Type) :=
| Ok (a : A)
| Err (e : error).
Arguments Ok {A} a.
Arguments Err {A} e.

(** ** Resources of the Live Stream API *)

Inductive InputType := TYPE_UNSPECIFIED | RTMP_PUSH | SRT_PUSH.

Record Input := mkInput {
  Input_Name : string;
  Input_Type : InputType;
  Input_Uri : string
}.

Inductive StreamingState :=
| STREAMING_STATE_UNSPECIFIED
| STREAMING
| AWAITING_INPUT
| STREAMING_ERROR
| STREAMING_NO_INPUT
| STOPPED
| STARTING
| STOPPING
| UPDATING
| DELETING.

Definition StreamingState_String (s : StreamingState) : string :=
  match s with
  | STREAMING_STATE_UNSPECIFIED => "STREAMING_STATE_UNSPECIFIED"
  | STREAMING => "STREAMING"
  | AWAITING_INPUT => "AWAITING_INPUT"
  | STREAMING_ERROR => "STREAMING_ERROR"
  | STREAMING_NO_INPUT => "STREAMING_NO_INPUT"
  | STOPPED => "STOPPED"
  | STARTING => "STARTING"
  | STOPPING => "STOPPING"
  | UPDATING => "UPDATING"
  | DELETING => "DELETING"
  end.

Definition StreamingState_eqb (a b : StreamingState) : bool :=
  match a, b with
  | STREAMING_STATE_UNSPECIFIED, STREAMING_STATE_UNSPECIFIED
  | STREAMING, STREAMING
  | AWAITING_INPUT, AWAITING_INPUT
  | STREAMING_ERROR, STREAMING_ERROR
  | STREAMING_NO_INPUT, STREAMING_NO_INPUT
  | STOPPED, STOPPED
  | STARTING, STARTING
  | STOPPING, STOPPING
  | UPDATING, UPDATING
  | DELETING, DELETING => true
  | _, _ => false
  end.

(** A JSON document, as far as the channel template needs it.  Numbers keep
    their source text. *)
Inductive json :=
| JNull
| JBool (b : bool)
| JNum (text : string)
| JStr (s : string)
| JArr (items : list json)
| JObj (members : list (string * json)).

Record InputAttachment := mkInputAttachment {
  Attachment_Key : string;
  Attachment_Input : string
}.

(** [livestreampb.Channel]: the fields the programs read, and the rest of
    the configuration (log configuration, elementary streams, mux streams,
    manifests) as named documents. *)
Record Channel := mkChannel {
  Channel_Name : string;
  Channel_InputAttachments : list InputAttachment;
  Channel_OutputUri : string;
  Channel_StreamingState : StreamingState;
  Channel_Config : list (string * json)
}.

Record Event := mkEvent {
  Event_Name : string
}.

(** Opaque handles handed out by the environment. *)
Record Client := mkClient { client_id : nat }.
Record Operation := mkOperation { operation_id : nat }.
Record File := mkFile { file_path : string }.

(** A paginated listing: what successive [Next()] calls yield.  An [Ok]
    entry is an item, an [Err] entry is a failed page fetch, and the end of
    the script is [iterator.Done]. *)
Definition Iterator (A : Type) := list (result A).

(** ** Calls to the environment

    One constructor per library call the two programs make; the index is
    the type of the answer.  [ReadFile] answers with Go's pair because the
    source uses the bytes before it looks at the error. *)
Inductive call : Type -> Type :=
| NewClient : call (result Client)
| Close (c : Client) : call unit
| GetInput (c : Client) (name : string) : call (result Input)
| CreateInput (c : Client) (parent inputId : string) (input : Input) : call (result Operation)
| WaitCreateInput (op : Operation) : call (result Input)
| GetChannel (c : Client) (name : string) : call (result Channel)
| CreateChannel (c : Client) (parent channelId : string) (channel : Channel) : call (result Operation)
| WaitCreateChannel (op : Operation) : call (result Channel)
| StartChannel (c : Client) (name : string) : call (result Operation)
| WaitStart (op : Operation) : call (result unit)
| StopChannel (c : Client) (name : string) : call (result Operation)
| WaitStop (op : Operation) : call (result unit)
| DeleteInput (c : Client) (name : string) : call (result Operation)
| DeleteChannel (c : Client) (name : string) : call (result Operation)
| ListInputs (c : Client) (parent : string) : call (Iterator Input)
| ListChannels (c : Client) (parent : string) : call (Iterator Channel)
| ListEvents (c : Client) (parent : string) : call (Iterator Event)
| ReadFile (path : string) : call (string * option error)
| Create (path : string) : call (result File)
| FileWrite (f : File) (bytes : string) : call (result nat)
| FileClose (f : File) : call unit
| WriterWrite (bytes : string) : call unit
| Printf (line : string) : call unit
| Sleep (seconds : nat) : call unit.

(** A call together with the answer it got. *)
Inductive event :=
| Ev {R : Type} (c : call R) (r : R).

Abbreviation trace := (list event).

(** ** Programs

    A program is a finite tree of calls: it either returns, or makes a call
    and continues with the answer. *)
Inductive prog (A : Type) : Type :=
| Ret (a : A)
| Do {R : Type} (c : call R) (k : R -> prog A).
Arguments Ret {A} a.
Arguments Do {A R} c k.

Fixpoint bind {A B : Type} (p : prog A) (f : A -> prog B) : prog B :=
  match p with
  | Ret a => f a
  | Do c k => Do c (fun r => bind (k r) f)
  end.

Definition perform {R : Type} (c : call R) : prog R := Do c Ret.

Declare Scope prog_scope.
Delimit Scope prog_scope with prog.
Notation "x <- p ;; q" := (bind p (fun x => q))
  (at level 100, p at next level, right associativity) : prog_scope.
Notation "p ;; q" := (bind p (fun _ => q))
  (at level 100, right associativity) : prog_scope.
Local Open Scope prog_scope.

(** Go's [defer cleanup]: [cleanup] runs when the enclosing function
    returns, whatever it returns. *)
Definition defer {A : Type} (cleanup : prog unit) (body : prog A) : prog A :=
  a <- body ;; cleanup ;; Ret a.

(** An environment answers every call and moves to its next state. *)
Definition handler (W : Type) := forall R : Type, call R -> W -> R * W.

(** Running a program against an environment: the value returned, the final
    state of the environment, and the calls made, in order. *)
Fixpoint run {W A : Type} (h : handler W) (p : prog A) (w : W) : A * W * trace :=
  match p with
  | Ret a => (a, w, [])
  | Do c k =>
      let '(r, w1) := h _ c w in
      let '(a, w2, t) := run h (k r) w1 in
      (a, w2, Ev c r :: t)
  end.

Definition value_of {W A : Type} (x : A * W * trace) : A := x.1.1.
Definition world_of {W A : Type} (x : A * W * trace) : W := x.1.2.
Definition trace_of {W A : Type} (x : A * W * trace) : trace := x.2.

(** ** Library functions the programs use *)

(** The line feed, Go's ["\n"]. *)
Definition nl : string := String (ascii_of_nat 10) EmptyString.

(** [strings.ReplaceAll(s, old, new)] for a non-empty [old]: the text is
    scanned from the left, every occurrence of [old] that does not overlap
    an earlier one is replaced by [new].  [skip] counts the bytes of an
    occurrence still to be dropped. *)
Fixpoint replace_from (skip : nat) (old new s : string) : string :=
  match s with
  | EmptyString => EmptyString
  | String c s' =>
      match skip with
      | S n => replace_from n old new s'
      | O =>
          if String.prefix old s
          then new +:+ replace_from (String.length old - 1) old new s'
          else String c (replace_from 0 old new s')
      end
  end.

(** For an empty [old] Go puts [new] before every character and at the end;
    the programs never pass one. *)
Fixpoint intersperse_all (new s : string) : string :=
  match s with
  | EmptyString => new
  | String c s' => new +:+ String c (intersperse_all new s')
  end.

Definition ReplaceAll (s old new : string) : string :=
  match old with
  | EmptyString => intersperse_all new s
  | _ => replace_from 0 old new s
  end.

Arguments ReplaceAll : simpl never.

Example ReplaceAll_marker :
  ReplaceAll "{uri: <GCS_OUTPUT>}" "<GCS_OUTPUT>" "gs://b/x" = "{uri: gs://b/x}".
Proof. reflexivity. Qed.

Example ReplaceAll_leftmost : ReplaceAll "aaa" "aa" "b" = "ba".
Proof. reflexivity. Qed.

(** ** createStream/main.go *)

Module CreateStream.

Definition runningNumber : string := "01".
Definition projectID : string := "<PROJECT_NUMBER>".
Definition location : string := "<REGION>".
Definition channelID : string := "livestream-channel-" +:+ runningNumber.
Definition inputID : string := "livestream-input-" +:+ runningNumber.
Definition gcsoutput : string := "gs://<GCP_STORAGE_BUCKET>/" +:+ inputID.

(** How [main] leaves control: it returned, or it is inside the [for] loop
    (which has no exit) after the iterations the model was asked to run. *)
Inductive exit := Returned | Polling.

Section Programs.

(** [json.MarshalIndent(doc, "", "  ")] on a map with string values, and
    [protojson.Unmarshal] into a fresh [Channel]: pure functions of the
    libraries, taken as given. *)
Variable MarshalIndent : list (string * string) -> result string.
Variable Unmarshal : string -> result Channel.

(** createInputIfNotExists creates an input endpoint if it does not exist. *)
Definition createInputIfNotExists (projectID location inputID : string)
  : prog (option error) :=
  r <- perform NewClient ;;
  match r with
  | Err err => Ret (Some (Wrap "NewClient" err))
  | Ok client =>
    defer (perform (Close client)) (
      let inputName :=
        "projects/" +:+ projectID +:+ "/locations/" +:+ location +:+ "/inputs/" +:+ inputID in
      r <- perform (GetInput client inputName) ;;
      match r with
      | Ok existingInput =>
        perform (Printf ("Input " +:+ inputName +:+ " already exists." +:+ nl)) ;;
        let inputInfo := [("inputID", inputName); ("uri", Input_Uri existingInput)] in
        match MarshalIndent inputInfo with
        | Err err => Ret (Some (Wrap "JSON marshal error" err))
        | Ok prettyJSON =>
          perform (WriterWrite prettyJSON) ;;
          perform (WriterWrite nl) ;;
          r <- perform (Create (inputID +:+ ".json")) ;;
          match r with
          | Err err => Ret (Some (Fmt "Error creating input file" err))
          | Ok inputFile =>
            defer (perform (FileClose inputFile)) (
              r <- perform (FileWrite inputFile prettyJSON) ;;
              match r with
              | Err err => Ret (Some (Fmt "Error writing to input file" err))
              | Ok _ => Ret None
              end)
          end
        end
      | Err _ =>
        let input := {| Input_Name := ""; Input_Type := RTMP_PUSH; Input_Uri := "" |} in
        r <- perform (CreateInput client
                        ("projects/" +:+ projectID +:+ "/locations/" +:+ location)
                        inputID input) ;;
        match r with
        | Err err => Ret (Some (Wrap "CreateInput" err))
        | Ok op =>
          r <- perform (WaitCreateInput op) ;;
          match r with
          | Err err => Ret (Some (Wrap "Wait" err))
          | Ok response =>
            perform (Printf ("Input created: " +:+ Input_Name response +:+ nl)) ;;
            let inputInfo :=
              [("inputID", Input_Name response); ("uri", Input_Uri response)] in
            match MarshalIndent inputInfo with
            | Err err => Ret (Some (Wrap "JSON marshal error" err))
            | Ok prettyJSON =>
              perform (WriterWrite prettyJSON) ;;
              perform (WriterWrite nl) ;;
              r <- perform (Create (inputID +:+ ".json")) ;;
              match r with
              | Err err =>
                perform (Printf ("Error creating input file: " +:+ Error err)) ;;
                Ret None
              | Ok inputFile =>
                defer (perform (FileClose inputFile)) (
                  r <- perform (FileWrite inputFile prettyJSON) ;;
                  match r with
                  | Err err => Ret (Some (Fmt "Error writing to input file" err))
                  | Ok _ => Ret None
                  end)
              end
            end
          end
        end
      end)
  end.

Definition createChannelIfNotExists
    (projectID location channelID requestJSONPath : string) : prog (option error) :=
  r <- perform NewClient ;;
  match r with
  | Err err => Ret (Some (Wrap "NewClient" err))
  | Ok client =>
    defer (perform (Close client)) (
      let channelName :=
        "projects/" +:+ projectID +:+ "/locations/" +:+ location +:+ "/channels/" +:+ channelID in
      r <- perform (GetChannel client channelName) ;;
      match r with
      | Ok existingChannel =>
        perform (Printf ("Channel " +:+ channelName +:+ " already exists." +:+ nl)) ;;
        let channelInfo :=
          [("channelID", channelName);
           ("inputID", "projects/" +:+ projectID +:+ "/locations/" +:+ location
                         +:+ "/inputs/" +:+ inputID);
           ("gcsoutput", Channel_OutputUri existingChannel)] in
        match MarshalIndent channelInfo with
        | Err err => Ret (Some (Wrap "JSON marshal error" err))
        | Ok prettyJSON =>
          perform (WriterWrite prettyJSON) ;;
          perform (WriterWrite nl) ;;
          r <- perform (Create (channelID +:+ ".json")) ;;
          match r with
          | Err err => Ret (Some (Fmt "Error creating channel file" err))
          | Ok channelFile =>
            defer (perform (FileClose channelFile)) (
              r <- perform (FileWrite channelFile prettyJSON) ;;
              match r with
              | Err err => Ret (Some (Fmt "Error writing channel file" err))
              | Ok _ => Ret None
              end)
          end
        end
      | Err _ =>
        x <- perform (ReadFile requestJSONPath) ;;
        let requestJSON := x.1 in
        let err := x.2 in
        let requestStr := requestJSON in
        let requestStr := ReplaceAll requestStr "<GCS_OUTPUT>" gcsoutput in
        let requestStr :=
          ReplaceAll requestStr "<GCP_OTHER_INFO>"
            ("projects/" +:+ projectID +:+ "/locations/" +:+ location
               +:+ "/inputs/" +:+ inputID) in
        match err with
        | Some err => Ret (Some (Wrap "ReadFile" err))
        | None =>
          match Unmarshal requestStr with
          | Err err => Ret (Some (Wrap "Unmarshal" err))
          | Ok channel =>
            r <- perform (CreateChannel client
                            ("projects/" +:+ projectID +:+ "/locations/" +:+ location)
                            channelID channel) ;;
            match r with
            | Err err => Ret (Some (Wrap "CreateChannel" err))
            | Ok op =>
              r <- perform (WaitCreateChannel op) ;;
              match r with
              | Err err => Ret (Some (Wrap "Wait" err))
              | Ok response =>
                perform (Printf ("Channel created: " +:+ Channel_Name response +:+ nl)) ;;
                let channelInfo :=
                  [("channelID", Channel_Name response);
                   ("inputID", "projects/" +:+ projectID +:+ "/locations/" +:+ location
                                 +:+ "/inputs/" +:+ inputID);
                   ("gcsoutput", Channel_OutputUri response)] in
                match MarshalIndent channelInfo with
                | Err err => Ret (Some (Wrap "JSON marshal error" err))
                | Ok prettyJSON =>
                  perform (WriterWrite prettyJSON) ;;
                  perform (WriterWrite nl) ;;
                  r <- perform (Create (channelID +:+ ".json")) ;;
                  match r with
                  | Err err =>
                    perform (Printf ("Error creating channel file: " +:+ Error err)) ;;
                    Ret None
                  | Ok channelFile =>
                    defer (perform (FileClose channelFile)) (
                      r <- perform (FileWrite channelFile prettyJSON) ;;
                      match r with
                      | Err err => Ret (Some (Fmt "Error writing channel file" err))
                      | Ok _ => Ret None
                      end)
                  end
                end
              end
            end
          end
        end
      end)
  end.

(** Go's pair [(state, err)]: on failure the state is the zero value. *)
Definition getChannelState (client : Client) (channelName : string)
  : prog (StreamingState * option error) :=
  r <- perform (GetChannel client channelName) ;;
  match r with
  | Err err => Ret (STREAMING_STATE_UNSPECIFIED, Some (Wrap "GetChannel" err))
  | Ok channel => Ret (Channel_StreamingState channel, None)
  end.

Definition printChannelState (client : Client) (channelName : string) : prog unit :=
  x <- getChannelState client channelName ;;
  match x.2 with
  | Some err => perform (Printf ("Error getting channel state: " +:+ Error err))
  | None =>
    perform (Printf ("Channel " +:+ channelName +:+ " streaming state: "
                       +:+ StreamingState_String x.1 +:+ nl))
  end.

(** One pass through the body of the [for] loop that ends [main]. *)
Definition pollOnce (client : Client) (channelName : string) : prog unit :=
  x <- getChannelState client channelName ;;
  match x.2 with
  | Some err => perform (Printf ("Error getting channel state: " +:+ Error err))
  | None => Ret tt
  end ;;
  printChannelState client channelName ;;
  perform (Sleep 5).

(** The [for { ... }] loop, run for [n] passes.  The loop has no [break] and
    no [return]: after any number of passes control is still inside it. *)
Fixpoint pollLoop (n : nat) (client : Client) (channelName : string) : prog exit :=
  match n with
  | O => Ret Polling
  | S n' => pollOnce client channelName ;; pollLoop n' client channelName
  end.

(** [main], with the final loop run for [n] passes.  [defer client.Close()]
    takes effect at the [return] statements that follow it. *)
Definition main (n : nat) : prog exit :=
  err <- createInputIfNotExists projectID location inputID ;;
  match err with
  | Some err => perform (Printf ("Error during input creation: " +:+ Error err))
  | None => Ret tt
  end ;;
  let channelRequest := "request.json" in
  err <- createChannelIfNotExists projectID location channelID channelRequest ;;
  match err with
  | Some err => perform (Printf ("Error creating channel: " +:+ Error err))
  | None => Ret tt
  end ;;
  r <- perform NewClient ;;
  match r with
  | Err err =>
    perform (Printf ("Error creating client: " +:+ Error err)) ;;
    Ret Returned
  | Ok client =>
    let channelName :=
      "projects/" +:+ projectID +:+ "/locations/" +:+ location +:+ "/channels/" +:+ channelID in
    x <- getChannelState client channelName ;;
    let currentState := x.1 in
    match x.2 with
    | Some err =>
      perform (Printf ("Error getting initial channel state: " +:+ Error err)) ;;
      perform (Close client) ;; Ret Returned
    | None =>
      if negb (StreamingState_eqb currentState STREAMING)
         && negb (StreamingState_eqb currentState AWAITING_INPUT)
      then
        r <- perform (StartChannel client channelName) ;;
        match r with
        | Err err =>
          perform (Printf ("Error starting channel: " +:+ Error err)) ;;
          perform (Close client) ;; Ret Returned
        | Ok opStart =>
          r <- perform (WaitStart opStart) ;;
          match r with
          | Err err =>
            perform (Printf ("Error waiting for start operation: " +:+ Error err)) ;;
            perform (Close client) ;; Ret Returned
          | Ok _ =>
            perform (Printf ("Channel " +:+ channelName +:+ " started." +:+ nl)) ;;
            pollLoop n client channelName
          end
        end
      else
        perform (Printf ("Channel " +:+ channelName
                           +:+ " already started or starting, skipping start operation." +:+ nl)) ;;
        pollLoop n client channelName
    end
  end.

(** [main] in two parts, for the statements about what follows the ensure
    steps: the two ensure operations, each with the log line of its error,
    and the rest of [main] from the construction of the client on. *)
Definition main_ensure : prog unit :=
  err <- createInputIfNotExists projectID location inputID ;;
  match err with
  | Some err => perform (Printf ("Error during input creation: " +:+ Error err))
  | None => Ret tt
  end ;;
  let channelRequest := "request.json" in
  err <- createChannelIfNotExists projectID location channelID channelRequest ;;
  match err with
  | Some err => perform (Printf ("Error creating channel: " +:+ Error err))
  | None => Ret tt
  end.

Definition main_start (n : nat) : prog exit :=
  r <- perform NewClient ;;
  match r with
  | Err err =>
    perform (Printf ("Error creating client: " +:+ Error err)) ;;
    Ret Returned
  | Ok client =>
    let channelName :=
      "projects/" +:+ projectID +:+ "/locations/" +:+ location +:+ "/channels/" +:+ channelID in
    x <- getChannelState client channelName ;;
    let currentState := x.1 in
    match x.2 with
    | Some err =>
      perform (Printf ("Error getting initial channel state: " +:+ Error err)) ;;
      perform (Close client) ;; Ret Returned
    | None =>
      if negb (StreamingState_eqb currentState STREAMING)
         && negb (StreamingState_eqb currentState AWAITING_INPUT)
      then
        r <- perform (StartChannel client channelName) ;;
        match r with
        | Err err =>
          perform (Printf ("Error starting channel: " +:+ Error err)) ;;
          perform (Close client) ;; Ret Returned
        | Ok opStart =>
          r <- perform (WaitStart opStart) ;;
          match r with
          | Err err =>
            perform (Printf ("Error waiting for start operation: " +:+ Error err)) ;;
            perform (Close client) ;; Ret Returned
          | Ok _ =>
            perform (Printf ("Channel " +:+ channelName +:+ " started." +:+ nl)) ;;
            pollLoop n client channelName
          end
        end
      else
        perform (Printf ("Channel " +:+ channelName
                           +:+ " already started or starting, skipping start operation." +:+ nl)) ;;
        pollLoop n client channelName
    end
  end.

End Programs.

End CreateStream.

(** ** deleteAll/main.go *)

Module DeleteAll.

Definition projectID : string := "<PROJECT_NUMBER>".
Definition location : string := "<REGION>".

(** stopChannel stops a channel. *)
Definition stopChannel (client : Client) (channelName : string) : prog (option error) :=
  r <- perform (StopChannel client channelName) ;;
  match r with
  | Err err => Ret (Some (Wrap "StopChannel" err))
  | Ok op =>
    r <- perform (WaitStop op) ;;
    match r with
    | Err err => Ret (Some (Wrap "StopChannel Wait" err))
    | Ok _ =>
      perform (Printf ("Stopped channel: " +:+ channelName +:+ nl)) ;;
      Ret None
    end
  end.

(** The [for { item, err := it.Next() ... }] loop shared by the three
    listing functions: [items] is the slice built so far.  The result is
    Go's pair [(slice, err)]; [nil] is the empty slice. *)
Fixpoint drain {A : Type} (label : string) (it : Iterator A) (items : list A)
  : list A * option error :=
  match it with
  | [] => (items, None)
  | Err err :: _ => ([], Some (Wrap label err))
  | Ok item :: it' => drain label it' (items ++ [item])
  end.

Definition listInputs (client : Client) (projectID location : string)
  : prog (list Input * option error) :=
  let parent := "projects/" +:+ projectID +:+ "/locations/" +:+ location in
  inputIterator <- perform (ListInputs client parent) ;;
  Ret (drain "ListInputsIterator" inputIterator []).

Definition listChannels (client : Client) (projectID location : string)
  : prog (list Channel * option error) :=
  let parent := "projects/" +:+ projectID +:+ "/locations/" +:+ location in
  channelIterator <- perform (ListChannels client parent) ;;
  Ret (drain "ListChannelsIterator" channelIterator []).

Definition listEvents (client : Client) (projectID location channelName : string)
  : prog (list Event * option error) :=
  let parent := channelName in
  eventIterator <- perform (ListEvents client parent) ;;
  Ret (drain "ListEventsIterator" eventIterator []).

(** The loop of [deleteAllInputs] over what the iterator yields. *)
Fixpoint deleteInputs_loop (client : Client) (it : Iterator Input) : prog (option error) :=
  match it with
  | [] => Ret None
  | Err err :: _ => Ret (Some (Wrap "ListInputsIterator" err))
  | Ok input :: it' =>
    let inputName := Input_Name input in
    perform (Printf ("Deleting input: " +:+ inputName +:+ nl)) ;;
    r <- perform (DeleteInput client inputName) ;;
    match r with
    | Err err =>
      perform (Printf ("Error deleting input " +:+ inputName +:+ ": " +:+ Error err +:+ nl))
    | Ok _ => Ret tt
    end ;;
    deleteInputs_loop client it'
  end.

Definition deleteAllInputs (projectID location : string) : prog (option error) :=
  r <- perform NewClient ;;
  match r with
  | Err err => Ret (Some (Wrap "NewClient" err))
  | Ok client =>
    defer (perform (Close client)) (
      let parent := "projects/" +:+ projectID +:+ "/locations/" +:+ location in
      inputIterator <- perform (ListInputs client parent) ;;
      deleteInputs_loop client inputIterator)
  end.

(** The loop of [deleteAllChannels] over what the iterator yields. *)
Fixpoint deleteChannels_loop (client : Client) (it : Iterator Channel) : prog (option error) :=
  match it with
  | [] => Ret None
  | Err err :: _ => Ret (Some (Wrap "ListChannelsIterator" err))
  | Ok channel :: it' =>
    let channelName := Channel_Name channel in
    err <- stopChannel client channelName ;;
    match err with
    | Some err =>
      perform (Printf ("Error stopping channel " +:+ channelName +:+ ": " +:+ Error err +:+ nl))
    | None => Ret tt
    end ;;
    perform (Printf ("Deleting channel: " +:+ channelName +:+ nl)) ;;
    r <- perform (DeleteChannel client channelName) ;;
    match r with
    | Err err =>
      perform (Printf ("Error deleting channel " +:+ channelName +:+ ": " +:+ Error err +:+ nl))
    | Ok _ => Ret tt
    end ;;
    deleteChannels_loop client it'
  end.

Definition deleteAllChannels (projectID location : string) : prog (option error) :=
  r <- perform NewClient ;;
  match r with
  | Err err => Ret (Some (Wrap "NewClient" err))
  | Ok client =>
    defer (perform (Close client)) (
      let parent := "projects/" +:+ projectID +:+ "/locations/" +:+ location in
      channelIterator <- perform (ListChannels client parent) ;;
      deleteChannels_loop client channelIterator)
  end.

(** [for _, x := range xs { body x }]; [body] answers [false] when it
    executes [return]. *)
Fixpoint range {A : Type} (xs : list A) (body : A -> prog bool) : prog bool :=
  match xs with
  | [] => Ret true
  | x :: xs' =>
    go_on <- body x ;;
    if go_on : bool then range xs' body else Ret false
  end.

(** The informational report on one channel (the body of the second
    [range] loop of [main]). *)
Definition reportChannel (client : Client) (channel : Channel) : prog bool :=
  perform (Printf ("- " +:+ Channel_Name channel +:+ nl)) ;;
  x <- listEvents client projectID location (Channel_Name channel) ;;
  let events := x.1 in
  match x.2 with
  | Some err =>
    perform (Printf ("Error listing events for channel " +:+ Channel_Name channel
                       +:+ ": " +:+ Error err)) ;;
    Ret false
  | None =>
    (if (0 <? length events)%nat
     then
       perform (Printf ("  Events for channel " +:+ Channel_Name channel +:+ ":" +:+ nl)) ;;
       range events (fun event =>
         perform (Printf ("    - " +:+ Event_Name event +:+ nl)) ;; Ret true)
     else Ret true) ;;
    Ret true
  end.

Definition main : prog unit :=
  r <- perform NewClient ;;
  match r with
  | Err err => perform (Printf ("Error creating client: " +:+ Error err))
  | Ok client =>
    defer (perform (Close client)) (
      x <- listInputs client projectID location ;;
      let inputs := x.1 in
      match x.2 with
      | Some err => perform (Printf ("Error listing inputs: " +:+ Error err))
      | None =>
        perform (Printf ("Inputs:" +:+ nl)) ;;
        range inputs (fun input =>
          perform (Printf ("- " +:+ Input_Name input +:+ nl)) ;; Ret true) ;;
        x <- listChannels client projectID location ;;
        let channels := x.1 in
        match x.2 with
        | Some err => perform (Printf ("Error listing channels: " +:+ Error err))
        | None =>
          perform (Printf ("Channels:" +:+ nl)) ;;
          go_on <- range channels (reportChannel client) ;;
          if go_on : bool then
            err <- deleteAllChannels projectID location ;;
            match err with
            | Some err => perform (Printf ("Error deleting channels: " +:+ Error err))
            | None => Ret tt
            end ;;
            err <- deleteAllInputs projectID location ;;
            match err with
            | Some err => perform (Printf ("Error deleting inputs: " +:+ Error err))
            | None => Ret tt
            end ;;
            perform (Printf "Finished deleting all channels and inputs.")
          else Ret tt
        end
      end)
  end.

End DeleteAll.

(** ** Observations on traces *)

Definition result_error {A : Type} (r : result A) : option error :=
  match r with
  | Ok _ => None
  | Err e => Some e
  end.

(** The error a call answered with, if it failed. *)
Definition call_error {R : Type} (c : call R) : R -> option error :=
  match c in call R return R -> option error with
  | NewClient => result_error
  | GetInput _ _ => result_error
  | CreateInput _ _ _ _ => result_error
  | WaitCreateInput _ => result_error
  | GetChannel _ _ => result_error
  | CreateChannel _ _ _ _ => result_error
  | WaitCreateChannel _ => result_error
  | StartChannel _ _ => result_error
  | WaitStart _ => result_error
  | StopChannel _ _ => result_error
  | WaitStop _ => result_error
  | DeleteInput _ _ => result_error
  | DeleteChannel _ _ => result_error
  | ReadFile _ => snd
  | Create _ => result_error
  | FileWrite _ _ => result_error
  | _ => fun _ => None
  end.

Definition event_error (e : event) : option error :=
  match e with
  | Ev c r => call_error c r
  end.

(** A call without the handles it was made on: what was asked of the
    environment. *)
Inductive request :=
| ReqNewClient
| ReqClose
| ReqGetInput (name : string)
| ReqCreateInput (parent inputId : string) (input : Input)
| ReqWaitCreateInput
| ReqGetChannel (name : string)
| ReqCreateChannel (parent channelId : string) (channel : Channel)
| ReqWaitCreateChannel
| ReqStart (name : string)
| ReqWaitStart
| ReqStop (name : string)
| ReqWaitStop
| ReqDeleteInput (name : string)
| ReqDeleteChannel (name : string)
| ReqListInputs (parent : string)
| ReqListChannels (parent : string)
| ReqListEvents (parent : string)
| ReqReadFile (path : string)
| ReqCreateFile (path : string)
| ReqWriteFile (path bytes : string)
| ReqCloseFile (path : string)
| ReqOutput (bytes : string)
| ReqLog (line : string)
| ReqSleep (seconds : nat).

Definition call_request {R : Type} (c : call R) : request :=
  match c with
  | NewClient => ReqNewClient
  | Close _ => ReqClose
  | GetInput _ n => ReqGetInput n
  | CreateInput _ p i x => ReqCreateInput p i x
  | WaitCreateInput _ => ReqWaitCreateInput
  | GetChannel _ n => ReqGetChannel n
  | CreateChannel _ p i x => ReqCreateChannel p i x
  | WaitCreateChannel _ => ReqWaitCreateChannel
  | StartChannel _ n => ReqStart n
  | WaitStart _ => ReqWaitStart
  | StopChannel _ n => ReqStop n
  | WaitStop _ => ReqWaitStop
  | DeleteInput _ n => ReqDeleteInput n
  | DeleteChannel _ n => ReqDeleteChannel n
  | ListInputs _ p => ReqListInputs p
  | ListChannels _ p => ReqListChannels p
  | ListEvents _ p => ReqListEvents p
  | ReadFile p => ReqReadFile p
  | Create p => ReqCreateFile p
  | FileWrite f b => ReqWriteFile (file_path f) b
  | FileClose f => ReqCloseFile (file_path f)
  | WriterWrite b => ReqOutput b
  | Printf l => ReqLog l
  | Sleep n => ReqSleep n
  end.

Definition event_request (e : event) : request :=
  match e with
  | Ev c _ => call_request c
  end.

(** The requests a trace made, in order. *)
Definition requests (t : trace) : list request := map event_request t.

Definition is_create (q : request) : bool :=
  match q with
  | ReqCreateInput _ _ _ | ReqCreateChannel _ _ _ => true
  | _ => false
  end.

Definition is_start (q : request) : bool :=
  match q with ReqStart _ => true | _ => false end.

Definition is_stop (q : request) : bool :=
  match q with ReqStop _ => true | _ => false end.

Definition is_delete_input (q : request) : bool :=
  match q with ReqDeleteInput _ => true | _ => false end.

Definition is_delete_channel (q : request) : bool :=
  match q with ReqDeleteChannel _ => true | _ => false end.

Definition is_sleep (q : request) : bool :=
  match q with ReqSleep _ => true | _ => false end.

Definition is_write_file (q : request) : bool :=
  match q with ReqWriteFile _ _ => true | _ => false end.

(** The items an iterator yields before its first failed page fetch: the
    items the loops over it get to see. *)
Fixpoint yielded {A : Type} (it : Iterator A) : list A :=
  match it with
  | Ok a :: it' => a :: yielded it'
  | _ => []
  end.

(** The error on which an iterator stops, if a page fetch fails. *)
Fixpoint first_error {A : Type} (it : Iterator A) : option error :=
  match it with
  | [] => None
  | Ok _ :: it' => first_error it'
  | Err e :: _ => Some e
  end.

(** The stop and delete requests of a trace, in order. *)
Definition is_teardown (q : request) : bool :=
  is_stop q || is_delete_channel q || is_delete_input q.

Definition teardown_requests (t : trace) : list request :=
  List.filter is_teardown (requests t).

(** What tearing down one channel asks of the service, and what tearing
    down one input asks. *)
Definition channel_teardown (channel : Channel) : list request :=
  [ReqStop (Channel_Name channel); ReqDeleteChannel (Channel_Name channel)].

Definition input_teardown (input : Input) : list request :=
  [ReqDeleteInput (Input_Name input)].

(** The script a listing call was answered with. *)
Definition listed_inputs (e : event) : option (Iterator Input) :=
  match e with
  | Ev c r =>
      match c in call R return R -> option (Iterator Input) with
      | ListInputs _ _ => Some
      | _ => fun _ => None
      end r
  end.

Definition listed_channels (e : event) : option (Iterator Channel) :=
  match e with
  | Ev c r =>
      match c in call R return R -> option (Iterator Channel) with
      | ListChannels _ _ => Some
      | _ => fun _ => None
      end r
  end.

Definition listed_events (e : event) : option (Iterator Event) :=
  match e with
  | Ev c r =>
      match c in call R return R -> option (Iterator Event) with
      | ListEvents _ _ => Some
      | _ => fun _ => None
      end r
  end.

Definition is_get_channel (q : request) : bool :=
  match q with ReqGetChannel _ => true | _ => false end.

(** How many requests of a trace satisfy [f]. *)
Definition count_requests (f : request -> bool) (t : trace) : nat :=
  length (List.filter f (requests t)).

Definition is_log (q : request) : bool :=
  match q with ReqLog _ => true | _ => false end.

(** The log line that reports the failure [e] of the request [q], for the
    calls whose failure the loops log and pass over: a stop of a channel or
    the wait on it, a delete, a fetch of the channel's state.  [stopping] is
    the channel of the stop request last made: the wait on its operation
    does not name it. *)
Definition failure_line (stopping : string) (q : request) (e : error) : option string :=
  match q with
  | ReqStop name =>
      Some ("Error stopping channel " +:+ name +:+ ": "
              +:+ Error (Wrap "StopChannel" e) +:+ nl)
  | ReqWaitStop =>
      Some ("Error stopping channel " +:+ stopping +:+ ": "
              +:+ Error (Wrap "StopChannel Wait" e) +:+ nl)
  | ReqDeleteChannel name =>
      Some ("Error deleting channel " +:+ name +:+ ": " +:+ Error e +:+ nl)
  | ReqDeleteInput name =>
      Some ("Error deleting input " +:+ name +:+ ": " +:+ Error e +:+ nl)
  | ReqGetChannel _ =>
      Some ("Error getting channel state: " +:+ Error (Wrap "GetChannel" e))
  | _ => None
  end.

(** The trace starts with the log line [line]. *)
Definition starts_with_log (line : string) (t : trace) : bool :=
  match t with
  | e :: _ =>
      match event_request e with
      | ReqLog l => String.eqb l line
      | _ => false
      end
  | [] => false
  end.

(** Every failed stop, wait on a stop, delete or fetch of the trace is
    followed at once by the log line that reports it: the line of
    [failure_line], with the channel or input of the call and the error it
    was answered with. *)
Fixpoint failures_logged (stopping : string) (t : trace) : bool :=
  match t with
  | [] => true
  | e :: t' =>
      let stopping' :=
        match event_request e with
        | ReqStop name => name
        | _ => stopping
        end in
      match event_error e with
      | Some err =>
          match failure_line stopping' (event_request e) err with
          | Some line => starts_with_log line t'
          | None => true
          end
      | None => true
      end && failures_logged stopping' t'
  end.

(** The event is not an events listing that stopped on an error. *)
Definition events_listing_ok (e : event) : bool :=
  match listed_events e with
  | Some it =>
      match first_error it with
      | Some _ => false
      | None => true
      end
  | None => true
  end.

(** The channel a fetch was answered with. *)
Definition fetched_channel (e : event) : option Channel :=
  match e with
  | Ev c r =>
      match c in call R return R -> option Channel with
      | GetChannel _ _ => fun r => match r with Ok ch => Some ch | Err _ => None end
      | _ => fun _ => None
      end r
  end.

(** The client a call was made on, for the calls of the start policy. *)
Definition event_client (e : event) : option Client :=
  match e with
  | Ev c _ =>
      match c with
      | GetChannel cl _ | StartChannel cl _ | Close cl => Some cl
      | _ => None
      end
  end.

(** The calls whose failure the ensure operations return at once, with the
    label under which they wrap the error. *)
Definition fatal_label (q : request) : option string :=
  match q with
  | ReqNewClient => Some "NewClient"
  | ReqReadFile _ => Some "ReadFile"
  | ReqCreateInput _ _ _ => Some "CreateInput"
  | ReqCreateChannel _ _ _ => Some "CreateChannel"
  | ReqWaitCreateInput | ReqWaitCreateChannel => Some "Wait"
  | _ => None
  end.

(** The log line [main] writes for the error an ensure operation returned. *)
Definition logged_error (label : string) (err : option error) : trace :=
  match err with
  | Some e => [Ev (Printf (label +:+ Error e)) tt]
  | None => []
  end.

(** What a read of a file was answered with. *)
Definition file_read (e : event) : option (string * option error) :=
  match e with
  | Ev c r =>
      match c in call R return R -> option (string * option error) with
      | ReadFile _ => Some
      | _ => fun _ => None
      end r
  end.

(** The input a lookup or a finished create operation was answered with. *)
Definition answered_input (e : event) : option Input :=
  match e with
  | Ev c r =>
      match c in call R return R -> option Input with
      | GetInput _ _ | WaitCreateInput _ =>
          fun r => match r with Ok i => Some i | Err _ => None end
      | _ => fun _ => None
      end r
  end.

Definition answered_channel (e : event) : option Channel :=
  match e with
  | Ev c r =>
      match c in call R return R -> option Channel with
      | GetChannel _ _ | WaitCreateChannel _ =>
          fun r => match r with Ok i => Some i | Err _ => None end
      | _ => fun _ => None
      end r
  end.

Definition is_not_found (e : error) : bool :=
  match e with
  | StatusErr NotFound _ => true
  | _ => false
  end.

(** What one step of a run looked like from outside: the request made and
    the error it was answered with, if any. *)
Definition observe (e : event) : request * option error :=
  (event_request e, event_error e).

Definition steps (t : trace) : list (request * option error) := map observe t.

(** The run found the resource, or created it and saw the create operation
    complete. *)
Definition found_or_created (t : trace) : bool :=
  existsb (fun st =>
             match st with
             | (ReqGetInput _, None) | (ReqWaitCreateInput, None)
             | (ReqGetChannel _, None) | (ReqWaitCreateChannel, None) => true
             | _ => false
             end) (steps t).

(** ** Environments used to run the programs on concrete inputs *)

(** Every call succeeds; lookups find nothing and listings are empty. *)
Definition quiet_answer {R : Type} (c : call R) : R :=
  match c in call R return R with
  | NewClient => Ok (mkClient 0)
  | Close _ => tt
  | GetInput _ n => Err (StatusErr NotFound n)
  | CreateInput _ _ _ _ => Ok (mkOperation 0)
  | WaitCreateInput _ => Ok (mkInput "projects/p/locations/l/inputs/i" RTMP_PUSH "rtmp://1.2.3.4/live/i")
  | GetChannel _ n => Err (StatusErr NotFound n)
  | CreateChannel _ _ _ _ => Ok (mkOperation 1)
  | WaitCreateChannel _ => Ok (mkChannel "projects/p/locations/l/channels/c" [] "gs://b/o" STOPPED [])
  | StartChannel _ _ => Ok (mkOperation 2)
  | WaitStart _ => Ok tt
  | StopChannel _ _ => Ok (mkOperation 3)
  | WaitStop _ => Ok tt
  | DeleteInput _ _ => Ok (mkOperation 4)
  | DeleteChannel _ _ => Ok (mkOperation 5)
  | ListInputs _ _ => []
  | ListChannels _ _ => []
  | ListEvents _ _ => []
  | ReadFile _ => ("{}", None)
  | Create p => Ok (mkFile p)
  | FileWrite _ b => Ok (String.length b)
  | FileClose _ => tt
  | WriterWrite _ => tt
  | Printf _ => tt
  | Sleep _ => tt
  end.

Definition quiet : handler unit := fun R c w => (quiet_answer c, w).

(** A stand-in for [json.MarshalIndent] and for [protojson.Unmarshal] on
    concrete runs: the document is rendered member by member, and every
    template parses to the same small channel. *)
Definition marshal_members (doc : list (string * string)) : result string :=
  Ok (String.concat ("," +:+ nl)
        (map (fun kv => "  " +:+ kv.1 +:+ ": " +:+ kv.2) doc)).

Definition unmarshal_fixed (text : string) : result Channel :=
  Ok (mkChannel "" [mkInputAttachment "my-input" text] "gs://b/o"
        STREAMING_STATE_UNSPECIFIED []).

(** Lookups are refused with a permission error; everything else succeeds. *)
Definition lookups_denied : handler unit := fun R c w =>
  (match c in call R return R with
   | GetInput _ n => Err (StatusErr PermissionDenied n)
   | GetChannel _ n => Err (StatusErr PermissionDenied n)
   | c' => quiet_answer c'
   end, w).

(** Lookups find the resource; everything else succeeds. *)
Definition lookups_found : handler unit := fun R c w =>
  (match c in call R return R with
   | GetInput _ n => Ok (mkInput n RTMP_PUSH "rtmp://1.2.3.4/live/i")
   | GetChannel _ n => Ok (mkChannel n [] "gs://b/o" STOPPED [])
   | c' => quiet_answer c'
   end, w).

(** As [base], but the snapshot file cannot be created. *)
Definition create_file_fails (base : handler unit) : handler unit := fun R c w =>
  (match c in call R return R with
   | Create p => Err (OsErr ("open " +:+ p +:+ ": permission denied"))
   | c' => (base _ c' w).1
   end, w).

(** The listings answer with the given scripts; everything else succeeds. *)
Definition listing (ins : Iterator Input) (chs : Iterator Channel) (evs : Iterator Event)
  : handler unit := fun R c w =>
  (match c in call R return R with
   | ListInputs _ _ => ins
   | ListChannels _ _ => chs
   | ListEvents _ _ => evs
   | c' => quiet_answer c'
   end, w).

(** Stop and delete requests are refused; the listings answer with the
    given scripts. *)
Definition teardown_refused (ins : Iterator Input) (chs : Iterator Channel)
    (evs : Iterator Event) : handler unit := fun R c w =>
  (match c in call R return R with
   | StopChannel _ n => Err (StatusErr FailedPrecondition n)
   | DeleteChannel _ n => Err (StatusErr FailedPrecondition n)
   | DeleteInput _ n => Err (StatusErr FailedPrecondition n)
   | c' => (listing ins chs evs _ c' w).1
   end, w).

(** Every fetch of the channel fails. *)
Definition fetch_unavailable : handler unit := fun R c w =>
  (match c in call R return R with
   | GetChannel _ n => Err (StatusErr Unavailable n)
   | c' => quiet_answer c'
   end, w).

(** The input and the channel exist, the channel in state [st]. *)
Definition channel_in (st : StreamingState) : handler unit := fun R c w =>
  (match c in call R return R with
   | GetInput _ n => Ok (mkInput n RTMP_PUSH "rtmp://1.2.3.4/live/i")
   | GetChannel _ n => Ok (mkChannel n [] "gs://b/o" st [])
   | c' => quiet_answer c'
   end, w).

(** The creation of the input is refused.  The creation of the channel is
    accepted and carried out, but the wait on its operation times out; the
    state of the environment records that the channel now exists. *)
Definition creation_troubles : handler bool := fun R c w =>
  match c in call R return R * bool with
  | CreateInput _ _ _ _ => (Err (StatusErr PermissionDenied "inputs.create"), w)
  | CreateChannel _ _ _ _ => (Ok (mkOperation 1), true)
  | WaitCreateChannel _ => (Err (StatusErr DeadlineExceeded "operation"), w)
  | GetChannel _ n =>
      (if w then Ok (mkChannel n [] "gs://b/o" STOPPED [])
       else Err (StatusErr NotFound n), w)
  | c' => (quiet_answer c', w)
  end.

(** No client can be constructed. *)
Definition client_refused : handler unit := fun R c w =>
  (match c in call R return R with
   | NewClient => Err (StatusErr Unavailable "dial")
   | c' => quiet_answer c'
   end, w).

(** The listings answer with the given scripts and every call succeeds,
    but for the construction of the second client, which is refused.  The
    state counts the clients asked for. *)
Definition second_client_refused (ins : Iterator Input) (chs : Iterator Channel)
  : handler nat := fun R c k =>
  match c in call R return R * nat with
  | NewClient =>
      (if Nat.eqb k 1 then Err (StatusErr Unavailable "dial") else Ok (mkClient k), S k)
  | c' => ((listing ins chs [] _ c' tt).1, k)
  end.

(** ** A reference environment

    The Live Stream service as a store of inputs and channels, with the
    local files next to it.  [svc_faults] says what goes wrong, call by
    call: each call consumes one entry, [Some e] makes a fallible call fail
    with [e], and once the list is used up nothing goes wrong any more.
    Creating a resource records it under [parent/inputs/id] (or
    [parent/channels/id]) together with the finished operation; a lookup
    answers with what is recorded, or with a not-found status. *)
Record Service := mkService {
  svc_inputs : gmap string Input;
  svc_channels : gmap string Channel;
  svc_input_ops : gmap nat Input;
  svc_channel_ops : gmap nat Channel;
  svc_files : gmap string string;
  svc_next : nat;
  svc_faults : list (option error)
}.

Definition with_inputs (m : gmap string Input) (s : Service) : Service :=
  mkService m (svc_channels s) (svc_input_ops s) (svc_channel_ops s)
    (svc_files s) (svc_next s) (svc_faults s).

Definition with_channels (m : gmap string Channel) (s : Service) : Service :=
  mkService (svc_inputs s) m (svc_input_ops s) (svc_channel_ops s)
    (svc_files s) (svc_next s) (svc_faults s).

Definition with_input_op (i : Input) (s : Service) : Service :=
  mkService (svc_inputs s) (svc_channels s) (<[svc_next s := i]> (svc_input_ops s))
    (svc_channel_ops s) (svc_files s) (S (svc_next s)) (svc_faults s).

Definition with_channel_op (c : Channel) (s : Service) : Service :=
  mkService (svc_inputs s) (svc_channels s) (svc_input_ops s)
    (<[svc_next s := c]> (svc_channel_ops s)) (svc_files s) (S (svc_next s))
    (svc_faults s).

Definition with_files (m : gmap string string) (s : Service) : Service :=
  mkService (svc_inputs s) (svc_channels s) (svc_input_ops s) (svc_channel_ops s)
    m (svc_next s) (svc_faults s).

Definition with_next (n : nat) (s : Service) : Service :=
  mkService (svc_inputs s) (svc_channels s) (svc_input_ops s) (svc_channel_ops s)
    (svc_files s) n (svc_faults s).

Definition with_faults (fs : list (option error)) (s : Service) : Service :=
  mkService (svc_inputs s) (svc_channels s) (svc_input_ops s) (svc_channel_ops s)
    (svc_files s) (svc_next s) fs.

(** The fault of the current call, and the state with it consumed. *)
Definition next_fault (s : Service) : option error * Service :=
  match svc_faults s with
  | f :: fs => (f, with_faults fs s)
  | [] => (None, s)
  end.

(** A fallible call: fail with the fault if there is one. *)
Definition guarded {A : Type} (f : option error) (s : Service)
    (normal : result A * Service) : result A * Service :=
  match f with
  | Some e => (Err e, s)
  | None => normal
  end.

Definition set_state (st : StreamingState) (c : Channel) : Channel :=
  mkChannel (Channel_Name c) (Channel_InputAttachments c) (Channel_OutputUri c) st
    (Channel_Config c).

Definition service : handler Service := fun R c s0 =>
  let '(f, s) := next_fault s0 in
  match c in call R return R * Service with
  | NewClient =>
      guarded f s (Ok (mkClient (svc_next s)), with_next (S (svc_next s)) s)
  | Close _ => (tt, s)
  | GetInput _ n =>
      guarded f s
        (match svc_inputs s !! n with
         | Some i => Ok i
         | None => Err (StatusErr NotFound n)
         end, s)
  | CreateInput _ parent id input =>
      let name := parent +:+ "/inputs/" +:+ id in
      guarded f s
        (match svc_inputs s !! name with
         | Some _ => (Err (StatusErr AlreadyExists name), s)
         | None =>
             let created := mkInput name (Input_Type input) ("rtmp://ingest/" +:+ id) in
             (Ok (mkOperation (svc_next s)),
              with_input_op created (with_inputs (<[name := created]> (svc_inputs s)) s))
         end)
  | WaitCreateInput op =>
      guarded f s
        (match svc_input_ops s !! operation_id op with
         | Some i => Ok i
         | None => Err (StatusErr NotFound "operation")
         end, s)
  | GetChannel _ n =>
      guarded f s
        (match svc_channels s !! n with
         | Some ch => Ok ch
         | None => Err (StatusErr NotFound n)
         end, s)
  | CreateChannel _ parent id channel =>
      let name := parent +:+ "/channels/" +:+ id in
      guarded f s
        (match svc_channels s !! name with
         | Some _ => (Err (StatusErr AlreadyExists name), s)
         | None =>
             let created :=
               mkChannel name (Channel_InputAttachments channel)
                 (Channel_OutputUri channel) STOPPED (Channel_Config channel) in
             (Ok (mkOperation (svc_next s)),
              with_channel_op created
                (with_channels (<[name := created]> (svc_channels s)) s))
         end)
  | WaitCreateChannel op =>
      guarded f s
        (match svc_channel_ops s !! operation_id op with
         | Some ch => Ok ch
         | None => Err (StatusErr NotFound "operation")
         end, s)
  | StartChannel _ n =>
      guarded f s
        (match svc_channels s !! n with
         | Some ch =>
             (Ok (mkOperation (svc_next s)),
              with_next (S (svc_next s))
                (with_channels (<[n := set_state AWAITING_INPUT ch]> (svc_channels s)) s))
         | None => (Err (StatusErr NotFound n), s)
         end)
  | WaitStart _ => guarded f s (Ok tt, s)
  | StopChannel _ n =>
      guarded f s
        (match svc_channels s !! n with
         | Some ch =>
             (Ok (mkOperation (svc_next s)),
              with_next (S (svc_next s))
                (with_channels (<[n := set_state STOPPED ch]> (svc_channels s)) s))
         | None => (Err (StatusErr NotFound n), s)
         end)
  | WaitStop _ => guarded f s (Ok tt, s)
  | DeleteInput _ n =>
      guarded f s
        (match svc_inputs s !! n with
         | Some _ =>
             (Ok (mkOperation (svc_next s)),
              with_next (S (svc_next s)) (with_inputs (delete n (svc_inputs s)) s))
         | None => (Err (StatusErr NotFound n), s)
         end)
  | DeleteChannel _ n =>
      guarded f s
        (match svc_channels s !! n with
         | Some _ =>
             (Ok (mkOperation (svc_next s)),
              with_next (S (svc_next s)) (with_channels (delete n (svc_channels s)) s))
         | None => (Err (StatusErr NotFound n), s)
         end)
  | ListInputs _ _ =>
      (match f with
       | Some e => [Err e]
       | None => (fun kv => Ok kv.2) <$> map_to_list (svc_inputs s)
       end, s)
  | ListChannels _ _ =>
      (match f with
       | Some e => [Err e]
       | None => (fun kv => Ok kv.2) <$> map_to_list (svc_channels s)
       end, s)
  | ListEvents _ _ =>
      (match f with
       | Some e => [Err e]
       | None => []
       end, s)
  | ReadFile path =>
      (match f, svc_files s !! path with
       | Some e, _ => ("", Some e)
       | None, Some text => (text, None)
       | None, None => ("", Some (OsErr ("open " +:+ path +:+ ": no such file")))
       end, s)
  | Create path =>
      guarded f s (Ok (mkFile path), with_files (<[path := ""]> (svc_files s)) s)
  | FileWrite file bytes =>
      guarded f s
        (Ok (String.length bytes),
         with_files
           (<[file_path file := default "" (svc_files s !! file_path file) +:+ bytes]>
              (svc_files s)) s)
  | FileClose _ => (tt, s)
  | WriterWrite _ => (tt, s)
  | Printf _ => (tt, s)
  | Sleep _ => (tt, s)
  end.

(** What a run wrote to its writer, in order. *)
Definition outputs (t : trace) : list string :=
  omap (fun q => match q with ReqOutput b => Some b | _ => None end) (requests t).

(** What [json.MarshalIndent] turns into output: the document and a line
    feed, or nothing when it fails. *)
Definition rendered (MarshalIndent : list (string * string) -> result string)
    (doc : list (string * string)) : list string :=
  match MarshalIndent doc with
  | Ok bytes => [bytes; nl]
  | Err _ => []
  end.

(** What one call to [service] tells about the state before and after it. *)
Definition step_facts {R : Type} (c : call R) (s : Service) : R -> Service -> Prop :=
  match c in call R return R -> Service -> Prop with
  | GetInput _ n => fun r s' =>
      svc_inputs s' = svc_inputs s /\ svc_channels s' = svc_channels s
      /\ forall i, r = Ok i -> svc_inputs s !! n = Some i
  | GetChannel _ n => fun r s' =>
      svc_inputs s' = svc_inputs s /\ svc_channels s' = svc_channels s
      /\ forall ch, r = Ok ch -> svc_channels s !! n = Some ch
  | CreateInput _ parent id input => fun r s' =>
      forall op, r = Ok op ->
        let created :=
          mkInput (parent +:+ "/inputs/" +:+ id) (Input_Type input)
            ("rtmp://ingest/" +:+ id) in
        svc_inputs s' !! (parent +:+ "/inputs/" +:+ id) = Some created
        /\ svc_input_ops s' !! operation_id op = Some created
  | CreateChannel _ parent id channel => fun r s' =>
      forall op, r = Ok op ->
        let created :=
          mkChannel (parent +:+ "/channels/" +:+ id) (Channel_InputAttachments channel)
            (Channel_OutputUri channel) STOPPED (Channel_Config channel) in
        svc_channels s' !! (parent +:+ "/channels/" +:+ id) = Some created
        /\ svc_channel_ops s' !! operation_id op = Some created
  | WaitCreateInput op => fun r s' =>
      svc_inputs s' = svc_inputs s /\ svc_channels s' = svc_channels s
      /\ forall i, r = Ok i -> svc_input_ops s !! operation_id op = Some i
  | WaitCreateChannel op => fun r s' =>
      svc_inputs s' = svc_inputs s /\ svc_channels s' = svc_channels s
      /\ forall ch, r = Ok ch -> svc_channel_ops s !! operation_id op = Some ch
  | StartChannel _ _ | StopChannel _ _ | DeleteInput _ _ | DeleteChannel _ _ =>
      fun _ _ => True
  | _ => fun _ s' =>
      svc_inputs s' = svc_inputs s /\ svc_channels s' = svc_channels s
  end.

(** Events that neither tear anything down nor list events. *)
Definition harmless (e : event) : Prop :=
  is_teardown (event_request e) = false /\ listed_events e = None.

(** An empty project with nothing going wrong. *)
Definition empty_service : Service :=
  mkService ∅ ∅ ∅ ∅ ∅ 0 [].

(** ** Properties of every run

    [holds_after upd p Q g] reads a property off the program itself: the
    events of a run are summarised by folding [upd] over them from [g], and
    [Q] holds of the value returned and the summary reached, whatever the
    environment answers to the calls. *)
Fixpoint holds_after {A G : Type} (upd : G -> event -> G) (p : prog A)
    (Q : A -> G -> Prop) (g : G) : Prop :=
  match p with
  | Ret a => Q a g
  | Do c k => forall r, holds_after upd (k r) Q (upd g (Ev c r))
  end.

(** The summary "every request so far satisfies [P]". *)
Definition within (P : request -> bool) (ok : bool) (e : event) : bool :=
  if P (event_request e) then ok else false.

(** What the provisioning program may ask for: a client and its close; the
    lookup of its input and the creation of it as an empty [RTMP_PUSH]
    input; the lookup, the creation (with whatever channel the template
    parses to) and the start of its channel; the waits on these
    operations; a read of [request.json]; the creation of one of its two
    snapshot files; a write to or close of a file handle; output, a log
    line, and a sleep of five seconds. *)
Definition provisions_only (q : request) : bool :=
  let parent :=
    "projects/" +:+ CreateStream.projectID +:+ "/locations/" +:+ CreateStream.location in
  match q with
  | ReqNewClient | ReqClose | ReqWaitCreateInput | ReqWaitCreateChannel | ReqWaitStart
  | ReqWriteFile _ _ | ReqCloseFile _ | ReqOutput _ | ReqLog _ => true
  | ReqGetInput name => String.eqb name (parent +:+ "/inputs/" +:+ CreateStream.inputID)
  | ReqCreateInput p id input =>
      String.eqb p parent && String.eqb id CreateStream.inputID
      && String.eqb (Input_Name input) "" && String.eqb (Input_Uri input) ""
      && match Input_Type input with
         | RTMP_PUSH => true
         | _ => false
         end
  | ReqGetChannel name | ReqStart name =>
      String.eqb name (parent +:+ "/channels/" +:+ CreateStream.channelID)
  | ReqCreateChannel p id _ =>
      String.eqb p parent && String.eqb id CreateStream.channelID
  | ReqReadFile path => String.eqb path "request.json"
  | ReqCreateFile path =>
      String.eqb path (CreateStream.inputID +:+ ".json")
      || String.eqb path (CreateStream.channelID +:+ ".json")
  | ReqSleep seconds => Nat.eqb seconds 5
  | ReqStop _ | ReqWaitStop | ReqDeleteInput _ | ReqDeleteChannel _
  | ReqListInputs _ | ReqListChannels _ | ReqListEvents _ => false
  end.

(** What the teardown program may ask for: listings under its project and
    location, events of a channel, stops and deletes, and the log. *)
Definition tears_down_only (q : request) : bool :=
  let parent :=
    "projects/" +:+ DeleteAll.projectID +:+ "/locations/" +:+ DeleteAll.location in
  match q with
  | ReqNewClient | ReqClose | ReqListEvents _ | ReqStop _ | ReqWaitStop
  | ReqDeleteInput _ | ReqDeleteChannel _ | ReqLog _ => true
  | ReqListInputs p | ReqListChannels p => String.eqb p parent
  | _ => false
  end.






(** What an event does to the handles the program holds. *)
Inductive handle_event := OpensClient | ClosesClient | OpensFile | ClosesFile | NoHandle.

Definition handle_kind (e : event) : handle_event :=
  match observe e with
  | (ReqNewClient, None) => OpensClient
  | (ReqClose, _) => ClosesClient
  | (ReqCreateFile _, None) => OpensFile
  | (ReqCloseFile _, _) => ClosesFile
  | _ => NoHandle
  end.

(** The summary "clients open, files open": up by one for each successful
    construction, down by one for each close. *)
Definition tally (g : Z * Z) (e : event) : Z * Z :=
  match handle_kind e with
  | OpensClient => ((g.1 + 1)%Z, g.2)
  | ClosesClient => ((g.1 - 1)%Z, g.2)
  | OpensFile => (g.1, (g.2 + 1)%Z)
  | ClosesFile => (g.1, (g.2 - 1)%Z)
  | NoHandle => g
  end.


(** A text in which no marker starts: it has no ["<"]. *)
Fixpoint marker_free (s : string) : bool :=
  match s with
  | EmptyString => true
  | String c s' => negb (Ascii.eqb c "<") && marker_free s'
  end.

(** A template with two markers, and the text around them. *)
Definition template (a first b second c : string) : string :=
  a +:+ first +:+ b +:+ second +:+ c.

(** The template file holds [text]; everything else succeeds and lookups
    find nothing. *)
Definition template_on_disk (text : string) : handler unit := fun R c w =>
  (match c in call R return R with
   | ReadFile _ => (text, None)
   | c' => quiet_answer c'
   end, w).

(** What a fetch of the channel was answered with. *)
Definition fetch_answer (e : event) : option (result Channel) :=
  match e with
  | Ev c r =>
      match c in call R return R -> option (result Channel) with
      | GetChannel _ _ => Some
      | _ => fun _ => None
      end r
  end.

(** The log lines of a trace, in order. *)
Definition logged (t : trace) : list string :=
  omap (fun q => match q with ReqLog line => Some line | _ => None end) (requests t).

(** The log lines that go with the answers to the fetches of the polling
    loop, taken two by two: of the first answer of a pass only a failure
    shows, the second is reported. *)
Fixpoint poll_lines (channelName : string) (answers : list (result Channel)) : list string :=
  match answers with
  | first :: second :: rest =>
      match first with
      | Err e => ["Error getting channel state: " +:+ Error (Wrap "GetChannel" e)]
      | Ok _ => []
      end
      ++ match second with
         | Err e => "Error getting channel state: " +:+ Error (Wrap "GetChannel" e)
         | Ok channel =>
             "Channel " +:+ channelName +:+ " streaming state: "
               +:+ StreamingState_String (Channel_StreamingState channel) +:+ nl
         end
         :: poll_lines channelName rest
  | _ => []
  end.

(** No step of the trace failed. *)
Definition all_succeeded (t : trace) : bool :=
  forallb (fun st => match st.2 with None => true | Some _ => false end) (steps t).

Definition is_new_client (q : request) : bool :=
  match q with ReqNewClient => true | _ => false end.

(** The summary "clients asked for so far, and the requests made, last
    one first". *)
Definition seen (g : nat * list request) (e : event) : nat * list request :=
  (if is_new_client (event_request e) then S g.1 else g.1, event_request e :: g.2).

Definition is_list_events (q : request) : bool :=
  match q with ReqListEvents _ => true | _ => false end.

(** The summary of a run of the teardown program for its report: the
    clients asked for, the answer to the first listing of channels, and the
    listings of events asked for, in order. *)
Record Report := mkReport {
  rep_clients : nat;
  rep_channels : option (Iterator Channel);
  rep_events : list request
}.

Definition report (g : Report) (e : event) : Report :=
  mkReport
    (if is_new_client (event_request e) then S (rep_clients g) else rep_clients g)
    (match rep_channels g with
     | Some it => Some it
     | None => listed_channels e
     end)
    (if is_list_events (event_request e)
     then rep_events g ++ [event_request e]
     else rep_events g).

(** The summary still holds the listing [it] and the events [events]. *)
Definition kept (it : Iterator Channel) (events : list request) (g : Report) : Prop :=
  rep_channels g = Some it /\ rep_events g = events.

(** What a bulk delete leaves in the trace after its request for a client,
    which was answered with [answer].  With a client, the listing under
    [parent] comes first, and the stop and delete requests that follow are
    those of everything the listing yielded, in order.  Without one,
    nothing is torn down. *)
Definition bulk_of_channels (parent : string) (answer : result Client) (t : trace) : Prop :=
  match answer with
  | Ok c =>
      exists it rest,
        t = Ev (ListChannels c parent) it :: rest
        /\ teardown_requests rest = flat_map channel_teardown (yielded it)
  | Err _ => teardown_requests t = []
  end.

Definition bulk_of_inputs (parent : string) (answer : result Client) (t : trace) : Prop :=
  match answer with
  | Ok c =>
      exists it rest,
        t = Ev (ListInputs c parent) it :: rest
        /\ teardown_requests rest = flat_map input_teardown (yielded it)
  | Err _ => teardown_requests t = []
  end.

(** What an ensure operation returns when, after a failed lookup, the
    request [q] fails with [e]: the error under the label of the step.  A
    snapshot file that cannot be created is not an error there.
    [write_label] is the text the operation puts before the error of a
    failed write. *)
Definition returned_after_lookup (write_label : string) (q : request) (e : error)
  : option error :=
  match q with
  | ReqReadFile _ => Some (Wrap "ReadFile" e)
  | ReqCreateInput _ _ _ => Some (Wrap "CreateInput" e)
  | ReqCreateChannel _ _ _ => Some (Wrap "CreateChannel" e)
  | ReqWaitCreateInput | ReqWaitCreateChannel => Some (Wrap "Wait" e)
  | ReqWriteFile _ _ => Some (Fmt write_label e)
  | _ => None
  end.

(** * Theorems *)

(** ** Running programs *)

Lemma run_bind {W A B : Type} (h : handler W) (p : prog A) (f : A -> prog B) (w : W) :
  run h (bind p f) w =
  let '(a, w1, t1) := run h p w in
  let '(b, w2, t2) := run h (f a) w1 in
  (b, w2, t1 ++ t2).
Proof.
  revert w. induction p as [a | R c k IH]; intros w; cbn [bind run].
  - destruct (run h (f a) w) as [[b w2] t2]. reflexivity.
  - destruct (h R c w) as [r w1]. rewrite IH.
    destruct (run h (k r) w1) as [[a w2] t1].
    destruct (run h (f a) w2) as [[b w3] t2]. reflexivity.
Qed.

(** One step of symbolic execution against an arbitrary environment. *)
Ltac run_step h :=
  cbn [run bind perform defer fst snd] in *;
  match goal with
  | |- context [h ?R ?c ?w] =>
      let r := fresh "r" in
      let w' := fresh "w" in
      destruct (h R c w) as [r w'] eqn:?
  end;
  cbn [run bind perform defer fst snd] in *.

Ltac run_all h :=
  repeat (first
    [ run_step h
    | match goal with
      | |- context [fst ?r] => is_var r; destruct r
      | |- context [snd ?r] => is_var r; destruct r
      | |- context [match ?r with Ok _ => _ | Err _ => _ end] =>
          first [is_var r; destruct r | destruct r eqn:?]
      | |- context [match ?r with Some _ => _ | None => _ end] =>
          first [is_var r; destruct r | destruct r eqn:?]
      end; cbn [run bind perform defer fst snd] in * ]).

(** Reduce the observations made on an explicit trace. *)
Ltac see_trace :=
  cbn; unfold observe, event_request, event_error; cbn.

Ltac steps_hyp H :=
  cbn in H; unfold observe, event_request, event_error in H; cbn in H.

(** Go through the positions of an explicit list: [tac] at each position,
    nothing left past the end. *)
Ltac each_position i Hi tac :=
  first
    [ (cbn in Hi; rewrite ?lookup_nil in Hi; discriminate Hi)
    | destruct i as [|i];
      [ cbn in Hi; tac
      | cbn in Hi; each_position i Hi tac ] ].

Section EnsureFacts.

Context {W : Type} (h : handler W).
Variable MarshalIndent : list (string * string) -> result string.
Variable Unmarshal : string -> result Channel.

(** What the claim C1 asks of a run of [createInputIfNotExists]: a lookup
    failure other than not-found comes back as an error and no create
    request is made.  The code tests [err == nil] only. *)

(** C1 (amended), ensure-input and ensure-channel: a failed lookup, whatever
    its error, is never returned; the function goes on to the create path.
    [createInputIfNotExists] makes the create request as its next call;
    [createChannelIfNotExists] reads the template next and, when the file
    was read and the substituted text parses, makes the create request with
    the parsed channel.  What the function returns after a failed lookup
    does not depend on the lookup's error: it is the error of the later
    step that failed, under that step's label, and when no later step
    failed it is [nil] or the error of the marshalling or of the parse.  A
    successful lookup makes no create request. *)
Theorem lookup_failure_enters_create_path (w : W) (p l id path : string) :
  (let x := run h (CreateStream.createInputIfNotExists MarshalIndent p l id) w in
   (forall n e,
      steps (trace_of x) !! 1 = Some (ReqGetInput n, Some e) ->
      requests (trace_of x) !! 2
      = Some (ReqCreateInput ("projects/" +:+ p +:+ "/locations/" +:+ l) id
                (mkInput "" RTMP_PUSH ""))
      /\ (forall i q e',
            1 < i ->
            steps (trace_of x) !! i = Some (q, Some e') ->
            value_of x = returned_after_lookup "Error writing to input file" q e')
      /\ (all_succeeded (drop 2 (trace_of x)) = true ->
          value_of x = None
          \/ exists doc e',
               MarshalIndent doc = Err e'
               /\ value_of x = Some (Wrap "JSON marshal error" e')))
   /\ (forall n,
      steps (trace_of x) !! 1 = Some (ReqGetInput n, None) ->
      existsb is_create (requests (trace_of x)) = false))
  /\
  (let x := run h (CreateStream.createChannelIfNotExists MarshalIndent Unmarshal
                     p l id path) w in
   (forall n e,
      steps (trace_of x) !! 1 = Some (ReqGetChannel n, Some e) ->
      (exists text err,
         trace_of x !! 2 = Some (Ev (ReadFile path) (text, err))
         /\ forall channel,
              err = None ->
              Unmarshal
                (ReplaceAll (ReplaceAll text "<GCS_OUTPUT>" CreateStream.gcsoutput)
                   "<GCP_OTHER_INFO>"
                   ("projects/" +:+ p +:+ "/locations/" +:+ l +:+ "/inputs/"
                      +:+ CreateStream.inputID)) = Ok channel ->
              requests (trace_of x) !! 3
              = Some (ReqCreateChannel ("projects/" +:+ p +:+ "/locations/" +:+ l)
                        id channel))
      /\ (forall i q e',
            1 < i ->
            steps (trace_of x) !! i = Some (q, Some e') ->
            value_of x = returned_after_lookup "Error writing channel file" q e')
      /\ (all_succeeded (drop 2 (trace_of x)) = true ->
          value_of x = None
          \/ (exists doc e',
                MarshalIndent doc = Err e'
                /\ value_of x = Some (Wrap "JSON marshal error" e'))
          \/ (exists text e',
                Unmarshal text = Err e'
                /\ value_of x = Some (Wrap "Unmarshal" e'))))
   /\ (forall n,
      steps (trace_of x) !! 1 = Some (ReqGetChannel n, None) ->
      existsb is_create (requests (trace_of x)) = false)).
Proof.
  split; (split; [intros n e | intros n]).
  - unfold CreateStream.createInputIfNotExists. run_all h.
    all: unfold value_of, trace_of; cbn [fst snd]; intros Hlookup.
    all: steps_hyp Hlookup; try discriminate Hlookup.
    all: (split; [reflexivity|]); split.
    all: try (intros i q e' Hi Hs; destruct i as [|[|i]]; [lia | lia |];
              unfold steps, observe in Hs;
              each_position i Hs
                ltac:(first [discriminate Hs | injection Hs as <- <-; reflexivity])).
    all: intros Hok; first [discriminate Hok | by left | right; by eexists _, _].
  - unfold CreateStream.createInputIfNotExists. run_all h; see_trace; congruence.
  - unfold CreateStream.createChannelIfNotExists. run_all h.
    all: unfold value_of, trace_of; cbn [fst snd]; intros Hlookup.
    all: steps_hyp Hlookup; try discriminate Hlookup.
    all: split; [eexists _, _; (split; [reflexivity|]); intros channel Hn Hu;
                 cbn [fst snd] in *; see_trace; congruence|].
    all: split.
    all: try (intros i q e' Hi Hs; destruct i as [|[|i]]; [lia | lia |];
              unfold steps, observe in Hs;
              each_position i Hs
                ltac:(first [discriminate Hs | injection Hs as <- <-; reflexivity])).
    all: intros Hok;
      first [discriminate Hok | by left | right; left; by eexists _, _
            | right; right; by eexists _, _].
  - unfold CreateStream.createChannelIfNotExists. run_all h; see_trace; try congruence.
Qed.

(** C10: in both ensure operations a failure to create the snapshot file is
    returned as an error when the resource was found, and is only logged,
    with [nil] returned and no file written, when the resource was just
    created. *)
Theorem snapshot_create_failure_asymmetric (w : W) (p l id path : string) :
  (let x := run h (CreateStream.createInputIfNotExists MarshalIndent p l id) w in
   (forall n f e,
      steps (trace_of x) !! 1 = Some (ReqGetInput n, None) ->
      In (ReqCreateFile f, Some e) (steps (trace_of x)) ->
      value_of x = Some (Fmt "Error creating input file" e))
   /\ (forall n e0 f e,
      steps (trace_of x) !! 1 = Some (ReqGetInput n, Some e0) ->
      In (ReqCreateFile f, Some e) (steps (trace_of x)) ->
      value_of x = None
      /\ In (ReqLog ("Error creating input file: " +:+ Error e)) (requests (trace_of x))
      /\ existsb is_create (requests (trace_of x)) = true
      /\ existsb is_write_file (requests (trace_of x)) = false))
  /\
  (let x := run h (CreateStream.createChannelIfNotExists MarshalIndent Unmarshal
                     p l id path) w in
   (forall n f e,
      steps (trace_of x) !! 1 = Some (ReqGetChannel n, None) ->
      In (ReqCreateFile f, Some e) (steps (trace_of x)) ->
      value_of x = Some (Fmt "Error creating channel file" e))
   /\ (forall n e0 f e,
      steps (trace_of x) !! 1 = Some (ReqGetChannel n, Some e0) ->
      In (ReqCreateFile f, Some e) (steps (trace_of x)) ->
      value_of x = None
      /\ In (ReqLog ("Error creating channel file: " +:+ Error e)) (requests (trace_of x))
      /\ existsb is_create (requests (trace_of x)) = true
      /\ existsb is_write_file (requests (trace_of x)) = false)).
Proof.
  split; (split; [intros n f e | intros n e0 f e]).
  - unfold CreateStream.createInputIfNotExists.
    run_all h; see_trace; intuition congruence.
  - unfold CreateStream.createInputIfNotExists.
    run_all h; see_trace; intuition congruence.
  - unfold CreateStream.createChannelIfNotExists.
    run_all h; see_trace; intuition congruence.
  - unfold CreateStream.createChannelIfNotExists.
    run_all h; see_trace; intuition congruence.
Qed.

End EnsureFacts.

(** C1, as stated, fails: the lookup of the input is refused with a
    permission error, which is not a not-found condition, and yet the create
    request is made and the call reports success. *)
Lemma lookup_failure_not_surfaced :
  let x := run lookups_denied
             (CreateStream.createInputIfNotExists marshal_members "p" "l" "i") tt in
  steps (trace_of x) !! 1
    = Some (ReqGetInput "projects/p/locations/l/inputs/i",
            Some (StatusErr PermissionDenied "projects/p/locations/l/inputs/i"))
  /\ is_not_found (StatusErr PermissionDenied "projects/p/locations/l/inputs/i") = false
  /\ existsb is_create (requests (trace_of x)) = true
  /\ value_of x = None.
Proof. repeat split; reflexivity. Qed.

Lemma lookup_failure_enters_create_path_witness :
  let denied name := StatusErr PermissionDenied name in
  let x := run lookups_denied
             (CreateStream.createInputIfNotExists marshal_members "p" "l" "i") tt in
  let x' := run lookups_found
              (CreateStream.createInputIfNotExists marshal_members "p" "l" "i") tt in
  let x'' := run creation_troubles
               (CreateStream.createInputIfNotExists marshal_members "p" "l" "i") false in
  let y := run lookups_denied
             (CreateStream.createChannelIfNotExists marshal_members unmarshal_fixed
                "p" "l" "c" "request.json") tt in
  let y' := run lookups_found
              (CreateStream.createChannelIfNotExists marshal_members unmarshal_fixed
                 "p" "l" "c" "request.json") tt in
  let y'' := run creation_troubles
               (CreateStream.createChannelIfNotExists marshal_members unmarshal_fixed
                  "p" "l" "c" "request.json") false in
  (requests (trace_of x) !! 2
   = Some (ReqCreateInput "projects/p/locations/l" "i" (mkInput "" RTMP_PUSH ""))
   /\ existsb is_create (requests (trace_of x')) = false
   /\ value_of x'' = Some (Wrap "CreateInput" (StatusErr PermissionDenied "inputs.create")))
  /\ (requests (trace_of y) !! 3
      = Some (ReqCreateChannel "projects/p/locations/l" "c"
                (mkChannel ""
                   [mkInputAttachment "my-input" "{}"] "gs://b/o"
                   STREAMING_STATE_UNSPECIFIED []))
      /\ existsb is_create (requests (trace_of y')) = false
      /\ value_of y'' = Some (Wrap "Wait" (StatusErr DeadlineExceeded "operation"))).
Proof.
  intros denied x x' x'' y y' y''. split; (split; [|split]).
  - apply (proj1 (proj1 (proj1 (lookup_failure_enters_create_path lookups_denied
                           marshal_members unmarshal_fixed tt "p" "l" "i" "request.json"))
             "projects/p/locations/l/inputs/i"
             (denied "projects/p/locations/l/inputs/i") eq_refl)).
  - apply (proj2 (proj1 (lookup_failure_enters_create_path lookups_found
                           marshal_members unmarshal_fixed tt "p" "l" "i" "request.json"))
             "projects/p/locations/l/inputs/i" eq_refl).
  - apply (proj1 (proj2 (proj1 (proj1 (lookup_failure_enters_create_path creation_troubles
                           marshal_members unmarshal_fixed false "p" "l" "i" "request.json"))
             "projects/p/locations/l/inputs/i"
             (StatusErr NotFound "projects/p/locations/l/inputs/i") eq_refl))
             2 (ReqCreateInput "projects/p/locations/l" "i" (mkInput "" RTMP_PUSH ""))
             (StatusErr PermissionDenied "inputs.create")); [lia | reflexivity].
  - destruct (proj1 (proj1 (proj2 (lookup_failure_enters_create_path lookups_denied
                           marshal_members unmarshal_fixed tt "p" "l" "c" "request.json"))
             "projects/p/locations/l/channels/c"
             (denied "projects/p/locations/l/channels/c") eq_refl))
      as (text & err & Hread & Hcreate).
    apply (f_equal (fun o => e ← o; file_read e)) in Hread. cbn in Hread.
    injection Hread as <- <-. apply Hcreate; reflexivity.
  - apply (proj2 (proj2 (lookup_failure_enters_create_path lookups_found
                           marshal_members unmarshal_fixed tt "p" "l" "c" "request.json"))
             "projects/p/locations/l/channels/c" eq_refl).
  - apply (proj1 (proj2 (proj1 (proj2 (lookup_failure_enters_create_path creation_troubles
                           marshal_members unmarshal_fixed false "p" "l" "c" "request.json"))
             "projects/p/locations/l/channels/c"
             (StatusErr NotFound "projects/p/locations/l/channels/c") eq_refl))
             4 ReqWaitCreateChannel (StatusErr DeadlineExceeded "operation"));
      [lia | reflexivity].
Defined.

Lemma snapshot_create_failure_asymmetric_witness :
  let e := OsErr "open i.json: permission denied" in
  let e' := OsErr "open c.json: permission denied" in
  let x := run (create_file_fails lookups_found)
             (CreateStream.createInputIfNotExists marshal_members "p" "l" "i") tt in
  let y := run (create_file_fails quiet)
             (CreateStream.createInputIfNotExists marshal_members "p" "l" "i") tt in
  let u := run (create_file_fails lookups_found)
             (CreateStream.createChannelIfNotExists marshal_members unmarshal_fixed
                "p" "l" "c" "request.json") tt in
  let v := run (create_file_fails quiet)
             (CreateStream.createChannelIfNotExists marshal_members unmarshal_fixed
                "p" "l" "c" "request.json") tt in
  (value_of x = Some (Fmt "Error creating input file" e)
   /\ value_of y = None
   /\ existsb is_write_file (requests (trace_of y)) = false)
  /\ value_of u = Some (Fmt "Error creating channel file" e')
  /\ (value_of v = None
      /\ In (ReqLog ("Error creating channel file: " +:+ Error e')) (requests (trace_of v))
      /\ existsb is_create (requests (trace_of v)) = true
      /\ existsb is_write_file (requests (trace_of v)) = false).
Proof.
  intros e e' x y u v. split; [split; [|split]|split].
  - apply (proj1 (proj1 (snapshot_create_failure_asymmetric
                           (create_file_fails lookups_found)
                           marshal_members unmarshal_fixed tt "p" "l" "i" "request.json"))
             "projects/p/locations/l/inputs/i" "i.json" e).
    + reflexivity.
    + cbn. tauto.
  - apply (proj2 (proj1 (snapshot_create_failure_asymmetric
                           (create_file_fails quiet)
                           marshal_members unmarshal_fixed tt "p" "l" "i" "request.json"))
             "projects/p/locations/l/inputs/i"
             (StatusErr NotFound "projects/p/locations/l/inputs/i") "i.json" e).
    + reflexivity.
    + cbn. tauto.
  - apply (proj2 (proj1 (snapshot_create_failure_asymmetric
                           (create_file_fails quiet)
                           marshal_members unmarshal_fixed tt "p" "l" "i" "request.json"))
             "projects/p/locations/l/inputs/i"
             (StatusErr NotFound "projects/p/locations/l/inputs/i") "i.json" e).
    + reflexivity.
    + cbn. tauto.
  - apply (proj1 (proj2 (snapshot_create_failure_asymmetric
                           (create_file_fails lookups_found)
                           marshal_members unmarshal_fixed tt "p" "l" "c" "request.json"))
             "projects/p/locations/l/channels/c" "c.json" e').
    + reflexivity.
    + cbn. tauto.
  - apply (proj2 (proj2 (snapshot_create_failure_asymmetric
                           (create_file_fails quiet)
                           marshal_members unmarshal_fixed tt "p" "l" "c" "request.json"))
             "projects/p/locations/l/channels/c"
             (StatusErr NotFound "projects/p/locations/l/channels/c") "c.json" e').
    + reflexivity.
    + cbn. tauto.
Defined.

(** ** Listings *)

Lemma drain_all {A : Type} (label : string) (items acc : list A) :
  DeleteAll.drain label (map Ok items) acc = (acc ++ items, None).
Proof.
  revert acc. induction items as [|a items IH]; intros acc; cbn.
  - by rewrite app_nil_r.
  - rewrite IH. by rewrite <- app_assoc.
Qed.

Lemma drain_error {A : Type} (label : string) (pre : list A) (e : error)
    (post : Iterator A) (acc : list A) :
  DeleteAll.drain label (map Ok pre ++ Err e :: post) acc = ([], Some (Wrap label e)).
Proof.
  revert acc. induction pre as [|a pre IH]; intros acc; cbn; [reflexivity | apply IH].
Qed.

Section ListingFacts.

Context {W : Type} (h : handler W).

(** C7: each of the three listing functions returns, when the iterator is
    exhausted without error, all the items it yielded, in order; when a page
    fetch fails, it returns the error with the nil slice, whatever was
    yielded before. *)
Theorem listing_all_or_nothing (w : W) (client : Client) (p l channelName : string) :
  let parent := "projects/" +:+ p +:+ "/locations/" +:+ l in
  ((forall items,
      (h _ (ListInputs client parent) w).1 = map Ok items ->
      value_of (run h (DeleteAll.listInputs client p l) w) = (items, None))
   /\ (forall pre e post,
      (h _ (ListInputs client parent) w).1 = map Ok pre ++ Err e :: post ->
      value_of (run h (DeleteAll.listInputs client p l) w)
      = ([], Some (Wrap "ListInputsIterator" e))))
  /\
  ((forall items,
      (h _ (ListChannels client parent) w).1 = map Ok items ->
      value_of (run h (DeleteAll.listChannels client p l) w) = (items, None))
   /\ (forall pre e post,
      (h _ (ListChannels client parent) w).1 = map Ok pre ++ Err e :: post ->
      value_of (run h (DeleteAll.listChannels client p l) w)
      = ([], Some (Wrap "ListChannelsIterator" e))))
  /\
  ((forall items,
      (h _ (ListEvents client channelName) w).1 = map Ok items ->
      value_of (run h (DeleteAll.listEvents client p l channelName) w) = (items, None))
   /\ (forall pre e post,
      (h _ (ListEvents client channelName) w).1 = map Ok pre ++ Err e :: post ->
      value_of (run h (DeleteAll.listEvents client p l channelName) w)
      = ([], Some (Wrap "ListEventsIterator" e)))).
Proof.
  intros parent. subst parent.
  unfold DeleteAll.listInputs, DeleteAll.listChannels, DeleteAll.listEvents.
  repeat split; intros; run_step h; cbn [fst] in *; subst;
    unfold value_of; cbn [fst]; auto using drain_all, drain_error.
Qed.

End ListingFacts.

Lemma listing_all_or_nothing_witness :
  let i1 := mkInput "projects/p/locations/l/inputs/a" RTMP_PUSH "rtmp://a" in
  let i2 := mkInput "projects/p/locations/l/inputs/b" RTMP_PUSH "rtmp://b" in
  let e := StatusErr Unavailable "page 2" in
  value_of (run (listing [Ok i1; Ok i2] [] [])
              (DeleteAll.listInputs (mkClient 0) "p" "l") tt) = ([i1; i2], None)
  /\ value_of (run (listing [Ok i1; Err e; Ok i2] [] [])
                 (DeleteAll.listInputs (mkClient 0) "p" "l") tt)
     = ([], Some (Wrap "ListInputsIterator" e)).
Proof.
  intros i1 i2 e. split.
  - apply (proj1 (proj1 (listing_all_or_nothing (listing [Ok i1; Ok i2] [] [])
                           tt (mkClient 0) "p" "l" "c")) [i1; i2]).
    reflexivity.
  - apply (proj2 (proj1 (listing_all_or_nothing (listing [Ok i1; Err e; Ok i2] [] [])
                           tt (mkClient 0) "p" "l" "c")) [i1] e [Ok i2]).
    reflexivity.
Defined.

(** ** Teardown *)

Lemma teardown_requests_app (t1 t2 : trace) :
  teardown_requests (t1 ++ t2) = teardown_requests t1 ++ teardown_requests t2.
Proof. unfold teardown_requests, requests. by rewrite map_app, List.filter_app. Qed.

Lemma teardown_requests_cons (e : event) (t : trace) :
  teardown_requests (e :: t)
  = (if is_teardown (event_request e) then [event_request e] else [])
      ++ teardown_requests t.
Proof. unfold teardown_requests, requests. cbn. by destruct (is_teardown _). Qed.

(** Reduce [failures_logged] over the explicit head of a trace. *)
Ltac logged_norm :=
  repeat (progress (lazy beta iota zeta delta
                      [failures_logged event_request call_request event_error
                       call_error result_error failure_line starts_with_log
                       andb fst snd];
                    rewrite ?String.eqb_refl)).

Section TeardownFacts.

Context {W : Type} (h : handler W).

Lemma deleteChannels_loop_requests (client : Client) (it : Iterator Channel) (w : W) :
  teardown_requests (trace_of (run h (DeleteAll.deleteChannels_loop client it) w))
  = flat_map channel_teardown (yielded it).
Proof.
  revert w. induction it as [|[channel|e] it IH]; intros w; [reflexivity | | reflexivity].
  cbn [DeleteAll.deleteChannels_loop yielded flat_map].
  unfold DeleteAll.stopChannel.
  run_all h.
  all: match goal with
       | |- context [run h (DeleteAll.deleteChannels_loop ?c ?i) ?w'] =>
           specialize (IH w');
           destruct (run h (DeleteAll.deleteChannels_loop c i) w') as [[v wz] t]
       end.
  all: unfold trace_of in *; cbn [snd] in *.
  all: rewrite !teardown_requests_cons; cbn; by rewrite IH.
Qed.

Lemma deleteInputs_loop_requests (client : Client) (it : Iterator Input) (w : W) :
  teardown_requests (trace_of (run h (DeleteAll.deleteInputs_loop client it) w))
  = flat_map input_teardown (yielded it).
Proof.
  revert w. induction it as [|[input|e] it IH]; intros w; [reflexivity | | reflexivity].
  cbn [DeleteAll.deleteInputs_loop yielded flat_map].
  run_all h.
  all: match goal with
       | |- context [run h (DeleteAll.deleteInputs_loop ?c ?i) ?w'] =>
           specialize (IH w');
           destruct (run h (DeleteAll.deleteInputs_loop c i) w') as [[v wz] t]
       end.
  all: unfold trace_of in *; cbn [snd] in *.
  all: rewrite !teardown_requests_cons; cbn; by rewrite IH.
Qed.

Lemma deleteChannels_loop_events_ok (client : Client) (it : Iterator Channel) (w : W) :
  forallb events_listing_ok
    (trace_of (run h (DeleteAll.deleteChannels_loop client it) w)) = true.
Proof.
  revert w. induction it as [|[channel|e] it IH]; intros w; [reflexivity | | reflexivity].
  cbn [DeleteAll.deleteChannels_loop]. unfold DeleteAll.stopChannel.
  run_all h.
  all: match goal with
       | |- context [run h (DeleteAll.deleteChannels_loop ?c ?i) ?w'] =>
           specialize (IH w');
           destruct (run h (DeleteAll.deleteChannels_loop c i) w') as [[v wz] t]
       end.
  all: unfold trace_of in *; cbn [snd] in *.
  all: cbn [forallb]; by rewrite IH.
Qed.

Lemma deleteInputs_loop_events_ok (client : Client) (it : Iterator Input) (w : W) :
  forallb events_listing_ok
    (trace_of (run h (DeleteAll.deleteInputs_loop client it) w)) = true.
Proof.
  revert w. induction it as [|[input|e] it IH]; intros w; [reflexivity | | reflexivity].
  cbn [DeleteAll.deleteInputs_loop].
  run_all h.
  all: match goal with
       | |- context [run h (DeleteAll.deleteInputs_loop ?c ?i) ?w'] =>
           specialize (IH w');
           destruct (run h (DeleteAll.deleteInputs_loop c i) w') as [[v wz] t]
       end.
  all: unfold trace_of in *; cbn [snd] in *.
  all: cbn [forallb]; by rewrite IH.
Qed.

Lemma failures_logged_quiet_end (stopping : string) (t : trace) (e : event) :
  failures_logged stopping t = true ->
  event_error e = None ->
  failures_logged stopping (t ++ [e]) = true.
Proof.
  revert stopping. induction t as [|e0 t IH]; intros stopping Ht He.
  - cbn. by rewrite He.
  - cbn [failures_logged app] in *. apply andb_true_iff in Ht as [Hh Ht].
    rewrite (IH _ Ht He), andb_true_r.
    destruct (event_error e0) as [err|]; [|reflexivity].
    destruct (failure_line _ _ err); [|reflexivity].
    destruct t; [discriminate Hh | exact Hh].
Qed.

Lemma deleteChannels_loop_logged (client : Client) (it : Iterator Channel) (w : W)
    (stopping : string) :
  failures_logged stopping
    (trace_of (run h (DeleteAll.deleteChannels_loop client it) w)) = true.
Proof.
  revert w stopping.
  induction it as [|[channel|e] it IH]; intros w stopping; [reflexivity | | reflexivity].
  cbn [DeleteAll.deleteChannels_loop]. unfold DeleteAll.stopChannel.
  run_all h.
  all: match goal with
       | |- context [run h (DeleteAll.deleteChannels_loop ?c ?i) ?w'] =>
           specialize (IH w');
           destruct (run h (DeleteAll.deleteChannels_loop c i) w') as [[v wz] t]
       end.
  all: unfold trace_of in *; cbn [snd] in *.
  all: logged_norm; by rewrite IH.
Qed.

Lemma deleteInputs_loop_logged (client : Client) (it : Iterator Input) (w : W)
    (stopping : string) :
  failures_logged stopping
    (trace_of (run h (DeleteAll.deleteInputs_loop client it) w)) = true.
Proof.
  revert w stopping.
  induction it as [|[input|e] it IH]; intros w stopping; [reflexivity | | reflexivity].
  cbn [DeleteAll.deleteInputs_loop].
  run_all h.
  all: match goal with
       | |- context [run h (DeleteAll.deleteInputs_loop ?c ?i) ?w'] =>
           specialize (IH w');
           destruct (run h (DeleteAll.deleteInputs_loop c i) w') as [[v wz] t]
       end.
  all: unfold trace_of in *; cbn [snd] in *.
  all: logged_norm; by rewrite IH.
Qed.

Lemma deleteChannels_loop_value (client : Client) (it : Iterator Channel) (w : W) :
  value_of (run h (DeleteAll.deleteChannels_loop client it) w)
  = Wrap "ListChannelsIterator" <$> first_error it.
Proof.
  revert w. induction it as [|[channel|e] it IH]; intros w; [reflexivity | | reflexivity].
  cbn [DeleteAll.deleteChannels_loop first_error]. unfold DeleteAll.stopChannel.
  run_all h.
  all: match goal with
       | |- context [run h (DeleteAll.deleteChannels_loop ?c ?i) ?w'] =>
           specialize (IH w');
           destruct (run h (DeleteAll.deleteChannels_loop c i) w') as [[v wz] t]
       end.
  all: exact IH.
Qed.

Lemma deleteInputs_loop_value (client : Client) (it : Iterator Input) (w : W) :
  value_of (run h (DeleteAll.deleteInputs_loop client it) w)
  = Wrap "ListInputsIterator" <$> first_error it.
Proof.
  revert w. induction it as [|[input|e] it IH]; intros w; [reflexivity | | reflexivity].
  cbn [DeleteAll.deleteInputs_loop first_error].
  run_all h.
  all: match goal with
       | |- context [run h (DeleteAll.deleteInputs_loop ?c ?i) ?w'] =>
           specialize (IH w');
           destruct (run h (DeleteAll.deleteInputs_loop c i) w') as [[v wz] t]
       end.
  all: exact IH.
Qed.

(** A run of [deleteAllChannels], from what the environment answers to the
    construction of the client and to the listing: the calls it makes, what
    it tears down and what it returns. *)
Lemma deleteAllChannels_shape (p l : string) (w : W) :
  let x := run h (DeleteAll.deleteAllChannels p l) w in
  let parent := "projects/" +:+ p +:+ "/locations/" +:+ l in
  (forall e w1,
     h _ NewClient w = (Err e, w1) ->
     trace_of x = [Ev NewClient (Err e)] /\ value_of x = Some (Wrap "NewClient" e))
  /\ (forall c w1 it w2,
     h _ NewClient w = (Ok c, w1) ->
     h _ (ListChannels c parent) w1 = (it, w2) ->
     exists loop,
       trace_of x
       = Ev NewClient (Ok c) :: Ev (ListChannels c parent) it :: loop ++ [Ev (Close c) tt]
       /\ teardown_requests loop = flat_map channel_teardown (yielded it)
       /\ (forall stopping, failures_logged stopping loop = true)
       /\ value_of x = Wrap "ListChannelsIterator" <$> first_error it).
Proof.
  cbn zeta. unfold DeleteAll.deleteAllChannels. split.
  - intros e w1 Hnew. cbn [run bind perform defer]. rewrite Hnew. by split.
  - intros c w1 it w2 Hnew Hlist. cbn [run bind perform defer]. rewrite Hnew.
    cbn [run bind perform defer]. rewrite Hlist. rewrite run_bind.
    pose proof (deleteChannels_loop_requests c it w2) as Hreq.
    pose proof (deleteChannels_loop_logged c it w2) as Hlog.
    pose proof (deleteChannels_loop_value c it w2) as Hval.
    destruct (run h (DeleteAll.deleteChannels_loop c it) w2) as [[v w3] loop].
    run_all h. destruct r. unfold trace_of, value_of in *; cbn [fst snd] in *.
    exists loop. by repeat split.
Qed.

Lemma deleteAllInputs_shape (p l : string) (w : W) :
  let x := run h (DeleteAll.deleteAllInputs p l) w in
  let parent := "projects/" +:+ p +:+ "/locations/" +:+ l in
  (forall e w1,
     h _ NewClient w = (Err e, w1) ->
     trace_of x = [Ev NewClient (Err e)] /\ value_of x = Some (Wrap "NewClient" e))
  /\ (forall c w1 it w2,
     h _ NewClient w = (Ok c, w1) ->
     h _ (ListInputs c parent) w1 = (it, w2) ->
     exists loop,
       trace_of x
       = Ev NewClient (Ok c) :: Ev (ListInputs c parent) it :: loop ++ [Ev (Close c) tt]
       /\ teardown_requests loop = flat_map input_teardown (yielded it)
       /\ (forall stopping, failures_logged stopping loop = true)
       /\ value_of x = Wrap "ListInputsIterator" <$> first_error it).
Proof.
  cbn zeta. unfold DeleteAll.deleteAllInputs. split.
  - intros e w1 Hnew. cbn [run bind perform defer]. rewrite Hnew. by split.
  - intros c w1 it w2 Hnew Hlist. cbn [run bind perform defer]. rewrite Hnew.
    cbn [run bind perform defer]. rewrite Hlist. rewrite run_bind.
    pose proof (deleteInputs_loop_requests c it w2) as Hreq.
    pose proof (deleteInputs_loop_logged c it w2) as Hlog.
    pose proof (deleteInputs_loop_value c it w2) as Hval.
    destruct (run h (DeleteAll.deleteInputs_loop c it) w2) as [[v w3] loop].
    run_all h. destruct r. unfold trace_of, value_of in *; cbn [fst snd] in *.
    exists loop. by repeat split.
Qed.

Lemma deleteAllChannels_events_ok (p l : string) (w : W) :
  forallb events_listing_ok (trace_of (run h (DeleteAll.deleteAllChannels p l) w)) = true.
Proof.
  unfold DeleteAll.deleteAllChannels. run_all h; [|reflexivity].
  rewrite run_bind.
  pose proof (deleteChannels_loop_events_ok a r w1) as Hloop.
  destruct (run h (DeleteAll.deleteChannels_loop a r) w1) as [[v w2] t].
  run_all h. unfold trace_of in *; cbn [snd] in *.
  cbn [forallb]. rewrite forallb_app, Hloop. reflexivity.
Qed.

Lemma deleteAllInputs_events_ok (p l : string) (w : W) :
  forallb events_listing_ok (trace_of (run h (DeleteAll.deleteAllInputs p l) w)) = true.
Proof.
  unfold DeleteAll.deleteAllInputs. run_all h; [|reflexivity].
  rewrite run_bind.
  pose proof (deleteInputs_loop_events_ok a r w1) as Hloop.
  destruct (run h (DeleteAll.deleteInputs_loop a r) w1) as [[v w2] t].
  run_all h. unfold trace_of in *; cbn [snd] in *.
  cbn [forallb]. rewrite forallb_app, Hloop. reflexivity.
Qed.

Lemma count_requests_cons (f : request -> bool) (e : event) (t : trace) :
  count_requests f (e :: t)
  = (if f (event_request e) then 1 else 0) + count_requests f t.
Proof. unfold count_requests, requests. cbn. by destruct (f _). Qed.

Lemma count_requests_app (f : request -> bool) (t1 t2 : trace) :
  count_requests f (t1 ++ t2) = count_requests f t1 + count_requests f t2.
Proof.
  unfold count_requests, requests.
  by rewrite map_app, List.filter_app, length_app.
Qed.

(** The loop at the end of [main] never leaves: after [n] passes it has
    slept [n] times and fetched the state [2 * n] times, whatever the
    fetches answered, and control is still inside it. *)
Lemma pollLoop_runs (n : nat) (client : Client) (channelName : string) (w : W) :
  let x := run h (CreateStream.pollLoop n client channelName) w in
  value_of x = CreateStream.Polling
  /\ count_requests is_sleep (trace_of x) = n
  /\ count_requests is_get_channel (trace_of x) = 2 * n
  /\ forall stopping, failures_logged stopping (trace_of x) = true.
Proof.
  revert w. induction n as [|n IH]; intros w; [by repeat split|].
  cbn [CreateStream.pollLoop].
  unfold CreateStream.pollOnce, CreateStream.printChannelState,
    CreateStream.getChannelState.
  run_all h.
  all: match goal with
       | |- context [run h (CreateStream.pollLoop ?k ?c ?i) ?w'] =>
           specialize (IH w');
           destruct (run h (CreateStream.pollLoop k c i) w') as [[v wz] t]
       end.
  all: unfold trace_of, value_of in *; cbn [fst snd] in *.
  all: destruct IH as (Hv & Hs & Hg & Hl).
  all: rewrite !count_requests_cons; cbn; rewrite Hs, Hg.
  all: repeat split; auto; try lia.
  all: intros stopping; logged_norm; apply Hl.
Qed.

(** C6: in the teardown loops and in the polling loop a failed call is
    logged and the flow goes on.  [deleteAllChannels] starts by asking for
    a client; when the environment gives it one, its next call lists the
    channels under the parent, and whatever the stop and delete calls
    answer it asks to stop and then to delete every channel that listing
    yields, in order.  [deleteAllInputs] does the same with the inputs and
    their deletes.  Every failed stop, wait or delete is followed at once
    by the log line that reports it, naming the resource and the error.
    The polling loop completes every pass and is never left, and every
    failed fetch is followed at once by the line that reports it. *)
Theorem best_effort_continue (w : W) (p l : string) (n : nat) (client : Client)
    (channelName : string) :
  let parent := "projects/" +:+ p +:+ "/locations/" +:+ l in
  (let x := run h (DeleteAll.deleteAllChannels p l) w in
   requests (trace_of x) !! 0 = Some ReqNewClient
   /\ forall c w1 it w2,
        h _ NewClient w = (Ok c, w1) ->
        h _ (ListChannels c parent) w1 = (it, w2) ->
        trace_of x !! 1 = Some (Ev (ListChannels c parent) it)
        /\ teardown_requests (trace_of x) = flat_map channel_teardown (yielded it)
        /\ failures_logged "" (trace_of x) = true)
  /\
  (let x := run h (DeleteAll.deleteAllInputs p l) w in
   requests (trace_of x) !! 0 = Some ReqNewClient
   /\ forall c w1 it w2,
        h _ NewClient w = (Ok c, w1) ->
        h _ (ListInputs c parent) w1 = (it, w2) ->
        trace_of x !! 1 = Some (Ev (ListInputs c parent) it)
        /\ teardown_requests (trace_of x) = flat_map input_teardown (yielded it)
        /\ failures_logged "" (trace_of x) = true)
  /\
  (let x := run h (CreateStream.pollLoop n client channelName) w in
   value_of x = CreateStream.Polling
   /\ count_requests is_sleep (trace_of x) = n
   /\ count_requests is_get_channel (trace_of x) = 2 * n
   /\ failures_logged "" (trace_of x) = true).
Proof.
  cbn zeta. split; [|split].
  - split.
    + unfold DeleteAll.deleteAllChannels. cbn [run bind perform defer].
      destruct (h _ NewClient w) as [[c|e] w1]; [|reflexivity].
      by destruct (run h _ w1) as [[v w2] t].
    + intros c w1 it w2 Hnew Hlist.
      destruct (proj2 (deleteAllChannels_shape p l w) c w1 it w2 Hnew Hlist)
        as (loop & -> & Hreq & Hlog & _).
      split; [reflexivity|]. split.
      * rewrite !teardown_requests_cons, teardown_requests_app, Hreq. cbn.
        by rewrite app_nil_r.
      * cbn. by apply failures_logged_quiet_end.
  - split.
    + unfold DeleteAll.deleteAllInputs. cbn [run bind perform defer].
      destruct (h _ NewClient w) as [[c|e] w1]; [|reflexivity].
      by destruct (run h _ w1) as [[v w2] t].
    + intros c w1 it w2 Hnew Hlist.
      destruct (proj2 (deleteAllInputs_shape p l w) c w1 it w2 Hnew Hlist)
        as (loop & -> & Hreq & Hlog & _).
      split; [reflexivity|]. split.
      * rewrite !teardown_requests_cons, teardown_requests_app, Hreq. cbn.
        by rewrite app_nil_r.
      * cbn. by apply failures_logged_quiet_end.
  - destruct (pollLoop_runs n client channelName w) as (Hv & Hs & Hg & Hl).
    by repeat split.
Qed.

End TeardownFacts.

Lemma best_effort_continue_witness :
  let a := mkChannel "projects/p/locations/l/channels/a" [] "gs://b/a" STREAMING [] in
  let b := mkChannel "projects/p/locations/l/channels/b" [] "gs://b/b" STOPPED [] in
  let i := mkInput "projects/p/locations/l/inputs/i" RTMP_PUSH "rtmp://i" in
  let j := mkInput "projects/p/locations/l/inputs/j" RTMP_PUSH "rtmp://j" in
  let env := teardown_refused [Ok i; Ok j] [Ok a; Ok b] [] in
  let x := run env (DeleteAll.deleteAllChannels "p" "l") tt in
  let y := run env (DeleteAll.deleteAllInputs "p" "l") tt in
  let z := run fetch_unavailable (CreateStream.pollLoop 2 (mkClient 0) "c") tt in
  (teardown_requests (trace_of x)
   = [ReqStop "projects/p/locations/l/channels/a";
      ReqDeleteChannel "projects/p/locations/l/channels/a";
      ReqStop "projects/p/locations/l/channels/b";
      ReqDeleteChannel "projects/p/locations/l/channels/b"]
   /\ failures_logged "" (trace_of x) = true)
  /\ (teardown_requests (trace_of y)
      = [ReqDeleteInput "projects/p/locations/l/inputs/i";
         ReqDeleteInput "projects/p/locations/l/inputs/j"]
      /\ failures_logged "" (trace_of y) = true)
  /\ (value_of z = CreateStream.Polling
      /\ count_requests is_sleep (trace_of z) = 2
      /\ count_requests is_get_channel (trace_of z) = 4
      /\ failures_logged "" (trace_of z) = true)
  /\ all_succeeded (trace_of x) = false
  /\ all_succeeded (trace_of y) = false
  /\ all_succeeded (trace_of z) = false.
Proof.
  intros a b i j env x y z.
  split; [|split; [|split; [|by repeat split]]].
  - apply (proj2 (proj1 (best_effort_continue env tt "p" "l" 2 (mkClient 0) "c"))
             (mkClient 0) tt [Ok a; Ok b] tt eq_refl eq_refl).
  - apply (proj2 (proj1 (proj2 (best_effort_continue env tt "p" "l" 2 (mkClient 0) "c")))
             (mkClient 0) tt [Ok i; Ok j] tt eq_refl eq_refl).
  - apply (proj2 (proj2 (best_effort_continue fetch_unavailable tt "p" "l" 2
                           (mkClient 0) "c"))).
Defined.

(** The refused deletes of the run above, as the trace shows them. *)
Example teardown_refused_steps :
  let a := mkChannel "projects/p/locations/l/channels/a" [] "gs://b/a" STREAMING [] in
  let x := run (teardown_refused [] [Ok a] []) (DeleteAll.deleteAllChannels "p" "l") tt in
  requests (trace_of x)
  = [ReqNewClient; ReqListChannels "projects/p/locations/l";
     ReqStop "projects/p/locations/l/channels/a";
     ReqLog ("Error stopping channel projects/p/locations/l/channels/a: "
               +:+ "StopChannel: rpc error: code = FailedPrecondition desc = "
               +:+ "projects/p/locations/l/channels/a" +:+ nl);
     ReqLog ("Deleting channel: projects/p/locations/l/channels/a" +:+ nl);
     ReqDeleteChannel "projects/p/locations/l/channels/a";
     ReqLog ("Error deleting channel projects/p/locations/l/channels/a: "
               +:+ "rpc error: code = FailedPrecondition desc = "
               +:+ "projects/p/locations/l/channels/a" +:+ nl);
     ReqClose].
Proof. reflexivity. Qed.

(** Three passes of the polling loop with every fetch failing. *)
Example pollLoop_fetch_unavailable :
  let x := run fetch_unavailable (CreateStream.pollLoop 3 (mkClient 0) "c") tt in
  value_of x = CreateStream.Polling
  /\ count_requests is_sleep (trace_of x) = 3
  /\ count_requests is_log (trace_of x) = 6.
Proof. repeat split. Qed.

(** ** The teardown program as a whole *)

Lemma drain_spec {A : Type} (label : string) (it : Iterator A) (acc : list A) :
  DeleteAll.drain label it acc
  = match first_error it with
    | None => (acc ++ yielded it, None)
    | Some e => ([], Some (Wrap label e))
    end.
Proof.
  revert acc. induction it as [|[a|e] it IH]; intros acc; cbn.
  - by rewrite app_nil_r.
  - rewrite IH. destruct (first_error it); [done|]. by rewrite <- app_assoc.
  - reflexivity.
Qed.

Lemma harmless_teardown (t : trace) :
  Forall harmless t -> teardown_requests t = [].
Proof.
  induction 1 as [|e t [He _] _ IH]; [reflexivity|].
  rewrite teardown_requests_cons, He, IH. reflexivity.
Qed.

Lemma harmless_events_ok (t : trace) :
  Forall harmless t -> forallb events_listing_ok t = true.
Proof.
  induction 1 as [|e t [_ He] _ IH]; [reflexivity|].
  cbn. unfold events_listing_ok at 1. by rewrite He, IH.
Qed.

(** ** Order of the teardown requests *)

Lemma channel_teardown_kinds (cs : list Channel) :
  Forall (fun q => is_delete_input q = false) (flat_map channel_teardown cs).
Proof. induction cs; cbn; repeat constructor; assumption. Qed.

Lemma input_teardown_kinds (ins : list Input) :
  Forall (fun q => is_delete_channel q = false) (flat_map input_teardown ins).
Proof. induction ins; cbn; repeat constructor; assumption. Qed.

(** In a sequence "stop, delete" per channel followed by the input deletes,
    every channel delete comes before every input delete, and the request
    just before a channel's delete is the stop of that channel. *)
Lemma teardown_order (cs : list Channel) (ins : list Input) :
  let l := flat_map channel_teardown cs ++ flat_map input_teardown ins in
  (forall i j n m,
     l !! i = Some (ReqDeleteChannel n) -> l !! j = Some (ReqDeleteInput m) -> i < j)
  /\ (forall i n,
     l !! i = Some (ReqDeleteChannel n) ->
     exists k, i = S k /\ l !! k = Some (ReqStop n)).
Proof.
  cbn zeta. split.
  - intros i j n m Hi Hj.
    apply lookup_app_Some in Hi as [Hi | [_ Hi]].
    + apply lookup_app_Some in Hj as [Hj | [Hj _]].
      * pose proof (channel_teardown_kinds cs) as Hk.
        rewrite Forall_lookup in Hk. apply Hk in Hj. discriminate.
      * apply lookup_lt_Some in Hi. lia.
    + pose proof (input_teardown_kinds ins) as Hk.
      rewrite Forall_lookup in Hk. apply Hk in Hi. discriminate.
  - induction cs as [|c cs IH]; intros i n Hi.
    + pose proof (input_teardown_kinds ins) as Hk.
      rewrite Forall_lookup in Hk. apply Hk in Hi. discriminate.
    + destruct i as [|[|i]]; cbn in Hi.
      * discriminate.
      * injection Hi as <-. by exists 0.
      * destruct (IH i n Hi) as (k & -> & Hk). by exists (S (S k)).
Qed.

(** Push [teardown_requests] and [forallb events_listing_ok] through the
    conses and appends of a trace. *)
Ltac td_norm :=
  repeat (rewrite teardown_requests_cons || rewrite teardown_requests_app);
  cbn [event_request call_request is_teardown is_stop is_delete_channel
       is_delete_input orb app].

Lemma events_ok_cons (e : event) (t : trace) :
  forallb events_listing_ok (e :: t)
  = events_listing_ok e && forallb events_listing_ok t.
Proof. reflexivity. Qed.

Ltac app_norm :=
  repeat (rewrite <- app_assoc || (progress (cbn [app]))).

Ltac ok_norm :=
  repeat (rewrite forallb_app || rewrite events_ok_cons).

Section TeardownMainFacts.

Context {W : Type} (h : handler W).

Lemma range_log_only {A : Type} (xs : list A) (line : A -> string) (w : W) :
  let x := run h (DeleteAll.range xs (fun a => perform (Printf (line a)) ;; Ret true)) w in
  value_of x = true /\ Forall harmless (trace_of x).
Proof.
  revert w. induction xs as [|a xs IH]; intros w; [by split|].
  cbn [DeleteAll.range]. run_all h.
  specialize (IH w0).
  destruct (run h (DeleteAll.range xs _) w0) as [[v w1] t].
  unfold value_of, trace_of in *; cbn [fst snd] in *.
  destruct IH as [-> Ht]. split; [done|].
  constructor; [by split | exact Ht].
Qed.

(** The report on one channel makes no teardown request.  It answers
    [true] after an events listing without error, and [false] right after
    logging the error of a failed one. *)
Lemma reportChannel_trace (client : Client) (channel : Channel) (w : W) :
  let x := run h (DeleteAll.reportChannel client channel) w in
  teardown_requests (trace_of x) = []
  /\ if value_of x
     then forallb events_listing_ok (trace_of x) = true
     else exists pre it err,
         trace_of x
         = pre ++ [Ev (ListEvents client (Channel_Name channel)) it;
                   Ev (Printf ("Error listing events for channel "
                                 +:+ Channel_Name channel +:+ ": "
                                 +:+ Error (Wrap "ListEventsIterator" err))) tt]
         /\ first_error it = Some err
         /\ forallb events_listing_ok pre = true.
Proof.
  unfold DeleteAll.reportChannel, DeleteAll.listEvents.
  run_step h. run_step h. rewrite drain_spec.
  destruct (first_error r0) as [err|] eqn:Herr; cbn [fst snd bind].
  - run_step h. destruct r1. unfold value_of, trace_of; cbn [fst snd].
    split; [reflexivity|].
    exists [Ev (Printf ("- " +:+ Channel_Name channel +:+ nl)) r], r0, err.
    repeat split; assumption.
  - destruct (0 <? length ([] ++ yielded r0))%nat.
    + run_step h. rewrite run_bind.
      pose proof (range_log_only (yielded r0)
                    (fun event => "    - " +:+ Event_Name event +:+ nl) w2) as Hr.
      cbn [app] in *.
      destruct (run h (DeleteAll.range (yielded r0) _) w2) as [[v w3] t].
      unfold value_of, trace_of in *; cbn [fst snd run] in *.
      destruct Hr as [_ Ht]. split.
      * rewrite !teardown_requests_cons, teardown_requests_app; cbn.
        by rewrite (harmless_teardown _ Ht).
      * cbn [forallb app]. rewrite forallb_app, (harmless_events_ok _ Ht).
        unfold events_listing_ok; cbn. by rewrite Herr.
    + cbn [run bind]. unfold value_of, trace_of; cbn [fst snd].
      split; [reflexivity|].
      unfold events_listing_ok; cbn. by rewrite Herr.
Qed.

Lemma report_trace (client : Client) (channels : list Channel) (w : W) :
  let x := run h (DeleteAll.range channels (DeleteAll.reportChannel client)) w in
  teardown_requests (trace_of x) = []
  /\ if value_of x
     then forallb events_listing_ok (trace_of x) = true
     else exists pre parent it err,
         trace_of x
         = pre ++ [Ev (ListEvents client parent) it;
                   Ev (Printf ("Error listing events for channel "
                                 +:+ parent +:+ ": "
                                 +:+ Error (Wrap "ListEventsIterator" err))) tt]
         /\ first_error it = Some err
         /\ forallb events_listing_ok pre = true.
Proof.
  revert w. induction channels as [|channel channels IH]; intros w; [by split|].
  cbn [DeleteAll.range]. rewrite run_bind.
  pose proof (reportChannel_trace client channel w) as Hone.
  destruct (run h (DeleteAll.reportChannel client channel) w) as [[go_on w1] t1].
  unfold value_of, trace_of in *; cbn [fst snd] in *.
  destruct Hone as [Htd1 Hone]. destruct go_on.
  - specialize (IH w1).
    destruct (run h (DeleteAll.range channels _) w1) as [[v w2] t2].
    cbn [fst snd] in *. destruct IH as [Htd2 IH].
    split; [by rewrite teardown_requests_app, Htd1, Htd2|].
    destruct v.
    + by rewrite forallb_app, Hone, IH.
    + destruct IH as (pre & parent & it & err & -> & Herr & Hpre).
      exists (t1 ++ pre), parent, it, err. repeat split.
      * by rewrite app_assoc.
      * exact Herr.
      * by rewrite forallb_app, Hone, Hpre.
  - cbn [run]. split; [by rewrite app_nil_r|].
    destruct Hone as (pre & it & err & -> & Herr & Hpre).
    exists pre, (Channel_Name channel), it, err. by rewrite app_nil_r.
Qed.

(** The shape of a run of the teardown program: it ends before the report
    is complete, or right after a failed events listing, or it goes through
    [deleteAllChannels] and then [deleteAllInputs]. *)
Lemma main_trace (w : W) :
  let x := run h DeleteAll.main w in
  (teardown_requests (trace_of x) = []
   /\ forallb events_listing_ok (trace_of x) = true)
  \/ (teardown_requests (trace_of x) = []
      /\ exists pre client parent it err,
          trace_of x
          = pre ++ [Ev (ListEvents client parent) it;
                    Ev (Printf ("Error listing events for channel "
                                  +:+ parent +:+ ": "
                                  +:+ Error (Wrap "ListEventsIterator" err))) tt;
                    Ev (Close client) tt]
          /\ first_error it = Some err
          /\ forallb events_listing_ok pre = true)
  \/ (forallb events_listing_ok (trace_of x) = true
      /\ exists pre wc mid wi post,
          trace_of x
          = pre ++ trace_of (run h (DeleteAll.deleteAllChannels
                                      DeleteAll.projectID DeleteAll.location) wc)
                ++ mid
                ++ trace_of (run h (DeleteAll.deleteAllInputs
                                      DeleteAll.projectID DeleteAll.location) wi)
                ++ post
          /\ teardown_requests pre = []
          /\ teardown_requests mid = []
          /\ teardown_requests post = []).
Proof.
  unfold DeleteAll.main, DeleteAll.listInputs, DeleteAll.listChannels.
  run_step h. destruct r as [client|e].
  2:{ run_all h. left. by split. }
  run_step h. rewrite drain_spec. destruct (first_error r) as [e|] eqn:Hin.
  { cbn [fst snd]. run_all h. left. by split. }
  cbn [fst snd app]. run_step h. rewrite !run_bind.
  pose proof (range_log_only (yielded r)
                 (fun input => "- " +:+ Input_Name input +:+ nl) w2) as Hr.
  destruct (run h (DeleteAll.range (yielded r) _) w2) as [[v w3] t1].
  unfold value_of, trace_of in Hr; cbn [fst snd] in Hr. destruct Hr as [_ Ht1].
  pose proof (harmless_teardown _ Ht1) as Htd1.
  pose proof (harmless_events_ok _ Ht1) as Hok1.
  run_step h. rewrite drain_spec. destruct (first_error r1) as [e|] eqn:Hch.
  { cbn [fst snd]. run_all h. left. unfold trace_of; cbn [snd]. split.
    - td_norm. by rewrite Htd1.
    - ok_norm. by rewrite Hok1. }
  cbn [fst snd app]. run_step h. rewrite !run_bind.
  pose proof (report_trace client (yielded r1) w5) as Hrep.
  destruct (run h (DeleteAll.range (yielded r1) _) w5) as [[go_on w6] t2].
  unfold value_of, trace_of in Hrep; cbn [fst snd] in Hrep.
  destruct Hrep as [Htd2 Hrep]. destruct go_on.
  - right. right.
    rewrite !run_bind.
    pose proof (deleteAllChannels_events_ok h DeleteAll.projectID DeleteAll.location w6) as Hc.
    destruct (run h (DeleteAll.deleteAllChannels _ _) w6) as [[errc w7] tc] eqn:Hrunc.
    assert (Htc : tc = trace_of (run h (DeleteAll.deleteAllChannels
                                        DeleteAll.projectID DeleteAll.location) w6))
      by (by rewrite Hrunc).
    clear Hrunc.
    assert (Hmid : exists w8 mid,
               run h (match errc with
                      | Some err => perform (Printf ("Error deleting channels: " +:+ Error err))
                      | None => Ret tt
                      end) w7 = (tt, w8, mid) /\ Forall harmless mid).
    { destruct errc; run_all h.
      - destruct r3. eexists _, _. split; [reflexivity|]. by repeat constructor.
      - eexists _, _. split; [reflexivity|]. constructor. }
    destruct Hmid as (w8 & mid & Hrunm & Hmid).
    pose proof (harmless_teardown _ Hmid) as Htdm.
    pose proof (harmless_events_ok _ Hmid) as Hokm.
    rewrite !run_bind, Hrunm. cbn [run bind]. rewrite !run_bind.
    pose proof (deleteAllInputs_events_ok h DeleteAll.projectID DeleteAll.location w8) as Hi.
    destruct (run h (DeleteAll.deleteAllInputs _ _) w8) as [[erri w9] ti] eqn:Hruni.
    assert (Hti : ti = trace_of (run h (DeleteAll.deleteAllInputs
                                        DeleteAll.projectID DeleteAll.location) w8))
      by (by rewrite Hruni).
    clear Hruni.
    assert (Hpost : exists w10 post,
               run h (match erri with
                      | Some err => perform (Printf ("Error deleting inputs: " +:+ Error err))
                      | None => Ret tt
                      end) w9 = (tt, w10, post) /\ Forall harmless post).
    { destruct erri; run_all h.
      - destruct r3. eexists _, _. split; [reflexivity|]. by repeat constructor.
      - eexists _, _. split; [reflexivity|]. constructor. }
    destruct Hpost as (w10 & post & Hrunp & Hpost).
    pose proof (harmless_teardown _ Hpost) as Htdp.
    pose proof (harmless_events_ok _ Hpost) as Hokp.
    rewrite !run_bind, Hrunp. run_all h.
    unfold trace_of at 1 2; cbn [snd]. unfold trace_of in Hc, Hi. cbn [snd] in Hc, Hi.
    split.
    + ok_norm. by rewrite Hok1, Hrep, Hc, Hi, Hokm, Hokp.
    + exists (Ev NewClient (Ok client) :: Ev (ListInputs client
                      ("projects/" +:+ DeleteAll.projectID +:+ "/locations/" +:+ DeleteAll.location)) r
                :: Ev (Printf ("Inputs:" +:+ nl)) r0
                :: t1 ++ Ev (ListChannels client
                      ("projects/" +:+ DeleteAll.projectID +:+ "/locations/" +:+ DeleteAll.location)) r1
                :: Ev (Printf ("Channels:" +:+ nl)) r2 :: t2),
        w6, mid, w8,
        (post ++ [Ev (Printf "Finished deleting all channels and inputs.") r3;
                  Ev (Close client) r4]).
      rewrite <- Htc, <- Hti. repeat split.
      * app_norm. reflexivity.
      * td_norm. by rewrite Htd1, Htd2.
      * exact Htdm.
      * td_norm. by rewrite Htdp.
  - right. left. cbn [run bind]. run_all h. destruct r3.
    unfold trace_of; cbn [snd].
    destruct Hrep as (pre & parent & it & err & -> & Herr & Hpre).
    rewrite teardown_requests_app in Htd2. apply app_eq_nil in Htd2 as [Htdpre _].
    split.
    + td_norm. by rewrite Htd1, Htdpre.
    + exists (Ev NewClient (Ok client) :: Ev (ListInputs client
                      ("projects/" +:+ DeleteAll.projectID +:+ "/locations/" +:+ DeleteAll.location)) r
                :: Ev (Printf ("Inputs:" +:+ nl)) r0
                :: t1 ++ Ev (ListChannels client
                      ("projects/" +:+ DeleteAll.projectID +:+ "/locations/" +:+ DeleteAll.location)) r1
                :: Ev (Printf ("Channels:" +:+ nl)) r2 :: pre),
        client, parent, it, err.
      repeat split.
      * app_norm. reflexivity.
      * exact Herr.
      * ok_norm. by rewrite Hok1, Hpre.
Qed.

(** C9: when, during the report, the listing of a channel's events fails,
    the teardown program logs the error and returns: the failed listing is
    followed by the log line and the deferred close only, and the run makes
    no stop and no delete request at all. *)
Theorem events_listing_failure_aborts (w : W) (c : Client) (parent : string)
    (it : Iterator Event) (err : error) :
  let x := run h DeleteAll.main w in
  In (Ev (ListEvents c parent) it) (trace_of x) ->
  first_error it = Some err ->
  teardown_requests (trace_of x) = []
  /\ exists pre client,
       trace_of x
       = pre ++ [Ev (ListEvents c parent) it;
                 Ev (Printf ("Error listing events for channel "
                               +:+ parent +:+ ": "
                               +:+ Error (Wrap "ListEventsIterator" err))) tt;
                 Ev (Close client) tt].
Proof.
  intros x Hin Herr. subst x.
  assert (Hbad : events_listing_ok (Ev (ListEvents c parent) it) = false)
    by (unfold events_listing_ok; cbn; by rewrite Herr).
  destruct (main_trace w)
    as [[_ Hok] | [[Htd (pre & client & parent0 & it0 & err0 & Htr & Herr0 & Hpre)]
                  | [Hok _]]].
  - rewrite forallb_forall in Hok. apply Hok in Hin. congruence.
  - split; [exact Htd|]. rewrite Htr in Hin |- *.
    apply in_app_or in Hin as [Hin | Hin].
    + rewrite forallb_forall in Hpre. apply Hpre in Hin. congruence.
    + destruct Hin as [Heq | [Heq | [Heq | []]]].
      * pose proof (f_equal event_request Heq) as Hq. cbn in Hq.
        pose proof (f_equal listed_events Heq) as Hl. cbn in Hl.
        injection Hq as ->. injection Hl as ->.
        rewrite Herr in Herr0. injection Herr0 as <-.
        exists pre, client. by rewrite Heq.
      * apply (f_equal event_request) in Heq. discriminate.
      * apply (f_equal event_request) in Heq. discriminate.
  - rewrite forallb_forall in Hok. apply Hok in Hin. congruence.
Qed.

End TeardownMainFacts.

Lemma events_listing_failure_aborts_witness :
  let a := mkChannel "projects/p/locations/l/channels/a" [] "gs://b/a" STREAMING [] in
  let i := mkInput "projects/p/locations/l/inputs/i" RTMP_PUSH "rtmp://i" in
  let e := StatusErr PermissionDenied "events" in
  let x := run (listing [Ok i] [Ok a] [Err e]) DeleteAll.main tt in
  teardown_requests (trace_of x) = []
  /\ exists pre client,
       trace_of x
       = pre ++ [Ev (ListEvents (mkClient 0) "projects/p/locations/l/channels/a") [Err e];
                 Ev (Printf ("Error listing events for channel "
                               +:+ "projects/p/locations/l/channels/a" +:+ ": "
                               +:+ Error (Wrap "ListEventsIterator" e))) tt;
                 Ev (Close client) tt].
Proof.
  intros a i e x.
  apply (events_listing_failure_aborts (listing [Ok i] [Ok a] [Err e]) tt).
  - cbn. tauto.
  - reflexivity.
Defined.

(** ** The provisioning program as a whole *)

(** A hypothesis says that the trace has one event at a position where it
    has another. *)
Ltac not_this_event :=
  let H := fresh in
  intros H; apply (f_equal (fmap observe)) in H; cbn in H;
  unfold observe, event_request, event_error in H; cbn in H; discriminate H.

Section ProvisionFacts.

Context {W : Type} (h : handler W).
Variable MarshalIndent : list (string * string) -> result string.
Variable Unmarshal : string -> result Channel.

Abbreviation main := (CreateStream.main MarshalIndent Unmarshal).
Abbreviation main_ensure := (CreateStream.main_ensure MarshalIndent Unmarshal).
Abbreviation ensureInput :=
  (CreateStream.createInputIfNotExists MarshalIndent
     CreateStream.projectID CreateStream.location CreateStream.inputID).
Abbreviation ensureChannel :=
  (CreateStream.createChannelIfNotExists MarshalIndent Unmarshal
     CreateStream.projectID CreateStream.location CreateStream.channelID "request.json").

(** A run of [main] is a run of the ensure steps followed by a run of the
    rest from the state they leave. *)
Lemma main_run (n : nat) (w : W) :
  run h (main n) w
  = let '(_, w1, t1) := run h main_ensure w in
    let '(v, w2, t2) := run h (CreateStream.main_start n) w1 in
    (v, w2, t1 ++ t2).
Proof.
  unfold CreateStream.main, CreateStream.main_ensure.
  fold (CreateStream.main_start n).
  rewrite !run_bind.
  destruct (run h ensureInput w) as [[e1 w1] t1].
  rewrite !run_bind.
  destruct (run h (match e1 with Some _ => _ | None => _ end) w1) as [[u1 w2] l1].
  rewrite !run_bind.
  destruct (run h ensureChannel w2) as [[e2 w3] t2].
  rewrite !run_bind.
  destruct (run h (match e2 with Some _ => _ | None => _ end) w3) as [[u2 w4] l2].
  destruct (run h (CreateStream.main_start n) w4) as [[v w5] t3].
  app_norm. reflexivity.
Qed.

Lemma pollLoop_no_start (n : nat) (client : Client) (channelName : string) (w : W) :
  count_requests is_start
    (trace_of (run h (CreateStream.pollLoop n client channelName) w)) = 0.
Proof.
  revert w. induction n as [|n IH]; intros w; [reflexivity|].
  cbn [CreateStream.pollLoop].
  unfold CreateStream.pollOnce, CreateStream.printChannelState,
    CreateStream.getChannelState.
  run_all h.
  all: match goal with
       | |- context [run h (CreateStream.pollLoop ?k ?c ?i) ?w'] =>
           specialize (IH w');
           destruct (run h (CreateStream.pollLoop k c i) w') as [[v wz] t]
       end.
  all: unfold trace_of in *; cbn [snd] in *.
  all: rewrite !count_requests_cons; cbn; exact IH.
Qed.

(** The start policy, from the state in which the ensure steps leave the
    environment. *)
Lemma main_start_policy (n : nat) (w : W) (c : Client) (name : string) (ch : Channel) :
  let x := run h (CreateStream.main_start n) w in
  trace_of x !! 1 = Some (Ev (GetChannel c name) (Ok ch)) ->
  (Channel_StreamingState ch = STREAMING \/ Channel_StreamingState ch = AWAITING_INPUT ->
   count_requests is_start (trace_of x) = 0
   /\ value_of x = CreateStream.Polling
   /\ exists w',
       drop 2 (trace_of x)
       = Ev (Printf ("Channel " +:+ name
                       +:+ " already started or starting, skipping start operation."
                       +:+ nl)) tt
           :: trace_of (run h (CreateStream.pollLoop n c name) w'))
  /\
  (Channel_StreamingState ch <> STREAMING ->
   Channel_StreamingState ch <> AWAITING_INPUT ->
   count_requests is_start (trace_of x) = 1
   /\ requests (trace_of x) !! 2 = Some (ReqStart name)
   /\ ((value_of x = CreateStream.Polling
        /\ exists op w',
            drop 2 (trace_of x)
            = Ev (StartChannel c name) (Ok op)
                :: Ev (WaitStart op) (Ok tt)
                :: Ev (Printf ("Channel " +:+ name +:+ " started." +:+ nl)) tt
                :: trace_of (run h (CreateStream.pollLoop n c name) w'))
       \/ (value_of x = CreateStream.Returned
           /\ count_requests is_sleep (trace_of x) = 0
           /\ exists e,
               steps (trace_of x) !! 2 = Some (ReqStart name, Some e)
               \/ steps (trace_of x) !! 3 = Some (ReqWaitStart, Some e)))).
Proof.
  unfold CreateStream.main_start, CreateStream.getChannelState.
  run_step h. destruct r as [client|e]; [|run_all h; not_this_event].
  run_step h. destruct r as [channel|e]; [|run_all h; not_this_event].
  cbn [run bind fst snd].
  set (channelName := "projects/" +:+ CreateStream.projectID +:+ "/locations/"
                        +:+ CreateStream.location +:+ "/channels/"
                        +:+ CreateStream.channelID) in *.
  destruct (negb (StreamingState_eqb (Channel_StreamingState channel) STREAMING)
            && negb (StreamingState_eqb (Channel_StreamingState channel) AWAITING_INPUT))
    eqn:Hstate.
  - (* start *)
    run_step h. destruct r as [op|e].
    2:{ run_all h. intros Hev.
        pose proof (f_equal (fun o => e ← o; fetched_channel e) Hev) as Hch.
        pose proof (f_equal (fmap event_request) Hev) as Hnm.
        cbn in Hch, Hnm. injection Hch as <-. injection Hnm as <-.
        split; [intros [Hs | Hs]; rewrite Hs in Hstate; discriminate|].
        intros _ _. repeat split. right. repeat split.
        exists e. left. reflexivity. }
    run_step h. destruct r as [u|e].
    2:{ run_all h. intros Hev.
        pose proof (f_equal (fun o => e ← o; fetched_channel e) Hev) as Hch.
        pose proof (f_equal (fmap event_request) Hev) as Hnm.
        cbn in Hch, Hnm. injection Hch as <-. injection Hnm as <-.
        split; [intros [Hs | Hs]; rewrite Hs in Hstate; discriminate|].
        intros _ _. repeat split. right. repeat split.
        exists e. right. reflexivity. }
    run_step h.
    match goal with
    | |- context [run h (CreateStream.pollLoop _ _ _) ?w'] => rename w' into wp
    end.
    pose proof (pollLoop_no_start n client channelName wp) as Hns.
    destruct (run h (CreateStream.pollLoop n client channelName) wp)
      as [[v wq] t] eqn:Hrun.
    pose proof (pollLoop_runs h n client channelName wp) as (Hv & _).
    rewrite Hrun in Hv. unfold value_of, trace_of in *; cbn [fst snd] in *.
    intros Hev.
    pose proof (f_equal (fun o => e ← o; fetched_channel e) Hev) as Hch.
    pose proof (f_equal (fun o => e ← o; event_client e) Hev) as Hcl.
    pose proof (f_equal (fmap event_request) Hev) as Hnm.
    cbn in Hch, Hcl, Hnm. injection Hch as <-. injection Hcl as <-.
    injection Hnm as <-.
    split.
    + intros [Hs | Hs]; rewrite Hs in Hstate; discriminate.
    + intros _ _. repeat split.
      * rewrite !count_requests_cons; cbn. by rewrite Hns.
      * left. split; [exact Hv|]. destruct u, r.
        exists op, wp. cbn [drop]. by rewrite Hrun.
  - (* skip *)
    run_step h.
    match goal with
    | |- context [run h (CreateStream.pollLoop _ _ _) ?w'] => rename w' into wp
    end.
    pose proof (pollLoop_no_start n client channelName wp) as Hns.
    destruct (run h (CreateStream.pollLoop n client channelName) wp)
      as [[v wq] t] eqn:Hrun.
    pose proof (pollLoop_runs h n client channelName wp) as (Hv & _).
    rewrite Hrun in Hv. unfold value_of, trace_of in *; cbn [fst snd] in *.
    intros Hev.
    pose proof (f_equal (fun o => e ← o; fetched_channel e) Hev) as Hch.
    pose proof (f_equal (fun o => e ← o; event_client e) Hev) as Hcl.
    pose proof (f_equal (fmap event_request) Hev) as Hnm.
    cbn in Hch, Hcl, Hnm. injection Hch as <-. injection Hcl as <-.
    injection Hnm as <-.
    split.
    + intros _. repeat split.
      * rewrite !count_requests_cons; cbn. exact Hns.
      * exact Hv.
      * destruct r. exists wp. cbn [drop]. by rewrite Hrun.
    + intros H1 H2. destruct (Channel_StreamingState channel); cbn in Hstate;
        congruence.
Qed.

Lemma lookup_after {A : Type} (l1 l2 : list A) (i : nat) :
  (l1 ++ l2) !! (length l1 + i) = l2 !! i.
Proof. rewrite lookup_app_r by lia. f_equal. lia. Qed.

(** The ensure operations make no start request and never sleep. *)
Lemma ensureInput_quiet (p l id : string) (w : W) :
  let t := trace_of (run h (CreateStream.createInputIfNotExists MarshalIndent p l id) w) in
  count_requests is_start t = 0 /\ count_requests is_sleep t = 0.
Proof.
  unfold CreateStream.createInputIfNotExists. run_all h; by split.
Qed.

Lemma ensureChannel_quiet (p l id path : string) (w : W) :
  let t := trace_of (run h (CreateStream.createChannelIfNotExists MarshalIndent Unmarshal
                              p l id path) w) in
  count_requests is_start t = 0 /\ count_requests is_sleep t = 0.
Proof.
  unfold CreateStream.createChannelIfNotExists. run_all h; by split.
Qed.

Lemma main_ensure_quiet (w : W) :
  let t := trace_of (run h main_ensure w) in
  count_requests is_start t = 0 /\ count_requests is_sleep t = 0.
Proof.
  unfold CreateStream.main_ensure. rewrite !run_bind.
  pose proof (ensureInput_quiet CreateStream.projectID CreateStream.location
                CreateStream.inputID w) as [Hi1 Hi2].
  destruct (run h ensureInput w) as [[e1 w1] t1].
  rewrite !run_bind.
  assert (Hl1 : forall (e : option error) (s : string) (w : W),
             let t := trace_of (run h (match e with
                                       | Some err => perform (Printf (s +:+ Error err))
                                       | None => Ret tt
                                       end) w) in
             count_requests is_start t = 0 /\ count_requests is_sleep t = 0).
  { intros [e|] s w'; run_all h; by split. }
  pose proof (Hl1 e1 "Error during input creation: " w1) as [Hl11 Hl12].
  destruct (run h (match e1 with Some _ => _ | None => _ end) w1) as [[u1 w2] l1].
  rewrite !run_bind.
  pose proof (ensureChannel_quiet CreateStream.projectID CreateStream.location
                CreateStream.channelID "request.json" w2) as [Hc1 Hc2].
  destruct (run h ensureChannel w2) as [[e2 w3] t2].
  pose proof (Hl1 e2 "Error creating channel: " w3) as [Hl21 Hl22].
  destruct (run h (match e2 with Some _ => _ | None => _ end) w3) as [[u2 w4] l2].
  unfold trace_of in *; cbn [snd] in *.
  rewrite !count_requests_app. split; lia.
Qed.

(** C3: the start policy of [main].  The call that follows the ensure
    steps and the construction of the client is the initial fetch of the
    channel.  When it is answered with a channel that is STREAMING or
    AWAITING_INPUT, the run makes no start request: it logs that it skips
    the start and enters the polling loop.  When it is answered with a
    channel in any other state, the run makes exactly one start request, as
    its next call; the polling loop is entered only after that request and
    the wait on its operation have both succeeded, and a failure of either
    ends [main] without a single pass of the loop. *)
Theorem start_policy (n : nat) (w : W) (c : Client) (name : string) (ch : Channel) :
  let k := length (trace_of (run h main_ensure w)) in
  let x := run h (main n) w in
  trace_of x !! (k + 1) = Some (Ev (GetChannel c name) (Ok ch)) ->
  (Channel_StreamingState ch = STREAMING \/ Channel_StreamingState ch = AWAITING_INPUT ->
   count_requests is_start (trace_of x) = 0
   /\ value_of x = CreateStream.Polling
   /\ exists w',
       drop (k + 2) (trace_of x)
       = Ev (Printf ("Channel " +:+ name
                       +:+ " already started or starting, skipping start operation."
                       +:+ nl)) tt
           :: trace_of (run h (CreateStream.pollLoop n c name) w'))
  /\
  (Channel_StreamingState ch <> STREAMING ->
   Channel_StreamingState ch <> AWAITING_INPUT ->
   count_requests is_start (trace_of x) = 1
   /\ requests (trace_of x) !! (k + 2) = Some (ReqStart name)
   /\ ((value_of x = CreateStream.Polling
        /\ exists op w',
            drop (k + 2) (trace_of x)
            = Ev (StartChannel c name) (Ok op)
                :: Ev (WaitStart op) (Ok tt)
                :: Ev (Printf ("Channel " +:+ name +:+ " started." +:+ nl)) tt
                :: trace_of (run h (CreateStream.pollLoop n c name) w'))
       \/ (value_of x = CreateStream.Returned
           /\ count_requests is_sleep (trace_of x) = 0
           /\ exists e,
               steps (trace_of x) !! (k + 2) = Some (ReqStart name, Some e)
               \/ steps (trace_of x) !! (k + 3) = Some (ReqWaitStart, Some e)))).
Proof.
  intros k x. subst k x. rewrite main_run.
  pose proof (main_ensure_quiet w) as [Hq1 Hq2].
  destruct (run h main_ensure w) as [[u w1] t1].
  pose proof (main_start_policy n w1 c name ch) as Hpol.
  destruct (run h (CreateStream.main_start n) w1) as [[v w2] t2].
  unfold value_of, trace_of, steps, requests in *. cbn [fst snd] in *.
  rewrite lookup_after. intros Hev. destruct (Hpol Hev) as [Hskip Hstart].
  rewrite !map_app, !count_requests_app, !drop_app_add, Hq1, Hq2.
  rewrite <- !(length_map event_request t1) at 1.
  rewrite !lookup_after. 
  rewrite <- !(length_map observe t1), !lookup_after. 
  split; assumption.
Qed.

(** Inside an ensure operation a failed client construction, template
    read, create request or wait is the last call but for the deferred
    close, and its error is what the operation returns. *)
Ltac fatal_position Hi Hl :=
  cbn in Hi; unfold observe, event_request, event_error in Hi; cbn in Hi;
  first
    [ discriminate Hi
    | injection Hi as <- <-; cbn in Hl;
      first
        [ discriminate Hl
        | injection Hl as <-; split; [reflexivity | cbn; auto] ] ].

Ltac fatal_positions_from i Hi Hl :=
  first
    [ (cbn in Hi; rewrite lookup_nil in Hi; discriminate Hi)
    | destruct i as [|i];
      [ fatal_position Hi Hl
      | change (steps (?e :: ?t) !! S i) with (steps t !! i) in Hi;
        change (drop (S (S i)) (requests (?e :: ?t)))
          with (drop (S i) (requests t));
        fatal_positions_from i Hi Hl ] ].

Ltac fatal_positions :=
  let i := fresh "i" in
  let q := fresh "q" in
  let e := fresh "e" in
  let lbl := fresh "lbl" in
  let Hi := fresh "Hi" in
  let Hl := fresh "Hl" in
  intros i q e lbl Hi Hl;
  fatal_positions_from i Hi Hl.

Lemma ensureInput_fail_fast (p l id : string) (w : W) :
  let x := run h (CreateStream.createInputIfNotExists MarshalIndent p l id) w in
  forall i q e lbl,
    steps (trace_of x) !! i = Some (q, Some e) ->
    fatal_label q = Some lbl ->
    value_of x = Some (Wrap lbl e)
    /\ (drop (S i) (requests (trace_of x)) = []
        \/ drop (S i) (requests (trace_of x)) = [ReqClose]).
Proof.
  unfold CreateStream.createInputIfNotExists. run_all h.
  all: unfold value_of, trace_of; cbn [fst snd].
  all: fatal_positions.
Qed.

Lemma ensureChannel_fail_fast (p l id path : string) (w : W) :
  let x := run h (CreateStream.createChannelIfNotExists MarshalIndent Unmarshal
                    p l id path) w in
  forall i q e lbl,
    steps (trace_of x) !! i = Some (q, Some e) ->
    fatal_label q = Some lbl ->
    value_of x = Some (Wrap lbl e)
    /\ (drop (S i) (requests (trace_of x)) = []
        \/ drop (S i) (requests (trace_of x)) = [ReqClose]).
Proof.
  unfold CreateStream.createChannelIfNotExists. run_all h.
  all: unfold value_of, trace_of; cbn [fst snd].
  all: fatal_positions.
Qed.

Lemma ensureChannel_parse_failure (p l id path text : string) (e : error) (w : W) :
  let x := run h (CreateStream.createChannelIfNotExists MarshalIndent Unmarshal
                    p l id path) w in
  trace_of x !! 2 = Some (Ev (ReadFile path) (text, None)) ->
  Unmarshal
    (ReplaceAll (ReplaceAll text "<GCS_OUTPUT>" CreateStream.gcsoutput)
       "<GCP_OTHER_INFO>"
       ("projects/" +:+ p +:+ "/locations/" +:+ l +:+ "/inputs/"
          +:+ CreateStream.inputID)) = Err e ->
  value_of x = Some (Wrap "Unmarshal" e)
  /\ drop 3 (requests (trace_of x)) = [ReqClose].
Proof.
  unfold CreateStream.createChannelIfNotExists. run_all h.
  all: unfold value_of, trace_of; cbn [fst snd].
  all: intros Hev Hp.
  all: try (apply (f_equal (fmap event_request)) in Hev; discriminate Hev).
  all: apply (f_equal (fun o => e ← o; file_read e)) in Hev; cbn in Hev.
  all: try discriminate Hev.
  all: injection Hev as ->; try congruence.
  split; [congruence | reflexivity].
Qed.

Lemma ensure_first_call (p l id path : string) (w : W) :
  requests (trace_of (run h (CreateStream.createInputIfNotExists MarshalIndent p l id) w))
    !! 0 = Some ReqNewClient
  /\ requests (trace_of (run h (CreateStream.createChannelIfNotExists MarshalIndent
                                  Unmarshal p l id path) w))
       !! 0 = Some ReqNewClient.
Proof.
  split.
  - unfold CreateStream.createInputIfNotExists. run_step h. by destruct (run h _ _) as [[? ?] ?].
  - unfold CreateStream.createChannelIfNotExists. run_step h. by destruct (run h _ _) as [[? ?] ?].
Qed.

(** The trace of the ensure steps of [main]: [createInputIfNotExists], the
    log line of its error if it returned one, then
    [createChannelIfNotExists] in any case, and the log line of its error. *)
Lemma main_ensure_trace (w : W) :
  let xi := run h ensureInput w in
  exists w1,
    let xc := run h ensureChannel w1 in
    trace_of (run h main_ensure w)
    = trace_of xi
        ++ logged_error "Error during input creation: " (value_of xi)
        ++ trace_of xc
        ++ logged_error "Error creating channel: " (value_of xc).
Proof.
  unfold CreateStream.main_ensure. rewrite !run_bind.
  destruct (run h ensureInput w) as [[e1 w1] t1].
  rewrite !run_bind.
  assert (Hlog : forall (e : option error) (s : string) (w : W),
             exists w', run h (match e with
                               | Some err => perform (Printf (s +:+ Error err))
                               | None => Ret tt
                               end) w = (tt, w', logged_error s e)).
  { intros [e|] s w'; run_all h; [destruct r|]; eauto. }
  destruct (Hlog e1 "Error during input creation: " w1) as [w2 ->].
  exists w2. cbn zeta. rewrite !run_bind.
  destruct (run h ensureChannel w2) as [[e2 w3] t2].
  destruct (Hlog e2 "Error creating channel: " w3) as [w4 ->].
  unfold trace_of, value_of; cbn [fst snd]. app_norm. reflexivity.
Qed.

Lemma main_start_fatal (n : nat) (w : W) :
  let x := run h (CreateStream.main_start n) w in
  requests (trace_of x) !! 0 = Some ReqNewClient
  /\ (forall e,
        steps (trace_of x) !! 0 = Some (ReqNewClient, Some e) ->
        value_of x = CreateStream.Returned
        /\ drop 1 (requests (trace_of x))
           = [ReqLog ("Error creating client: " +:+ Error e)])
  /\ (forall name e,
        steps (trace_of x) !! 1 = Some (ReqGetChannel name, Some e) ->
        value_of x = CreateStream.Returned
        /\ drop 2 (requests (trace_of x))
           = [ReqLog ("Error getting initial channel state: "
                        +:+ Error (Wrap "GetChannel" e));
              ReqClose]).
Proof.
  unfold CreateStream.main_start, CreateStream.getChannelState.
  run_step h. destruct r as [client|e0].
  2:{ run_all h. unfold value_of, trace_of; cbn [fst snd].
      split; [reflexivity|]. split.
      - intros e' He. steps_hyp He. injection He as <-. by split.
      - intros name e' He. steps_hyp He. discriminate He. }
  run_step h. destruct r as [channel|e0].
  2:{ run_all h. unfold value_of, trace_of; cbn [fst snd].
      split; [reflexivity|]. split.
      - intros e' He. steps_hyp He. discriminate He.
      - intros name e' He. steps_hyp He. injection He as _ <-. by split. }
  destruct (run h _ w1) as [[v w2] t].
  unfold value_of, trace_of; cbn [fst snd].
  split; [reflexivity|]. split.
  - intros e' He. steps_hyp He. discriminate He.
  - intros name e' He. steps_hyp He. discriminate He.
Qed.

(** C4 (amended): inside [createInputIfNotExists] and
    [createChannelIfNotExists] a failed client construction, template read
    or parse, create request or wait ends the operation at once: it returns
    the wrapped error and calls nothing more but the deferred close.
    [main] logs the error an ensure operation returns and goes on: it runs
    [createChannelIfNotExists] whatever [createInputIfNotExists] returned,
    and then constructs its own client whatever came before.  A failure of
    that construction or of the initial state fetch ends [main] after its
    log line. *)
Theorem fail_fast_inside_steps (n : nat) (w : W) :
  let xi := run h ensureInput w in
  (forall i q e lbl,
     steps (trace_of xi) !! i = Some (q, Some e) ->
     fatal_label q = Some lbl ->
     value_of xi = Some (Wrap lbl e)
     /\ (drop (S i) (requests (trace_of xi)) = []
         \/ drop (S i) (requests (trace_of xi)) = [ReqClose]))
  /\ exists w1,
      let xc := run h ensureChannel w1 in
      (forall i q e lbl,
         steps (trace_of xc) !! i = Some (q, Some e) ->
         fatal_label q = Some lbl ->
         value_of xc = Some (Wrap lbl e)
         /\ (drop (S i) (requests (trace_of xc)) = []
             \/ drop (S i) (requests (trace_of xc)) = [ReqClose]))
      /\ (forall text e,
         trace_of xc !! 2 = Some (Ev (ReadFile "request.json") (text, None)) ->
         Unmarshal
           (ReplaceAll (ReplaceAll text "<GCS_OUTPUT>" CreateStream.gcsoutput)
              "<GCP_OTHER_INFO>"
              ("projects/" +:+ CreateStream.projectID +:+ "/locations/"
                 +:+ CreateStream.location +:+ "/inputs/" +:+ CreateStream.inputID))
         = Err e ->
         value_of xc = Some (Wrap "Unmarshal" e)
         /\ drop 3 (requests (trace_of xc)) = [ReqClose])
      /\ requests (trace_of xc) !! 0 = Some ReqNewClient
      /\ exists w2,
          let xs := run h (CreateStream.main_start n) w2 in
          trace_of (run h (main n) w)
          = trace_of xi
              ++ logged_error "Error during input creation: " (value_of xi)
              ++ trace_of xc
              ++ logged_error "Error creating channel: " (value_of xc)
              ++ trace_of xs
          /\ value_of (run h (main n) w) = value_of xs
          /\ requests (trace_of xs) !! 0 = Some ReqNewClient
          /\ (forall e,
                steps (trace_of xs) !! 0 = Some (ReqNewClient, Some e) ->
                value_of xs = CreateStream.Returned
                /\ drop 1 (requests (trace_of xs))
                   = [ReqLog ("Error creating client: " +:+ Error e)])
          /\ (forall name e,
                steps (trace_of xs) !! 1 = Some (ReqGetChannel name, Some e) ->
                value_of xs = CreateStream.Returned
                /\ drop 2 (requests (trace_of xs))
                   = [ReqLog ("Error getting initial channel state: "
                                +:+ Error (Wrap "GetChannel" e));
                      ReqClose]).
Proof.
  intros xi. split; [apply ensureInput_fail_fast|].
  destruct (main_ensure_trace w) as [w1 Htr]. fold xi in Htr. cbn zeta in Htr.
  exists w1. cbn zeta.
  split; [apply ensureChannel_fail_fast|].
  split; [intros text e; apply ensureChannel_parse_failure|].
  split; [apply (ensure_first_call CreateStream.projectID CreateStream.location
                   CreateStream.channelID "request.json" w1)|].
  rewrite main_run.
  destruct (run h main_ensure w) as [[u w2] t1]. exists w2.
  pose proof (main_start_fatal n w2) as Hfatal.
  destruct (run h (CreateStream.main_start n) w2) as [[v w3] t2].
  unfold trace_of at 1 in Htr. cbn [snd] in Htr.
  unfold value_of at 1 2, trace_of at 1 5; cbn [fst snd].
  split; [rewrite Htr; app_norm; reflexivity|].
  split; [reflexivity|]. exact Hfatal.
Qed.

End ProvisionFacts.

Lemma start_policy_witness :
  let name := "projects/<PROJECT_NUMBER>/locations/<REGION>/channels/livestream-channel-01" in
  let x := run (channel_in STOPPED)
             (CreateStream.main marshal_members unmarshal_fixed 1) tt in
  let y := run (channel_in STREAMING)
             (CreateStream.main marshal_members unmarshal_fixed 1) tt in
  (count_requests is_start (trace_of x) = 1
   /\ requests (trace_of x) !! 20 = Some (ReqStart name))
  /\ (count_requests is_start (trace_of y) = 0 /\ value_of y = CreateStream.Polling).
Proof.
  intros name x y. split.
  - destruct (start_policy (channel_in STOPPED) marshal_members unmarshal_fixed 1 tt
                (mkClient 0) name (mkChannel name [] "gs://b/o" STOPPED []) eq_refl)
      as [_ Hstart].
    destruct Hstart as (H1 & H2 & _); [discriminate | discriminate |].
    split; [exact H1 | exact H2].
  - destruct (start_policy (channel_in STREAMING) marshal_members unmarshal_fixed 1 tt
                (mkClient 0) name (mkChannel name [] "gs://b/o" STREAMING []) eq_refl)
      as [Hskip _].
    destruct Hskip as (H1 & H2 & _); [by left|].
    split; [exact H1 | exact H2].
Defined.

(** C4, as stated, fails: the create request of the input is refused and
    [createInputIfNotExists] reports it; [main] logs it and then makes the
    create request of the channel all the same.  The wait on that request
    fails and is reported; [main] logs it and then makes the start
    request. *)
Lemma failure_does_not_stop_main :
  let x := run creation_troubles
             (CreateStream.main marshal_members unmarshal_fixed 0) false in
  let channel := "projects/<PROJECT_NUMBER>/locations/<REGION>/channels/livestream-channel-01" in
  fst <$> steps (trace_of x) !! 2
    = Some (ReqCreateInput "projects/<PROJECT_NUMBER>/locations/<REGION>"
              "livestream-input-01" (mkInput "" RTMP_PUSH ""))
  /\ snd <$> steps (trace_of x) !! 2
     = Some (Some (StatusErr PermissionDenied "inputs.create"))
  /\ requests (trace_of x) !! 4
     = Some (ReqLog ("Error during input creation: CreateInput: "
                       +:+ "rpc error: code = PermissionDenied desc = inputs.create"))
  /\ is_create <$> requests (trace_of x) !! 8 = Some true
  /\ steps (trace_of x) !! 9
     = Some (ReqWaitCreateChannel, Some (StatusErr DeadlineExceeded "operation"))
  /\ requests (trace_of x) !! 11
     = Some (ReqLog ("Error creating channel: Wait: "
                       +:+ "rpc error: code = DeadlineExceeded desc = operation"))
  /\ requests (trace_of x) !! 14 = Some (ReqStart channel).
Proof. repeat split. Qed.

Lemma fail_fast_inside_steps_witness :
  let xi := run creation_troubles
              (CreateStream.createInputIfNotExists marshal_members
                 CreateStream.projectID CreateStream.location CreateStream.inputID)
              false in
  let e := StatusErr PermissionDenied "inputs.create" in
  value_of xi = Some (Wrap "CreateInput" e)
  /\ (drop 3 (requests (trace_of xi)) = []
      \/ drop 3 (requests (trace_of xi)) = [ReqClose]).
Proof.
  intros xi e.
  apply (proj1 (fail_fast_inside_steps creation_troubles marshal_members
                  unmarshal_fixed 0 false)
           2 (ReqCreateInput "projects/<PROJECT_NUMBER>/locations/<REGION>"
                "livestream-input-01" (mkInput "" RTMP_PUSH "")) e "CreateInput");
    reflexivity.
Defined.

(** ** Ensuring twice *)

Lemma append_assoc (a b c : string) : (a +:+ b) +:+ c = a +:+ b +:+ c.
Proof.
  induction a as [|x a IH]; [reflexivity|].
  change (String x ((a +:+ b) +:+ c) = String x (a +:+ b +:+ c)).
  f_equal. exact IH.
Qed.

Lemma service_step {R : Type} (c : call R) (s : Service) (r : R) (s' : Service) :
  service R c s = (r, s') -> step_facts c s r s'.
Proof.
  unfold service, next_fault, guarded.
  destruct c; cbn; destruct (svc_faults s) as [|[e|] fs]; cbn;
    repeat match goal with
           | |- context [match ?o with Some _ => _ | None => _ end] =>
               destruct o eqn:?
           end;
    intros [= <- <-]; cbn; auto; repeat split; auto;
    try (intros ? [= <-]); try discriminate; cbn;
    rewrite ?lookup_insert_eq; auto.
  all: match goal with H : Ok _ = Ok _ |- _ => injection H as <- end.
  all: apply lookup_insert_eq.
Qed.

Lemma service_new_client (s : Service) :
  svc_faults s = [] ->
  service _ NewClient s = (Ok (mkClient (svc_next s)), with_next (S (svc_next s)) s).
Proof. unfold service, next_fault. by intros ->. Qed.

Lemma service_get_input (c : Client) (n : string) (i : Input) (s : Service) :
  svc_faults s = [] -> svc_inputs s !! n = Some i ->
  service _ (GetInput c n) s = (Ok i, s).
Proof. unfold service, next_fault. intros -> Hi. cbn. by rewrite Hi. Qed.

Lemma service_get_channel (c : Client) (n : string) (ch : Channel) (s : Service) :
  svc_faults s = [] -> svc_channels s !! n = Some ch ->
  service _ (GetChannel c n) s = (Ok ch, s).
Proof. unfold service, next_fault. intros -> Hi. cbn. by rewrite Hi. Qed.

Section EnsureOutputs.

Context {W : Type} (h : handler W).
Variable MarshalIndent : list (string * string) -> result string.
Variable Unmarshal : string -> result Channel.

(** What [createInputIfNotExists] writes when the lookup finds the input
    (no create request then), and when the create operation completes. *)
Lemma ensureInput_outputs (p l id : string) (w : W) :
  let x := run h (CreateStream.createInputIfNotExists MarshalIndent p l id) w in
  let name := "projects/" +:+ p +:+ "/locations/" +:+ l +:+ "/inputs/" +:+ id in
  (forall e i,
     trace_of x !! 1 = Some e -> answered_input e = Some i ->
     outputs (trace_of x) = rendered MarshalIndent [("inputID", name); ("uri", Input_Uri i)]
     /\ existsb is_create (requests (trace_of x)) = false)
  /\ (forall e i,
     trace_of x !! 3 = Some e -> answered_input e = Some i ->
     outputs (trace_of x)
     = rendered MarshalIndent [("inputID", Input_Name i); ("uri", Input_Uri i)]).
Proof.
  unfold CreateStream.createInputIfNotExists, rendered. run_all h.
  all: unfold trace_of; cbn [snd]; split; intros e' i' [= <-]; cbn; try discriminate.
  all: intros [= <-]; rewrite ?Heqr0, ?Heqr1; auto.
Qed.

Lemma ensureChannel_outputs (p l id path : string) (w : W) :
  let x := run h (CreateStream.createChannelIfNotExists MarshalIndent Unmarshal
                    p l id path) w in
  let name := "projects/" +:+ p +:+ "/locations/" +:+ l +:+ "/channels/" +:+ id in
  let input := "projects/" +:+ p +:+ "/locations/" +:+ l +:+ "/inputs/"
                 +:+ CreateStream.inputID in
  (forall e ch,
     trace_of x !! 1 = Some e -> answered_channel e = Some ch ->
     outputs (trace_of x)
     = rendered MarshalIndent
         [("channelID", name); ("inputID", input); ("gcsoutput", Channel_OutputUri ch)]
     /\ existsb is_create (requests (trace_of x)) = false)
  /\ (forall e ch,
     trace_of x !! 4 = Some e -> answered_channel e = Some ch ->
     outputs (trace_of x)
     = rendered MarshalIndent
         [("channelID", Channel_Name ch); ("inputID", input);
          ("gcsoutput", Channel_OutputUri ch)]).
Proof.
  unfold CreateStream.createChannelIfNotExists, rendered. run_all h.
  all: unfold trace_of; cbn [snd]; split; intros e' i' [= <-]; cbn; try discriminate.
  all: intros [= <-];
    repeat match goal with
           | H : MarshalIndent _ = _ |- _ => rewrite H; clear H
           end; auto.
Qed.

End EnsureOutputs.

Section EnsureTwice.

Variable MarshalIndent : list (string * string) -> result string.
Variable Unmarshal : string -> result Channel.

(** Turn what is known about the calls of a finished run into facts about
    the states it went through. *)
Ltac service_facts :=
  repeat match goal with
         | H : service _ ?c ?s = (?r, ?s') |- _ =>
             apply service_step in H; cbn [step_facts] in H
         end;
  repeat match goal with
         | H : _ /\ _ |- _ => destruct H
         | H : forall x, Ok ?a = Ok x -> _ |- _ => specialize (H a eq_refl); cbn zeta in H
         | H : forall x, Err _ = Ok x -> _ |- _ => clear H
         end.

(** With nothing going wrong, a second call finds what is recorded. *)
Lemma second_call_finds_input (p l id : string) (i : Input) (s : Service) :
  svc_faults s = [] ->
  svc_inputs s !! ("projects/" +:+ p +:+ "/locations/" +:+ l +:+ "/inputs/" +:+ id)
    = Some i ->
  exists e,
    trace_of (run service (CreateStream.createInputIfNotExists MarshalIndent p l id) s)
      !! 1 = Some e
    /\ answered_input e = Some i.
Proof.
  intros Hf Hi. unfold CreateStream.createInputIfNotExists.
  cbn [run bind perform defer]. rewrite (service_new_client s Hf).
  cbn [run bind perform defer]. rewrite (service_get_input _ _ i) by assumption.
  destruct (run service _ _) as [[v s'] t].
  eexists. split; reflexivity.
Qed.

Lemma second_call_finds_channel (p l id path : string) (ch : Channel) (s : Service) :
  svc_faults s = [] ->
  svc_channels s !! ("projects/" +:+ p +:+ "/locations/" +:+ l +:+ "/channels/" +:+ id)
    = Some ch ->
  exists e,
    trace_of (run service (CreateStream.createChannelIfNotExists MarshalIndent Unmarshal
                             p l id path) s)
      !! 1 = Some e
    /\ answered_channel e = Some ch.
Proof.
  intros Hf Hi. unfold CreateStream.createChannelIfNotExists.
  cbn [run bind perform defer]. rewrite (service_new_client s Hf).
  cbn [run bind perform defer]. rewrite (service_get_channel _ _ ch) by assumption.
  destruct (run service _ _) as [[v s'] t].
  eexists. split; reflexivity.
Qed.

(** A first call that found or created the input leaves it recorded, and
    wrote the document of what is recorded. *)
Lemma first_call_records_input (p l id : string) (s : Service) :
  let x := run service (CreateStream.createInputIfNotExists MarshalIndent p l id) s in
  let name := "projects/" +:+ p +:+ "/locations/" +:+ l +:+ "/inputs/" +:+ id in
  found_or_created (trace_of x) = true ->
  exists i,
    svc_inputs (world_of x) !! name = Some i
    /\ outputs (trace_of x)
       = rendered MarshalIndent [("inputID", name); ("uri", Input_Uri i)].
Proof.
  unfold CreateStream.createInputIfNotExists, rendered. run_all service.
  all: unfold trace_of, world_of; cbn [fst snd].
  all: intros Hfc; unfold found_or_created in Hfc; steps_hyp Hfc; try discriminate Hfc.
  all: clear Hfc; service_facts.
  all: rewrite ?append_assoc in *.
  all: try match goal with
           | H1 : ?m !! ?k = Some ?x, H2 : ?m !! ?k = Some ?y |- _ =>
               is_var y; assert (y = x) by congruence; subst y
           end.
  all: cbn [Input_Name Input_Uri] in *.
  all: eexists; (split; [etransitivity; [|eassumption]; congruence|]);
    cbn;
    repeat match goal with
           | H : MarshalIndent _ = _ |- _ => rewrite H; clear H
           end; reflexivity.
Qed.

Lemma first_call_records_channel (p l id path : string) (s : Service) :
  let x := run service (CreateStream.createChannelIfNotExists MarshalIndent Unmarshal
                          p l id path) s in
  let name := "projects/" +:+ p +:+ "/locations/" +:+ l +:+ "/channels/" +:+ id in
  let input := "projects/" +:+ p +:+ "/locations/" +:+ l +:+ "/inputs/"
                 +:+ CreateStream.inputID in
  found_or_created (trace_of x) = true ->
  exists ch,
    svc_channels (world_of x) !! name = Some ch
    /\ outputs (trace_of x)
       = rendered MarshalIndent
           [("channelID", name); ("inputID", input); ("gcsoutput", Channel_OutputUri ch)].
Proof.
  unfold CreateStream.createChannelIfNotExists, rendered. run_all service.
  all: unfold trace_of, world_of; cbn [fst snd].
  all: intros Hfc; unfold found_or_created in Hfc; steps_hyp Hfc; try discriminate Hfc.
  all: clear Hfc; service_facts.
  all: rewrite ?append_assoc in *.
  all: try match goal with
           | H1 : ?m !! ?k = Some ?x, H2 : ?m !! ?k = Some ?y |- _ =>
               is_var y; assert (y = x) by congruence; subst y
           end.
  all: cbn [Channel_Name Channel_OutputUri] in *.
  all: eexists; (split; [etransitivity; [|eassumption]; congruence|]);
    cbn;
    repeat match goal with
           | H : MarshalIndent _ = _ |- _ => rewrite H; clear H
           end; reflexivity.
Qed.

(** Idempotence on the reference service: when a call of an ensure
    operation found or created its resource and nothing goes wrong
    afterwards, a second call with the same arguments makes no create
    request and writes the same document as the first. *)
Theorem ensure_twice (p l id path : string) (s : Service) :
  (let x1 := run service (CreateStream.createInputIfNotExists MarshalIndent p l id) s in
   let x2 := run service (CreateStream.createInputIfNotExists MarshalIndent p l id)
               (world_of x1) in
   found_or_created (trace_of x1) = true ->
   svc_faults (world_of x1) = [] ->
   existsb is_create (requests (trace_of x2)) = false
   /\ outputs (trace_of x2) = outputs (trace_of x1))
  /\
  (let x1 := run service (CreateStream.createChannelIfNotExists MarshalIndent Unmarshal
                            p l id path) s in
   let x2 := run service (CreateStream.createChannelIfNotExists MarshalIndent Unmarshal
                            p l id path) (world_of x1) in
   found_or_created (trace_of x1) = true ->
   svc_faults (world_of x1) = [] ->
   existsb is_create (requests (trace_of x2)) = false
   /\ outputs (trace_of x2) = outputs (trace_of x1)).
Proof.
  split; intros x1 x2 Hfc Hnf.
  - destruct (first_call_records_input p l id s Hfc) as (i & Hi & Hout).
    destruct (second_call_finds_input p l id i _ Hnf Hi) as (e & He & Hans).
    destruct (proj1 (ensureInput_outputs service MarshalIndent p l id (world_of x1))
                e i He Hans) as [Hout2 Hnc].
    split; [exact Hnc|]. fold x1 in Hout. subst x2. by rewrite Hout2, Hout.
  - destruct (first_call_records_channel p l id path s Hfc) as (ch & Hi & Hout).
    destruct (second_call_finds_channel p l id path ch _ Hnf Hi) as (e & He & Hans).
    destruct (proj1 (ensureChannel_outputs service MarshalIndent Unmarshal p l id path
                       (world_of x1)) e ch He Hans) as [Hout2 Hnc].
    split; [exact Hnc|]. fold x1 in Hout. subst x2. by rewrite Hout2, Hout.
Qed.

End EnsureTwice.

Lemma ensure_twice_witness :
  let first := CreateStream.createInputIfNotExists marshal_members "p" "l" "i" in
  let x1 := run service first empty_service in
  let x2 := run service first (world_of x1) in
  existsb is_create (requests (trace_of x1)) = true
  /\ existsb is_create (requests (trace_of x2)) = false
  /\ outputs (trace_of x2) = outputs (trace_of x1).
Proof.
  intros first x1 x2. split; [reflexivity|].
  apply (proj1 (ensure_twice marshal_members unmarshal_fixed "p" "l" "i" "request.json"
                  empty_service)); reflexivity.
Defined.
(** * Further properties of the two programs *)

(** ** The snapshot file *)

Section SnapshotFacts.

Context {W : Type} (h : handler W).
Variable MarshalIndent : list (string * string) -> result string.
Variable Unmarshal : string -> result Channel.

(** Whenever an ensure operation writes to a file, the write comes right
    after the successful creation of [id.json], the bytes are the document
    the operation has written to its writer, followed there by a line feed,
    and the file is closed right after the write, whether the write
    succeeded or not. *)
Theorem snapshot_is_the_printed_document (p l id path : string) (w : W) :
  (let x := run h (CreateStream.createInputIfNotExists MarshalIndent p l id) w in
   forall i f bytes,
     requests (trace_of x) !! i = Some (ReqWriteFile f bytes) ->
     outputs (trace_of x) = [bytes; nl]
     /\ steps (trace_of x) !! (i - 1) = Some (ReqCreateFile (id +:+ ".json"), None)
     /\ requests (trace_of x) !! (i + 1) = Some (ReqCloseFile f))
  /\
  (let x := run h (CreateStream.createChannelIfNotExists MarshalIndent Unmarshal
                     p l id path) w in
   forall i f bytes,
     requests (trace_of x) !! i = Some (ReqWriteFile f bytes) ->
     outputs (trace_of x) = [bytes; nl]
     /\ steps (trace_of x) !! (i - 1) = Some (ReqCreateFile (id +:+ ".json"), None)
     /\ requests (trace_of x) !! (i + 1) = Some (ReqCloseFile f)).
Proof.
  split.
  - unfold CreateStream.createInputIfNotExists. run_all h.
    all: unfold trace_of; cbn [snd]; intros i f bytes Hi.
    all: each_position i Hi
           ltac:(first [discriminate Hi | injection Hi as <- <-; repeat split]).
  - unfold CreateStream.createChannelIfNotExists. run_all h.
    all: unfold trace_of; cbn [snd]; intros i f bytes Hi.
    all: each_position i Hi
           ltac:(first [discriminate Hi | injection Hi as <- <-; repeat split]).
Qed.

End SnapshotFacts.

Lemma snapshot_is_the_printed_document_witness :
  let x := run quiet (CreateStream.createInputIfNotExists marshal_members "p" "l" "i") tt in
  let doc := "  inputID: projects/p/locations/l/inputs/i," +:+ nl
               +:+ "  uri: rtmp://1.2.3.4/live/i" in
  outputs (trace_of x) = [doc; nl]
  /\ steps (trace_of x) !! 7 = Some (ReqCreateFile "i.json", None)
  /\ requests (trace_of x) !! 9 = Some (ReqCloseFile "i.json").
Proof.
  intros x doc.
  apply (proj1 (snapshot_is_the_printed_document quiet marshal_members unmarshal_fixed
                  "p" "l" "i" "request.json" tt) 8 "i.json" doc).
  reflexivity.
Defined.

(** ** What the bulk deletes return *)

Section BulkDeleteFacts.

Context {W : Type} (h : handler W).

(** What [deleteAllChannels] and [deleteAllInputs] return depends on the
    client construction and on the listing alone.  Their first call asks
    for a client.  When the environment refuses it they return that error
    and call nothing else.  When it gives one, their next call is the
    listing under the parent, and they return [nil] when the listing ends
    without error and the wrapped error of the failed page when it does
    not, in both cases after the attempts on everything the listing yielded
    before; no answer to a stop or delete call changes the result. *)
Theorem bulk_delete_result (p l : string) (w : W) :
  let parent := "projects/" +:+ p +:+ "/locations/" +:+ l in
  (let x := run h (DeleteAll.deleteAllChannels p l) w in
   requests (trace_of x) !! 0 = Some ReqNewClient
   /\ (forall e w1,
      h _ NewClient w = (Err e, w1) ->
      value_of x = Some (Wrap "NewClient" e) /\ requests (trace_of x) = [ReqNewClient])
   /\ (forall c w1 it w2,
      h _ NewClient w = (Ok c, w1) ->
      h _ (ListChannels c parent) w1 = (it, w2) ->
      trace_of x !! 1 = Some (Ev (ListChannels c parent) it)
      /\ value_of x = Wrap "ListChannelsIterator" <$> first_error it
      /\ teardown_requests (trace_of x) = flat_map channel_teardown (yielded it)))
  /\
  (let x := run h (DeleteAll.deleteAllInputs p l) w in
   requests (trace_of x) !! 0 = Some ReqNewClient
   /\ (forall e w1,
      h _ NewClient w = (Err e, w1) ->
      value_of x = Some (Wrap "NewClient" e) /\ requests (trace_of x) = [ReqNewClient])
   /\ (forall c w1 it w2,
      h _ NewClient w = (Ok c, w1) ->
      h _ (ListInputs c parent) w1 = (it, w2) ->
      trace_of x !! 1 = Some (Ev (ListInputs c parent) it)
      /\ value_of x = Wrap "ListInputsIterator" <$> first_error it
      /\ teardown_requests (trace_of x) = flat_map input_teardown (yielded it))).
Proof.
  cbn zeta. split.
  - destruct (deleteAllChannels_shape h p l w) as [Hrefused Hgiven]. cbn zeta in *.
    split; [|split].
    + destruct (h _ NewClient w) as [[c|e] w1] eqn:Hnew.
      * destruct (h _ (ListChannels c ("projects/" +:+ p +:+ "/locations/" +:+ l)) w1)
          as [it w2] eqn:Hlist.
        by destruct (Hgiven c w1 it w2 eq_refl Hlist) as (loop & -> & _).
      * by destruct (Hrefused e w1 eq_refl) as [-> _].
    + intros e w1 Hnew. by destruct (Hrefused e w1 Hnew) as [-> ->].
    + intros c w1 it w2 Hnew Hlist.
      destruct (Hgiven c w1 it w2 Hnew Hlist) as (loop & -> & Hreq & _ & ->).
      split; [reflexivity|]. split; [reflexivity|].
      rewrite !teardown_requests_cons, teardown_requests_app, Hreq. cbn.
      by rewrite app_nil_r.
  - destruct (deleteAllInputs_shape h p l w) as [Hrefused Hgiven]. cbn zeta in *.
    split; [|split].
    + destruct (h _ NewClient w) as [[c|e] w1] eqn:Hnew.
      * destruct (h _ (ListInputs c ("projects/" +:+ p +:+ "/locations/" +:+ l)) w1)
          as [it w2] eqn:Hlist.
        by destruct (Hgiven c w1 it w2 eq_refl Hlist) as (loop & -> & _).
      * by destruct (Hrefused e w1 eq_refl) as [-> _].
    + intros e w1 Hnew. by destruct (Hrefused e w1 Hnew) as [-> ->].
    + intros c w1 it w2 Hnew Hlist.
      destruct (Hgiven c w1 it w2 Hnew Hlist) as (loop & -> & Hreq & _ & ->).
      split; [reflexivity|]. split; [reflexivity|].
      rewrite !teardown_requests_cons, teardown_requests_app, Hreq. cbn.
      by rewrite app_nil_r.
Qed.

End BulkDeleteFacts.

Lemma bulk_delete_result_witness :
  let a := mkChannel "projects/p/locations/l/channels/a" [] "gs://b/a" STREAMING [] in
  let i := mkInput "projects/p/locations/l/inputs/i" RTMP_PUSH "rtmp://i" in
  let j := mkInput "projects/p/locations/l/inputs/j" RTMP_PUSH "rtmp://j" in
  let e := StatusErr Unavailable "page 2" in
  let env := teardown_refused [Ok i; Ok j] [Ok a; Err e] [] in
  let x := run env (DeleteAll.deleteAllChannels "p" "l") tt in
  let y := run env (DeleteAll.deleteAllInputs "p" "l") tt in
  let z := run client_refused (DeleteAll.deleteAllInputs "p" "l") tt in
  (trace_of x !! 1
   = Some (Ev (ListChannels (mkClient 0) "projects/p/locations/l") [Ok a; Err e])
   /\ value_of x = Some (Wrap "ListChannelsIterator" e)
   /\ teardown_requests (trace_of x)
      = [ReqStop "projects/p/locations/l/channels/a";
         ReqDeleteChannel "projects/p/locations/l/channels/a"])
  /\ (trace_of y !! 1
      = Some (Ev (ListInputs (mkClient 0) "projects/p/locations/l") [Ok i; Ok j])
      /\ value_of y = None
      /\ teardown_requests (trace_of y)
         = [ReqDeleteInput "projects/p/locations/l/inputs/i";
            ReqDeleteInput "projects/p/locations/l/inputs/j"])
  /\ (value_of z = Some (Wrap "NewClient" (StatusErr Unavailable "dial"))
      /\ requests (trace_of z) = [ReqNewClient]).
Proof.
  intros a i j e env x y z. split; [|split].
  - apply (proj2 (proj2 (proj1 (bulk_delete_result env "p" "l" tt)))
             (mkClient 0) tt [Ok a; Err e] tt eq_refl eq_refl).
  - apply (proj2 (proj2 (proj2 (bulk_delete_result env "p" "l" tt)))
             (mkClient 0) tt [Ok i; Ok j] tt eq_refl eq_refl).
  - apply (proj1 (proj2 (proj2 (bulk_delete_result client_refused "p" "l" tt)))
             (StatusErr Unavailable "dial") tt eq_refl).
Defined.

(** ** Reading properties off the programs *)

Section HoldsAfter.

Context {G : Type} (upd : G -> event -> G).

Lemma holds_after_run {W A : Type} (h : handler W) (p : prog A) (Q : A -> G -> Prop)
    (g : G) (w : W) :
  holds_after upd p Q g ->
  Q (value_of (run h p w)) (fold_left upd (trace_of (run h p w)) g).
Proof.
  revert g w. induction p as [a | R c k IH]; intros g w Hp; cbn [run holds_after] in *.
  - exact Hp.
  - destruct (h R c w) as [r w1]. specialize (IH r _ w1 (Hp r)).
    destruct (run h (k r) w1) as [[a w2] t]. exact IH.
Qed.

Lemma holds_after_bind {A B : Type} (p : prog A) (f : A -> prog B) (Q : B -> G -> Prop)
    (g : G) :
  holds_after upd p (fun a g' => holds_after upd (f a) Q g') g ->
  holds_after upd (bind p f) Q g.
Proof.
  revert g. induction p as [a | R c k IH]; intros g Hp; cbn [bind holds_after] in *.
  - exact Hp.
  - intros r. apply IH, Hp.
Qed.

Lemma holds_after_mono {A : Type} (p : prog A) (Q Q' : A -> G -> Prop) (g : G) :
  (forall a g', Q a g' -> Q' a g') ->
  holds_after upd p Q g -> holds_after upd p Q' g.
Proof.
  intros HQ. revert g. induction p as [a | R c k IH]; intros g Hp; cbn [holds_after] in *.
  - by apply HQ.
  - intros r. apply IH, Hp.
Qed.

(** A part of a program that leaves the summary as it found it. *)
Lemma holds_after_skip {A B : Type} (p : prog A) (f : A -> prog B) (Q : B -> G -> Prop)
    (g : G) :
  holds_after upd p (fun _ g' => g' = g) g ->
  (forall a, holds_after upd (f a) Q g) ->
  holds_after upd (bind p f) Q g.
Proof.
  intros Hp Hf. apply holds_after_bind.
  apply (holds_after_mono p (fun _ g' => g' = g)); [|exact Hp].
  intros a g' ->. apply Hf.
Qed.

End HoldsAfter.

Lemma within_fold (P : request -> bool) (t : trace) (ok : bool) :
  fold_left (within P) t ok = ok && forallb P (requests t).
Proof.
  revert ok. induction t as [|e t IH]; intros ok; cbn [fold_left requests map forallb].
  - by rewrite andb_true_r.
  - rewrite IH. unfold within. fold (requests t).
    destruct (P (event_request e)); cbn; [reflexivity | by rewrite andb_false_r].
Qed.

(** Walk through a program: take each answer as it comes and split on what
    the program looks at. *)
Ltac walk_step :=
  first
    [ progress cbn [holds_after bind perform defer fst snd]
    | match goal with
      | |- holds_after _ _ _ ?g =>
          lazymatch type of g with
          | bool => let g' := eval lazy in g in progress (change g with g')
          | _ =>
              let g' := eval cbn [tally handle_kind seen is_new_client observe
                                  event_request event_error call_request call_error
                                  result_error fst snd] in g in
              progress (change g with g')
          end
      | |- forall _, _ => intro
      | |- context [match ?r with Ok _ => _ | Err _ => _ end] =>
          first [is_var r; destruct r | destruct r eqn:?]
      | |- context [match ?r with Some _ => _ | None => _ end] =>
          first [is_var r; destruct r | destruct r eqn:?]
      | |- context [fst ?r] => is_var r; destruct r
      | |- context [snd ?r] => is_var r; destruct r
      | |- context [if ?b then _ else _] =>
          lazymatch b with
          | context [holds_after] => fail
          | _ => first [is_var b; destruct b | destruct b eqn:?]
          end
      end ].

Ltac walk := repeat walk_step.

Section Footprints.

Variable MarshalIndent : list (string * string) -> result string.
Variable Unmarshal : string -> result Channel.

Lemma pollLoop_provisions (n : nat) (client : Client) :
  holds_after (within provisions_only)
    (CreateStream.pollLoop n client
       ("projects/" +:+ CreateStream.projectID +:+ "/locations/"
          +:+ CreateStream.location +:+ "/channels/" +:+ CreateStream.channelID))
    (fun _ ok => ok = true) true.
Proof.
  induction n as [|n IH]; [reflexivity|].
  cbn [CreateStream.pollLoop].
  unfold CreateStream.pollOnce, CreateStream.printChannelState,
    CreateStream.getChannelState.
  walk. all: exact IH.
Qed.

Lemma ensureInput_provisions :
  holds_after (within provisions_only)
    (CreateStream.createInputIfNotExists MarshalIndent CreateStream.projectID
       CreateStream.location CreateStream.inputID)
    (fun _ ok => ok = true) true.
Proof. unfold CreateStream.createInputIfNotExists. walk. all: reflexivity. Qed.

Lemma ensureChannel_provisions :
  holds_after (within provisions_only)
    (CreateStream.createChannelIfNotExists MarshalIndent Unmarshal CreateStream.projectID
       CreateStream.location CreateStream.channelID "request.json")
    (fun _ ok => ok = true) true.
Proof. unfold CreateStream.createChannelIfNotExists. walk. all: reflexivity. Qed.

Lemma main_provisions (n : nat) :
  holds_after (within provisions_only) (CreateStream.main MarshalIndent Unmarshal n)
    (fun _ ok => ok = true) true.
Proof.
  unfold CreateStream.main.
  apply holds_after_skip; [apply ensureInput_provisions|]. intros e1.
  apply holds_after_skip; [destruct e1; walk; reflexivity|]. intros _.
  apply holds_after_skip; [apply ensureChannel_provisions|]. intros e2.
  apply holds_after_skip; [destruct e2; walk; reflexivity|]. intros _.
  unfold CreateStream.getChannelState.
  walk. all: first [reflexivity | apply pollLoop_provisions].
Qed.

(** The provisioning program, run for any number of passes of its final
    loop against any environment, asks only for what [provisions_only]
    lists: the lookup, the creation and the start of the one input (created
    empty, of type [RTMP_PUSH]) and of the one channel named by its
    constants, the waits on these operations, a read of the template
    [request.json], the creation of its two snapshot files, writes to and
    closes of file handles, output, log lines and sleeps of five seconds.
    It never lists, stops or deletes anything. *)
Theorem provisioning_footprint {W : Type} (h : handler W) (n : nat) (w : W) :
  forallb provisions_only
    (requests (trace_of (run h (CreateStream.main MarshalIndent Unmarshal n) w))) = true.
Proof.
  pose proof (holds_after_run (within provisions_only) h _ _ true w (main_provisions n))
    as Hrun.
  cbn beta in Hrun. by rewrite within_fold in Hrun.
Qed.

End Footprints.

Section TeardownFootprint.

Lemma range_log_tears_down {A : Type} (xs : list A) (line : A -> string) :
  holds_after (within tears_down_only)
    (DeleteAll.range xs (fun a => perform (Printf (line a)) ;; Ret true))
    (fun _ ok => ok = true) true.
Proof.
  induction xs as [|a xs IH]; [reflexivity|].
  cbn [DeleteAll.range]. walk. exact IH.
Qed.

Lemma report_tears_down (client : Client) (channels : list Channel) :
  holds_after (within tears_down_only)
    (DeleteAll.range channels (DeleteAll.reportChannel client))
    (fun _ ok => ok = true) true.
Proof.
  induction channels as [|channel channels IH]; [reflexivity|].
  cbn [DeleteAll.range]. unfold DeleteAll.reportChannel at 1, DeleteAll.listEvents.
  walk.
  - reflexivity.
  - apply holds_after_skip.
    + apply holds_after_skip; [apply range_log_tears_down | reflexivity].
    + intros p. walk. all: first [exact IH | reflexivity].
  - exact IH.
Qed.

Lemma deleteChannels_loop_tears_down (client : Client) (it : Iterator Channel) :
  holds_after (within tears_down_only) (DeleteAll.deleteChannels_loop client it)
    (fun _ ok => ok = true) true.
Proof.
  induction it as [|[channel|e] it IH]; [reflexivity | | reflexivity].
  cbn [DeleteAll.deleteChannels_loop]. unfold DeleteAll.stopChannel.
  walk. all: exact IH.
Qed.

Lemma deleteInputs_loop_tears_down (client : Client) (it : Iterator Input) :
  holds_after (within tears_down_only) (DeleteAll.deleteInputs_loop client it)
    (fun _ ok => ok = true) true.
Proof.
  induction it as [|[input|e] it IH]; [reflexivity | | reflexivity].
  cbn [DeleteAll.deleteInputs_loop].
  walk. all: exact IH.
Qed.

Lemma deleteAllChannels_tears_down :
  holds_after (within tears_down_only)
    (DeleteAll.deleteAllChannels DeleteAll.projectID DeleteAll.location)
    (fun _ ok => ok = true) true.
Proof.
  unfold DeleteAll.deleteAllChannels. walk; [|reflexivity].
  apply holds_after_skip; [apply deleteChannels_loop_tears_down|]. intros v.
  walk. reflexivity.
Qed.

Lemma deleteAllInputs_tears_down :
  holds_after (within tears_down_only)
    (DeleteAll.deleteAllInputs DeleteAll.projectID DeleteAll.location)
    (fun _ ok => ok = true) true.
Proof.
  unfold DeleteAll.deleteAllInputs. walk; [|reflexivity].
  apply holds_after_skip; [apply deleteInputs_loop_tears_down|]. intros v.
  walk. reflexivity.
Qed.

Lemma teardown_main_tears_down :
  holds_after (within tears_down_only) DeleteAll.main (fun _ ok => ok = true) true.
Proof.
  unfold DeleteAll.main, DeleteAll.listInputs, DeleteAll.listChannels.
  cbn [holds_after bind perform defer]. intros [client|e]; [|walk; reflexivity].
  cbn [holds_after bind perform defer]. intros it.
  destruct (DeleteAll.drain "ListInputsIterator" it []) as [inputs [e|]];
    cbn [fst snd holds_after bind perform]; [walk; reflexivity|].
  intros u. walk.
  apply holds_after_skip.
  { apply holds_after_skip; [apply range_log_tears_down|]. intros _.
    cbn [holds_after bind perform]. intros itc.
    destruct (DeleteAll.drain "ListChannelsIterator" itc []) as [channels [e|]];
      cbn [fst snd holds_after bind perform]; [walk; reflexivity|].
    intros u'. walk.
    apply holds_after_skip; [apply report_tears_down|]. intros [|]; [|reflexivity].
    apply holds_after_skip; [apply deleteAllChannels_tears_down|]. intros e1.
    apply holds_after_skip; [destruct e1; walk; reflexivity|]. intros _.
    apply holds_after_skip; [apply deleteAllInputs_tears_down|]. intros e2.
    apply holds_after_skip; [destruct e2; walk; reflexivity|]. intros _.
    walk. reflexivity. }
  intros a. walk. reflexivity.
Qed.

(** The teardown program, against any environment, asks only for
    listings of the inputs and channels under its project and location,
    listings of events, stops, deletes and log lines.  It never creates,
    looks up or starts anything, reads or writes no file, sleeps never, and
    writes nothing to the writer its delete functions are given. *)
Theorem teardown_footprint {W : Type} (h : handler W) (w : W) :
  forallb tears_down_only (requests (trace_of (run h DeleteAll.main w))) = true.
Proof.
  pose proof (holds_after_run (within tears_down_only) h _ _ true w
                teardown_main_tears_down) as Hrun.
  cbn beta in Hrun. by rewrite within_fold in Hrun.
Qed.

End TeardownFootprint.

(** ** Clients and files are closed *)





Section Handles.

Variable MarshalIndent : list (string * string) -> result string.
Variable Unmarshal : string -> result Channel.













End Handles.

(** ** The template *)

Lemma replace_from_free (old' new s t : string) :
  marker_free s = true ->
  replace_from 0 (String "<" old') new (s +:+ t)
  = s +:+ replace_from 0 (String "<" old') new t.
Proof.
  induction s as [|c s IH]; intros Hs; [reflexivity|].
  cbn [marker_free] in Hs. apply andb_true_iff in Hs as [Hc Hs].
  change (String c s +:+ ?x) with (String c (s +:+ x)).
  cbn [replace_from String.prefix].
  destruct (ascii_dec "<" c) as [<-|_]; [discriminate Hc|].
  by rewrite IH.
Qed.

Lemma replace_from_free_end (old' new s : string) :
  marker_free s = true -> replace_from 0 (String "<" old') new s = s.
Proof.
  induction s as [|c s IH]; intros Hs; [reflexivity|].
  cbn [marker_free] in Hs. apply andb_true_iff in Hs as [Hc Hs].
  cbn [replace_from String.prefix].
  destruct (ascii_dec "<" c) as [<-|_]; [discriminate Hc|].
  by rewrite IH.
Qed.

(** The scan of [strings.ReplaceAll] over the markers and over the value
    put in for the first one. *)
Lemma output_marker_replaced (new x : string) :
  replace_from 0 "<GCS_OUTPUT>" new ("<GCS_OUTPUT>" +:+ x)
  = new +:+ replace_from 0 "<GCS_OUTPUT>" new x.
Proof. destruct x; reflexivity. Qed.

Lemma input_marker_kept (new x : string) :
  replace_from 0 "<GCS_OUTPUT>" new ("<GCP_OTHER_INFO>" +:+ x)
  = "<GCP_OTHER_INFO>" +:+ replace_from 0 "<GCS_OUTPUT>" new x.
Proof. reflexivity. Qed.

Lemma input_marker_replaced (new x : string) :
  replace_from 0 "<GCP_OTHER_INFO>" new ("<GCP_OTHER_INFO>" +:+ x)
  = new +:+ replace_from 0 "<GCP_OTHER_INFO>" new x.
Proof. destruct x; reflexivity. Qed.

Lemma gcsoutput_kept (new x : string) :
  replace_from 0 "<GCP_OTHER_INFO>" new (CreateStream.gcsoutput +:+ x)
  = CreateStream.gcsoutput +:+ replace_from 0 "<GCP_OTHER_INFO>" new x.
Proof. reflexivity. Qed.

Lemma substituted_text (a b c inputName : string) :
  marker_free a = true -> marker_free b = true -> marker_free c = true ->
  (ReplaceAll (ReplaceAll (template a "<GCP_OTHER_INFO>" b "<GCS_OUTPUT>" c)
                 "<GCS_OUTPUT>" CreateStream.gcsoutput)
     "<GCP_OTHER_INFO>" inputName
   = template a inputName b CreateStream.gcsoutput c)
  /\ (ReplaceAll (ReplaceAll (template a "<GCS_OUTPUT>" b "<GCP_OTHER_INFO>" c)
                    "<GCS_OUTPUT>" CreateStream.gcsoutput)
        "<GCP_OTHER_INFO>" inputName
      = template a CreateStream.gcsoutput b inputName c).
Proof.
  intros Ha Hb Hc. unfold ReplaceAll, template. split.
  - rewrite (replace_from_free _ _ a) by exact Ha.
    rewrite input_marker_kept.
    rewrite (replace_from_free _ _ b) by exact Hb.
    rewrite output_marker_replaced.
    rewrite (replace_from_free_end _ _ c) by exact Hc.
    rewrite (replace_from_free _ _ a) by exact Ha.
    rewrite input_marker_replaced.
    rewrite (replace_from_free _ _ b) by exact Hb.
    rewrite gcsoutput_kept.
    by rewrite (replace_from_free_end _ _ c) by exact Hc.
  - rewrite (replace_from_free _ _ a) by exact Ha.
    rewrite output_marker_replaced.
    rewrite (replace_from_free _ _ b) by exact Hb.
    rewrite input_marker_kept.
    rewrite (replace_from_free_end _ _ c) by exact Hc.
    rewrite (replace_from_free _ _ a) by exact Ha.
    rewrite gcsoutput_kept.
    rewrite (replace_from_free _ _ b) by exact Hb.
    rewrite input_marker_replaced.
    by rewrite (replace_from_free_end _ _ c) by exact Hc.
Qed.

Section TemplateFacts.

Context {W : Type} (h : handler W).
Variable MarshalIndent : list (string * string) -> result string.
Variable Unmarshal : string -> result Channel.

(** What [createChannelIfNotExists] asks the service to create is the parse
    of the template with the values in the place of the markers.  When the
    text read from the template file has the two markers once each, in
    either order, among text in which no marker starts, the channel of the
    create request is what [protojson.Unmarshal] gives for that text with
    the input's resource name in the place of [<GCP_OTHER_INFO>] and the
    storage URI in the place of [<GCS_OUTPUT>]; the request is made under
    the parent and the id the function was given. *)
Theorem template_substitution (p l id path a b c : string) (w : W) :
  let x := run h (CreateStream.createChannelIfNotExists MarshalIndent Unmarshal
                    p l id path) w in
  let inputName :=
    "projects/" +:+ p +:+ "/locations/" +:+ l +:+ "/inputs/" +:+ CreateStream.inputID in
  marker_free a = true -> marker_free b = true -> marker_free c = true ->
  forall text parent channelId channel,
    trace_of x !! 2 ≫= file_read = Some (text, None) ->
    requests (trace_of x) !! 3 = Some (ReqCreateChannel parent channelId channel) ->
    parent = "projects/" +:+ p +:+ "/locations/" +:+ l
    /\ channelId = id
    /\ (text = template a "<GCP_OTHER_INFO>" b "<GCS_OUTPUT>" c ->
        Unmarshal (template a inputName b CreateStream.gcsoutput c) = Ok channel)
    /\ (text = template a "<GCS_OUTPUT>" b "<GCP_OTHER_INFO>" c ->
        Unmarshal (template a CreateStream.gcsoutput b inputName c) = Ok channel).
Proof.
  intros x inputName Ha Hb Hc text parent channelId channel. subst x.
  pose proof (substituted_text a b c inputName Ha Hb Hc) as [Hfirst Hsecond].
  subst inputName.
  unfold CreateStream.createChannelIfNotExists. run_all h.
  all: unfold trace_of; cbn [snd]; intros Hread Hreq.
  all: cbn in Hread, Hreq; try discriminate Hreq; try discriminate Hread.
  all: injection Hread as <-; injection Hreq as <- <- <-.
  all: repeat split; intros ->; congruence.
Qed.

End TemplateFacts.

Lemma template_substitution_witness :
  let text := template "{input: " "<GCP_OTHER_INFO>" ", uri: " "<GCS_OUTPUT>" "}" in
  let x := run (template_on_disk text)
             (CreateStream.createChannelIfNotExists marshal_members unmarshal_fixed
                "p" "l" "c" "request.json") tt in
  let channel :=
    mkChannel ""
      [mkInputAttachment "my-input"
         ("{input: projects/p/locations/l/inputs/livestream-input-01, "
            +:+ "uri: gs://<GCP_STORAGE_BUCKET>/livestream-input-01}")]
      "gs://b/o" STREAMING_STATE_UNSPECIFIED [] in
  requests (trace_of x) !! 3 = Some (ReqCreateChannel "projects/p/locations/l" "c" channel)
  /\ unmarshal_fixed
       (template "{input: " "projects/p/locations/l/inputs/livestream-input-01" ", uri: "
          CreateStream.gcsoutput "}")
     = Ok channel.
Proof.
  intros text x channel. split; [reflexivity|].
  apply (proj1 (proj2 (proj2
           (template_substitution (template_on_disk text) marshal_members unmarshal_fixed
              "p" "l" "c" "request.json" "{input: " ", uri: " "}" tt
              eq_refl eq_refl eq_refl text "projects/p/locations/l" "c" channel
              eq_refl eq_refl)))).
  reflexivity.
Defined.

(** ** What the polling loop reports *)

Section PollingFacts.

Context {W : Type} (h : handler W).

(** In the final loop of the provisioning program every pass fetches the
    channel twice.  The state of the first answer is never reported: of the
    first fetch only a failure is logged, and the line that reports the
    state (or the failure) is that of the second fetch.  So the log of the
    loop is determined by the answers to its fetches, taken two by two, and
    after [n] passes there were [2 * n] fetches, all of the same channel. *)
Theorem polling_reports (n : nat) (client : Client) (channelName : string) (w : W) :
  let x := run h (CreateStream.pollLoop n client channelName) w in
  logged (trace_of x) = poll_lines channelName (omap fetch_answer (trace_of x))
  /\ length (omap fetch_answer (trace_of x)) = 2 * n
  /\ List.filter is_get_channel (requests (trace_of x))
     = replicate (2 * n) (ReqGetChannel channelName).
Proof.
  revert w. induction n as [|n IH]; intros w; [by repeat split|].
  cbn [CreateStream.pollLoop].
  unfold CreateStream.pollOnce, CreateStream.printChannelState,
    CreateStream.getChannelState.
  run_all h.
  all: match goal with
       | |- context [run h (CreateStream.pollLoop ?k ?c ?i) ?w'] =>
           specialize (IH w');
           destruct (run h (CreateStream.pollLoop k c i) w') as [[v wz] t]
       end.
  all: unfold trace_of in *; cbn [fst snd] in *.
  all: destruct IH as (Hl & Hn & Hq).
  all: replace (2 * S n) with (S (S (2 * n))) by lia.
  all: unfold logged, requests in *; cbn; cbn in Hl, Hq; rewrite Hl, Hn, Hq.
  all: by repeat split.
Qed.

(** [stopChannel] returns the first failure, wrapped, and makes no call
    after it: a refused stop request is not waited for.  It returns [nil]
    exactly when both the request and the wait succeeded, and only then
    logs that the channel was stopped. *)
Theorem stopChannel_outcome (client : Client) (channelName : string) (w : W) :
  let x := run h (DeleteAll.stopChannel client channelName) w in
  (forall e,
     steps (trace_of x) !! 0 = Some (ReqStop channelName, Some e) ->
     value_of x = Some (Wrap "StopChannel" e)
     /\ requests (trace_of x) = [ReqStop channelName])
  /\ (forall e,
     steps (trace_of x) !! 1 = Some (ReqWaitStop, Some e) ->
     value_of x = Some (Wrap "StopChannel Wait" e)
     /\ requests (trace_of x) = [ReqStop channelName; ReqWaitStop])
  /\ (value_of x = None <-> all_succeeded (trace_of x) = true)
  /\ (value_of x = None <->
      requests (trace_of x)
      = [ReqStop channelName; ReqWaitStop;
         ReqLog ("Stopped channel: " +:+ channelName +:+ nl)]).
Proof.
  unfold DeleteAll.stopChannel. run_all h.
  all: unfold value_of, trace_of, all_succeeded; cbn [fst snd].
  all: split; [|split; [|split]].
  all: try (intros e' He; steps_hyp He;
            first [discriminate He | injection He as <-; by split]).
  all: split; intros Hx; first [reflexivity | discriminate Hx | cbn in Hx; discriminate Hx].
Qed.

End PollingFacts.

Lemma stopChannel_outcome_witness :
  let name := "projects/p/locations/l/channels/a" in
  let x := run (teardown_refused [] [] []) (DeleteAll.stopChannel (mkClient 0) name) tt in
  value_of x = Some (Wrap "StopChannel" (StatusErr FailedPrecondition name))
  /\ requests (trace_of x) = [ReqStop name].
Proof.
  intros name x.
  apply (proj1 (stopChannel_outcome (teardown_refused [] [] []) (mkClient 0) name tt)
           (StatusErr FailedPrecondition name)).
  reflexivity.
Defined.


(** ** The report of the teardown program *)

Section ReportFacts.

Context {W : Type} (h : handler W).

Lemma range_log_requests {A : Type} (xs : list A) (line : A -> string) (w : W) :
  requests (trace_of (run h (DeleteAll.range xs
                               (fun a => perform (Printf (line a)) ;; Ret true)) w))
  = map (fun a => ReqLog (line a)) xs.
Proof.
  revert w. induction xs as [|a xs IH]; intros w; [reflexivity|].
  cbn [DeleteAll.range]. run_all h.
  specialize (IH w0).
  destruct (run h (DeleteAll.range xs _) w0) as [[v w1] t].
  unfold trace_of in *; cbn [fst snd] in *. cbn. by rewrite <- IH.
Qed.

Lemma report_positions (E0 E1 E2 E3 : event) (t1 rest : trace) (qs : list request) :
  requests t1 = qs ->
  let T := E0 :: E1 :: E2 :: t1 ++ E3 :: rest in
  take (S (length qs)) (drop 2 (requests T)) = event_request E2 :: qs
  /\ T !! (3 + length qs) = Some E3
  /\ drop (4 + length qs) (requests T) = requests rest.
Proof.
  intros <-. cbn zeta. unfold requests. rewrite length_map.
  cbn [map drop take Nat.add lookup list_lookup]. rewrite map_app. cbn [map].
  repeat split.
  - f_equal. rewrite <- (length_map event_request t1). apply take_app_length.
  - by apply list_lookup_middle.
  - rewrite <- (length_map event_request t1).
    change (map event_request t1 ++ event_request E3 :: map event_request rest)
      with (map event_request t1 ++ [event_request E3] ++ map event_request rest).
    rewrite app_assoc.
    replace (S (length (map event_request t1)))
      with (length (map event_request t1 ++ [event_request E3]))
      by (rewrite length_app; cbn; lia).
    apply drop_app_length.
Qed.

(** The report that opens the teardown program.  When the client cannot be
    constructed the program logs that and ends.  When the listing of the
    inputs fails it logs the error, closes the client and ends: it lists no
    channels and tears nothing down.  Otherwise it logs the heading and the
    name of every input the listing yielded, in order, and lists the
    channels next, under the same parent; when that listing fails it logs
    the error, closes the client and ends. *)
Theorem report_of_inputs (w : W) :
  let x := run h DeleteAll.main w in
  (forall e,
     steps (trace_of x) !! 0 = Some (ReqNewClient, Some e) ->
     requests (trace_of x)
     = [ReqNewClient; ReqLog ("Error creating client: " +:+ Error e)])
  /\ forall c parent it,
     trace_of x !! 1 = Some (Ev (ListInputs c parent) it) ->
     match first_error it with
     | Some e =>
         requests (trace_of x)
         = [ReqNewClient; ReqListInputs parent;
            ReqLog ("Error listing inputs: " +:+ Error (Wrap "ListInputsIterator" e));
            ReqClose]
     | None =>
         take (S (length (yielded it))) (drop 2 (requests (trace_of x)))
         = ReqLog ("Inputs:" +:+ nl)
             :: map (fun input => ReqLog ("- " +:+ Input_Name input +:+ nl)) (yielded it)
         /\ requests (trace_of x) !! (3 + length (yielded it))
            = Some (ReqListChannels parent)
         /\ forall c' parent' itc e,
              trace_of x !! (3 + length (yielded it))
              = Some (Ev (ListChannels c' parent') itc) ->
              first_error itc = Some e ->
              drop (4 + length (yielded it)) (requests (trace_of x))
              = [ReqLog ("Error listing channels: "
                           +:+ Error (Wrap "ListChannelsIterator" e));
                 ReqClose]
     end.
Proof.
  unfold DeleteAll.main, DeleteAll.listInputs, DeleteAll.listChannels.
  run_step h. destruct r as [client|e0].
  2:{ run_all h. unfold trace_of; cbn [snd]. split.
      - intros e He. steps_hyp He. by injection He as <-.
      - intros c parent it Hev. apply (f_equal (fun o => event_request <$> o)) in Hev.
        discriminate Hev. }
  run_step h. rewrite drain_spec. destruct (first_error r) as [e|] eqn:Hin.
  { cbn [fst snd]. run_all h. unfold trace_of; cbn [snd]. split.
    - intros e' He. steps_hyp He. discriminate He.
    - intros c parent it Hev.
      pose proof (f_equal (fun o => e ← o; listed_inputs e) Hev) as Hit.
      pose proof (f_equal (fun o => event_request <$> o) Hev) as Hq.
      cbn in Hit, Hq. injection Hit as <-. injection Hq as <-.
      by rewrite Hin. }
  cbn [fst snd app]. run_step h. rewrite !run_bind.
  pose proof (range_log_requests (yielded r)
                (fun input => "- " +:+ Input_Name input +:+ nl) w2) as Hr.
  destruct (run h (DeleteAll.range (yielded r) _) w2) as [[v w3] t1].
  unfold trace_of in Hr; cbn [snd] in Hr.
  assert (Hlen : length (requests t1) = length (yielded r))
    by (by rewrite Hr, length_map).
  run_step h. rewrite drain_spec. destruct (first_error r1) as [e|] eqn:Hch.
  - cbn [fst snd]. run_all h. unfold trace_of; cbn [snd]. app_norm. split.
    + intros e' He. steps_hyp He. discriminate He.
    + intros c parent it Hev.
      pose proof (f_equal (fun o => e ← o; listed_inputs e) Hev) as Hit.
      pose proof (f_equal (fun o => event_request <$> o) Hev) as Hq.
      cbn in Hit, Hq. injection Hit as <-. injection Hq as <-. rewrite Hin.
      match goal with
      | |- context [?E0 :: ?E1 :: ?E2 :: t1 ++ ?E3 :: ?rest] =>
          destruct (report_positions E0 E1 E2 E3 t1 rest _ Hr) as (Htake & Hat & Hdrop)
      end.
      rewrite length_map in Htake, Hat, Hdrop.
      split; [exact Htake|]. split.
      * unfold requests. rewrite list_lookup_fmap, Hat. reflexivity.
      * intros c' parent' itc e' Hev' Herr. rewrite Hat in Hev'.
        apply (f_equal (fun o => e ← o; listed_channels e)) in Hev'.
        cbn in Hev'. injection Hev' as <-. rewrite Hch in Herr. injection Herr as <-.
        rewrite Hdrop. reflexivity.
  - cbn [fst snd app].
    match goal with
    | |- context [run h ?X w4] => destruct (run h X w4) as [[a5 w5] trest]
    end.
    run_all h. unfold trace_of; cbn [snd]. app_norm. split.
    + intros e' He. steps_hyp He. discriminate He.
    + intros c parent it Hev.
      pose proof (f_equal (fun o => e ← o; listed_inputs e) Hev) as Hit.
      pose proof (f_equal (fun o => event_request <$> o) Hev) as Hq.
      cbn in Hit, Hq. injection Hit as <-. injection Hq as <-. rewrite Hin.
      match goal with
      | |- context [?E0 :: ?E1 :: ?E2 :: t1 ++ ?E3 :: ?rest] =>
          destruct (report_positions E0 E1 E2 E3 t1 rest _ Hr) as (Htake & Hat & Hdrop)
      end.
      rewrite length_map in Htake, Hat, Hdrop.
      split; [exact Htake|]. split.
      * unfold requests. rewrite list_lookup_fmap, Hat. reflexivity.
      * intros c' parent' itc e' Hev' Herr. rewrite Hat in Hev'.
        apply (f_equal (fun o => e ← o; listed_channels e)) in Hev'.
        cbn in Hev'. injection Hev' as <-. rewrite Hch in Herr. discriminate Herr.
Qed.

End ReportFacts.

Lemma report_of_inputs_witness :
  let i := mkInput "projects/p/locations/l/inputs/i" RTMP_PUSH "rtmp://i" in
  let e := StatusErr Unavailable "page 2" in
  let x := run (listing [Ok i; Err e] [] []) DeleteAll.main tt in
  requests (trace_of x)
  = [ReqNewClient; ReqListInputs "projects/<PROJECT_NUMBER>/locations/<REGION>";
     ReqLog ("Error listing inputs: " +:+ Error (Wrap "ListInputsIterator" e));
     ReqClose].
Proof.
  intros i e x.
  apply (proj2 (report_of_inputs (listing [Ok i; Err e] [] []) tt) (mkClient 0)
           "projects/<PROJECT_NUMBER>/locations/<REGION>" [Ok i; Err e]).
  reflexivity.
Defined.

(** ** The end of the teardown program *)

Lemma seen_fold (t : trace) (g : nat * list request) :
  fold_left seen t g
  = (count_requests is_new_client t + g.1, rev (requests t) ++ g.2).
Proof.
  revert g. induction t as [|e t IH]; intros [k qs]; [reflexivity|].
  cbn [fold_left]. rewrite IH. unfold seen, count_requests, requests.
  cbn [map List.filter fst snd rev].
  destruct (is_new_client (event_request e)); cbn [length]; f_equal;
    first [lia | by rewrite <- app_assoc].
Qed.

Lemma holds_after_any {A G : Type} (upd : G -> event -> G) (p : prog A) (g : G) :
  holds_after upd p (fun _ _ => True) g.
Proof. revert g. induction p as [a | R c k IH]; intros g; cbn; auto. Qed.

Ltac early :=
  cbn [seen is_new_client event_request call_request fst snd] in *; exfalso; lia.

Section TeardownEnd.

Lemma range_log_seen {A : Type} (xs : list A) (line : A -> string) (g : nat * list request) :
  holds_after seen (DeleteAll.range xs (fun a => perform (Printf (line a)) ;; Ret true))
    (fun _ g' => g'.1 = g.1) g.
Proof.
  revert g. induction xs as [|a xs IH]; intros g; [reflexivity|].
  cbn [DeleteAll.range]. walk.
  eapply holds_after_mono; [|apply IH]. intros v g' ->. reflexivity.
Qed.

Lemma report_seen (client : Client) (channels : list Channel) (g : nat * list request) :
  holds_after seen (DeleteAll.range channels (DeleteAll.reportChannel client))
    (fun _ g' => g'.1 = g.1) g.
Proof.
  revert g. induction channels as [|channel channels IH]; intros g; [reflexivity|].
  cbn [DeleteAll.range]. unfold DeleteAll.reportChannel at 1, DeleteAll.listEvents.
  walk.
  - reflexivity.
  - apply holds_after_bind, holds_after_bind.
    eapply holds_after_mono; [|apply range_log_seen].
    intros v g' Hg'. walk.
    eapply holds_after_mono; [|apply IH]. intros v' g'' ->. exact Hg'.
  - eapply holds_after_mono; [|apply IH]. intros v g' ->. reflexivity.
Qed.

Lemma teardown_main_seen :
  holds_after seen DeleteAll.main
    (fun _ g =>
       1 < g.1 ->
       exists before,
         g.2 = ReqClose :: ReqLog "Finished deleting all channels and inputs." :: before)
    (0, []).
Proof.
  unfold DeleteAll.main, DeleteAll.listInputs, DeleteAll.listChannels.
  cbn [holds_after bind perform defer]. intros [client|e]; [|walk; early].
  cbn [holds_after bind perform defer]. intros it.
  destruct (DeleteAll.drain "ListInputsIterator" it []) as [inputs [e|]];
    cbn [fst snd holds_after bind perform]; [walk; early|].
  intros u. walk.
  apply holds_after_bind, holds_after_bind.
  eapply holds_after_mono; [|apply range_log_seen].
  intros v1 g1 Hg1. cbn [fst] in Hg1.
  cbn [holds_after bind perform]. intros itc.
  destruct (DeleteAll.drain "ListChannelsIterator" itc []) as [channels [e|]];
    cbn [fst snd holds_after bind perform].
  { walk. early. }
  intros u'. walk.
  apply holds_after_bind.
  eapply holds_after_mono; [|apply report_seen].
  intros go_on g2 Hg2. cbn [fst] in Hg2. destruct go_on.
  - apply holds_after_bind.
    eapply holds_after_mono; [|apply holds_after_any]. intros e1 g3 _.
    apply holds_after_bind.
    eapply holds_after_mono; [|apply holds_after_any]. intros v4 g4 _.
    apply holds_after_bind.
    eapply holds_after_mono; [|apply holds_after_any]. intros e2 g5 _.
    apply holds_after_bind.
    eapply holds_after_mono; [|apply holds_after_any]. intros v6 g6 _.
    walk. cbn [seen is_new_client event_request call_request fst snd]. by eexists.
  - walk. early.
Qed.

(** Once the teardown program gets to the bulk deletes, that is once it
    asks for a second client, it ends with the log line [Finished deleting
    all channels and inputs.] and the close of its own client, whatever the
    bulk deletes did and whatever they returned. *)
Theorem finished_whatever_failed {W : Type} (h : handler W) (w : W) :
  let x := run h DeleteAll.main w in
  1 < count_requests is_new_client (trace_of x) ->
  exists before,
    requests (trace_of x)
    = before ++ [ReqLog "Finished deleting all channels and inputs."; ReqClose].
Proof.
  intros x Hn. subst x.
  pose proof (holds_after_run seen h _ _ _ w teardown_main_seen) as Hrun.
  cbv beta in Hrun. rewrite seen_fold in Hrun. cbn [fst snd] in Hrun.
  rewrite Nat.add_0_r, app_nil_r in Hrun.
  destruct (Hrun Hn) as [before Hb].
  exists (rev before). apply (f_equal (@rev request)) in Hb.
  rewrite rev_involutive in Hb. rewrite Hb. cbn [rev]. by rewrite <- app_assoc.
Qed.

End TeardownEnd.

Lemma finished_whatever_failed_witness :
  let a := mkChannel "projects/p/locations/l/channels/a" [] "gs://b/a" STREAMING [] in
  let i := mkInput "projects/p/locations/l/inputs/i" RTMP_PUSH "rtmp://i" in
  let x := run (teardown_refused [Ok i] [Ok a] []) DeleteAll.main tt in
  all_succeeded (trace_of x) = false
  /\ exists before,
       requests (trace_of x)
       = before ++ [ReqLog "Finished deleting all channels and inputs."; ReqClose].
Proof.
  intros a i x. split; [reflexivity|].
  apply (finished_whatever_failed (teardown_refused [Ok i] [Ok a] []) tt).
  vm_compute. lia.
Defined.

(** ** What the snapshot document says *)

Section DocumentFacts.

Context {W : Type} (h : handler W).
Variable MarshalIndent : list (string * string) -> result string.
Variable Unmarshal : string -> result Channel.


End DocumentFacts.


(** ** The events of every channel *)

Lemma report_fold (t : trace) (g : Report) :
  fold_left report t g
  = mkReport (count_requests is_new_client t + rep_clients g)
      (match rep_channels g with
       | Some it => Some it
       | None => head (omap listed_channels t)
       end)
      (rep_events g ++ List.filter is_list_events (requests t)).
Proof.
  revert g. induction t as [|e t IH]; intros [n ch ev].
  - cbn. rewrite app_nil_r. by destruct ch.
  - cbn [fold_left]. rewrite IH. unfold report, count_requests, requests.
    cbn [map List.filter omap rep_clients rep_channels rep_events].
    f_equal.
    + destruct (is_new_client (event_request e)); cbn [length]; lia.
    + destruct ch; [reflexivity|]. cbn [omap list_omap].
      destruct (listed_channels e); reflexivity.
    + destruct (is_list_events (event_request e)); [|reflexivity].
      by rewrite <- app_assoc.
Qed.

(** A step that asks for no client, lists no events and is not the first
    listing of channels leaves the summary as it was. *)
Lemma report_quiet (g : Report) (e : event) :
  is_new_client (event_request e) = false ->
  is_list_events (event_request e) = false ->
  listed_channels e = None ->
  report g e = g.
Proof.
  intros Hn Hl Hc. destruct g as [n ch ev]. unfold report. rewrite Hn, Hl, Hc.
  by destruct ch.
Qed.

(** Once the channels are listed, a step that lists no events leaves the
    listing and the events of the summary as they were. *)
Lemma kept_step (it : Iterator Channel) (events : list request) (g : Report) (e : event) :
  is_list_events (event_request e) = false ->
  kept it events g -> kept it events (report g e).
Proof.
  intros Hl [Hc He]. destruct g as [n ch ev]. cbn in Hc, He. subst.
  unfold kept, report. cbn. by rewrite Hl.
Qed.

Ltac quiet_steps := rewrite ?report_quiet by reflexivity.
Ltac kept_steps := repeat (apply kept_step; [reflexivity|]); try assumption.

Section EventsReport.

Lemma range_log_report {A : Type} (xs : list A) (line : A -> string) (g : Report) :
  holds_after report (DeleteAll.range xs (fun a => perform (Printf (line a)) ;; Ret true))
    (fun _ g' => g' = g) g.
Proof.
  induction xs as [|a xs IH]; [reflexivity|].
  cbn [DeleteAll.range]. walk. quiet_steps. exact IH.
Qed.

Lemma report_report (client : Client) (channels : list Channel) (g : Report) :
  holds_after report (DeleteAll.range channels (DeleteAll.reportChannel client))
    (fun v g' =>
       rep_clients g' = rep_clients g
       /\ (v = true ->
           g' = mkReport (rep_clients g) (rep_channels g)
                  (rep_events g
                     ++ map (fun ch => ReqListEvents (Channel_Name ch)) channels)))
    g.
Proof.
  revert g. induction channels as [|channel channels IH]; intros g.
  - cbn. split; [reflexivity|]. intros _. destruct g. cbn. by rewrite app_nil_r.
  - assert (Hstep : forall r r0,
               report (report g (Ev (Printf ("- " +:+ Channel_Name channel +:+ nl)) r))
                 (Ev (ListEvents client (Channel_Name channel)) r0)
               = mkReport (rep_clients g) (rep_channels g)
                   (rep_events g ++ [ReqListEvents (Channel_Name channel)])).
    { intros r r0. rewrite (report_quiet g) by reflexivity.
      destruct g as [n [it|] ev]; reflexivity. }
    assert (Hnext : forall g1,
               g1 = mkReport (rep_clients g) (rep_channels g)
                      (rep_events g ++ [ReqListEvents (Channel_Name channel)]) ->
               holds_after report
                 (DeleteAll.range channels (DeleteAll.reportChannel client))
                 (fun v g' =>
                    rep_clients g' = rep_clients g
                    /\ (v = true ->
                        g' = mkReport (rep_clients g) (rep_channels g)
                               (rep_events g
                                  ++ map (fun ch => ReqListEvents (Channel_Name ch))
                                       (channel :: channels))))
                 g1).
    { intros g1 ->. eapply holds_after_mono; [|apply IH].
      cbn [rep_clients rep_channels rep_events]. intros v g' [Hc Hv].
      split; [exact Hc|]. intros ->. rewrite (Hv eq_refl).
      cbn [map]. by rewrite <- app_assoc. }
    cbn [DeleteAll.range]. unfold DeleteAll.reportChannel at 1, DeleteAll.listEvents.
    walk.
    + quiet_steps. rewrite Hstep. cbn. split; [reflexivity | discriminate].
    + apply holds_after_bind, holds_after_bind.
      eapply holds_after_mono; [|apply range_log_report].
      intros v g' ->. walk. apply Hnext. quiet_steps. apply Hstep.
    + apply Hnext. apply Hstep.
Qed.

Lemma deleteChannels_loop_report (client : Client) (it : Iterator Channel)
    (itc : Iterator Channel) (events : list request) (g : Report) :
  kept itc events g ->
  holds_after report (DeleteAll.deleteChannels_loop client it)
    (fun _ g' => kept itc events g') g.
Proof.
  revert g. induction it as [|[channel|e] it IH]; intros g Hg; [exact Hg | | exact Hg].
  cbn [DeleteAll.deleteChannels_loop]. unfold DeleteAll.stopChannel.
  walk. all: apply IH; kept_steps.
Qed.

Lemma deleteInputs_loop_report (client : Client) (it : Iterator Input)
    (itc : Iterator Channel) (events : list request) (g : Report) :
  kept itc events g ->
  holds_after report (DeleteAll.deleteInputs_loop client it)
    (fun _ g' => kept itc events g') g.
Proof.
  revert g. induction it as [|[input|e] it IH]; intros g Hg; [exact Hg | | exact Hg].
  cbn [DeleteAll.deleteInputs_loop].
  walk. all: apply IH; kept_steps.
Qed.

Lemma deleteAllChannels_report (p l : string) (itc : Iterator Channel)
    (events : list request) (g : Report) :
  kept itc events g ->
  holds_after report (DeleteAll.deleteAllChannels p l) (fun _ g' => kept itc events g') g.
Proof.
  intros Hg. unfold DeleteAll.deleteAllChannels. walk; [|kept_steps].
  apply holds_after_bind.
  eapply holds_after_mono; [|apply (deleteChannels_loop_report _ _ itc events); kept_steps].
  intros v g' Hg'. walk. kept_steps.
Qed.

Lemma deleteAllInputs_report (p l : string) (itc : Iterator Channel)
    (events : list request) (g : Report) :
  kept itc events g ->
  holds_after report (DeleteAll.deleteAllInputs p l) (fun _ g' => kept itc events g') g.
Proof.
  intros Hg. unfold DeleteAll.deleteAllInputs. walk; [|kept_steps].
  apply holds_after_bind.
  eapply holds_after_mono; [|apply (deleteInputs_loop_report _ _ itc events); kept_steps].
  intros v g' Hg'. walk. kept_steps.
Qed.

Ltac report_norm :=
  cbn [report rep_clients rep_channels rep_events is_new_client is_list_events
       listed_channels event_request call_request] in *.

Lemma teardown_main_report :
  holds_after report DeleteAll.main
    (fun _ g =>
       1 < rep_clients g ->
       exists itc,
         rep_channels g = Some itc
         /\ first_error itc = None
         /\ rep_events g = map (fun ch => ReqListEvents (Channel_Name ch)) (yielded itc))
    (mkReport 0 None []).
Proof.
  unfold DeleteAll.main, DeleteAll.listInputs, DeleteAll.listChannels.
  cbn [holds_after bind perform defer]. intros [client|e].
  2:{ walk. all: report_norm; lia. }
  cbn [holds_after bind perform defer]. intros it.
  destruct (DeleteAll.drain "ListInputsIterator" it []) as [inputs [e|]];
    cbn [fst snd holds_after bind perform].
  { walk. all: report_norm; lia. }
  intros u. report_norm.
  apply holds_after_bind, holds_after_skip; [apply range_log_report|]. intros _.
  cbn [holds_after bind perform]. intros itc. report_norm.
  rewrite drain_spec. destruct (first_error itc) as [e|] eqn:Herr;
    cbn [fst snd holds_after bind perform app].
  { walk. all: report_norm; lia. }
  intros u'. report_norm.
  apply holds_after_bind.
  eapply holds_after_mono; [|apply report_report].
  cbn [rep_clients rep_channels rep_events app]. intros go_on g2 [Hc Hev].
  destruct go_on.
  - specialize (Hev eq_refl).
    set (events := map (fun ch => ReqListEvents (Channel_Name ch)) (yielded itc)) in *.
    assert (Hk : kept itc events g2) by (by rewrite Hev).
    clear Hev Hc.
    assert (Hlog : forall (label : string) (err : option error) (g : Report),
               kept itc events g ->
               holds_after report
                 (match err with
                  | Some err => perform (Printf (label +:+ Error err))
                  | None => Ret tt
                  end)
                 (fun _ g' => kept itc events g') g).
    { intros label [err|] g Hg; cbn [holds_after perform]; [|exact Hg].
      intros r. by apply kept_step. }
    apply holds_after_bind.
    eapply holds_after_mono; [|apply deleteAllChannels_report, Hk].
    cbv beta. intros e1 g3 Hk3.
    apply holds_after_bind.
    eapply holds_after_mono; [|apply (Hlog "Error deleting channels: "), Hk3].
    cbv beta. intros v4 g4 Hk4.
    apply holds_after_bind.
    eapply holds_after_mono; [|apply deleteAllInputs_report, Hk4].
    cbv beta. intros e2 g5 Hk5.
    apply holds_after_bind.
    eapply holds_after_mono; [|apply (Hlog "Error deleting inputs: "), Hk5].
    cbv beta. intros v6 g6 Hk6.
    cbn [holds_after bind perform]. intros r r0 _.
    assert (Hend : kept itc events
                     (report (report g6 (Ev (Printf "Finished deleting all channels and inputs.") r))
                        (Ev (Close client) r0)))
      by (by repeat (apply kept_step; [reflexivity|])).
    destruct Hend as [Hch Hev]. exists itc. by repeat split.
  - walk. all: report_norm; lia.
Qed.

(** When the teardown program gets to the bulk deletes, its report has
    gone through every channel: the first listing of channels ended without
    error, and the program has asked for the events of each channel that
    listing yielded, once each and in the order of the listing, under the
    name of the channel; it lists no events anywhere else. *)
Theorem events_of_every_channel {W : Type} (h : handler W) (w : W) :
  let x := run h DeleteAll.main w in
  1 < count_requests is_new_client (trace_of x) ->
  exists itc,
    head (omap listed_channels (trace_of x)) = Some itc
    /\ first_error itc = None
    /\ List.filter is_list_events (requests (trace_of x))
       = map (fun ch => ReqListEvents (Channel_Name ch)) (yielded itc).
Proof.
  intros x Hn. subst x.
  pose proof (holds_after_run report h _ _ _ w teardown_main_report) as Hrun.
  cbv beta in Hrun. rewrite report_fold in Hrun.
  cbn [rep_clients rep_channels rep_events app] in Hrun.
  rewrite Nat.add_0_r in Hrun. exact (Hrun Hn).
Qed.

End EventsReport.

Lemma events_of_every_channel_witness :
  let a := mkChannel "projects/p/locations/l/channels/a" [] "gs://b/a" STREAMING [] in
  let b := mkChannel "projects/p/locations/l/channels/b" [] "gs://b/b" STOPPED [] in
  let x := run (listing [] [Ok a; Ok b] []) DeleteAll.main tt in
  exists itc,
    head (omap listed_channels (trace_of x)) = Some itc
    /\ first_error itc = None
    /\ List.filter is_list_events (requests (trace_of x))
       = map (fun ch => ReqListEvents (Channel_Name ch)) (yielded itc).
Proof.
  intros a b x.
  apply (events_of_every_channel (listing [] [Ok a; Ok b] []) tt).
  vm_compute. lia.
Defined.

(** ** The order of the teardown *)

Lemma no_client_requested {W A : Type} (h : handler W) (p : prog A) (w : W) :
  (forall g, holds_after seen p (fun _ g' => g'.1 = g.1) g) ->
  count_requests is_new_client (trace_of (run h p w)) = 0.
Proof.
  intros Hp. pose proof (holds_after_run seen h p _ (0, []) w (Hp (0, []))) as Hrun.
  cbv beta in Hrun. rewrite seen_fold in Hrun. cbn [fst] in Hrun. lia.
Qed.

Lemma bulk_of_channels_app (parent : string) (answer : result Client) (t t' : trace) :
  bulk_of_channels parent answer t -> teardown_requests t' = [] ->
  bulk_of_channels parent answer (t ++ t').
Proof.
  destruct answer as [c|e]; cbn.
  - intros (it & rest & -> & Hreq) Ht'. exists it, (rest ++ t'). split; [reflexivity|].
    by rewrite teardown_requests_app, Hreq, Ht', app_nil_r.
  - intros Ht Ht'. by rewrite teardown_requests_app, Ht, Ht'.
Qed.

Lemma bulk_of_inputs_app (parent : string) (answer : result Client) (t t' : trace) :
  bulk_of_inputs parent answer t -> teardown_requests t' = [] ->
  bulk_of_inputs parent answer (t ++ t').
Proof.
  destruct answer as [c|e]; cbn.
  - intros (it & rest & -> & Hreq) Ht'. exists it, (rest ++ t'). split; [reflexivity|].
    by rewrite teardown_requests_app, Hreq, Ht', app_nil_r.
  - intros Ht Ht'. by rewrite teardown_requests_app, Ht, Ht'.
Qed.

Lemma bulk_teardown_order (parent : string) (rc ri : result Client) (channels inputs : trace) :
  bulk_of_channels parent rc channels -> bulk_of_inputs parent ri inputs ->
  exists cs ins,
    teardown_requests channels = flat_map channel_teardown cs
    /\ teardown_requests inputs = flat_map input_teardown ins.
Proof.
  intros Hc Hi.
  assert (exists cs, teardown_requests channels = flat_map channel_teardown cs) as [cs Hcs].
  { destruct rc as [c|e]; cbn in Hc.
    - destruct Hc as (it & rest & -> & Hreq). exists (yielded it).
      by rewrite teardown_requests_cons.
    - by exists []. }
  assert (exists ins, teardown_requests inputs = flat_map input_teardown ins) as [ins Hins].
  { destruct ri as [c|e]; cbn in Hi.
    - destruct Hi as (it & rest & -> & Hreq). exists (yielded it).
      by rewrite teardown_requests_cons.
    - by exists []. }
  by exists cs, ins.
Qed.

Section TeardownOrder.

Context {W : Type} (h : handler W).

Lemma deleteAllChannels_bulk (p l : string) (w : W) :
  exists rc seg,
    trace_of (run h (DeleteAll.deleteAllChannels p l) w) = Ev NewClient rc :: seg
    /\ bulk_of_channels ("projects/" +:+ p +:+ "/locations/" +:+ l) rc seg.
Proof.
  destruct (deleteAllChannels_shape h p l w) as [Hrefused Hgiven]. cbn zeta in *.
  destruct (h _ NewClient w) as [[c|e] w1] eqn:Hnew.
  - destruct (h _ (ListChannels c ("projects/" +:+ p +:+ "/locations/" +:+ l)) w1)
      as [it w2] eqn:Hlist.
    destruct (Hgiven c w1 it w2 eq_refl Hlist) as (loop & -> & Hreq & _).
    eexists (Ok c), _. split; [reflexivity|]. cbn. eexists it, _. split; [reflexivity|].
    by rewrite teardown_requests_app, Hreq, app_nil_r.
  - destruct (Hrefused e w1 eq_refl) as [-> _]. by exists (Err e), [].
Qed.

Lemma deleteAllInputs_bulk (p l : string) (w : W) :
  exists ri seg,
    trace_of (run h (DeleteAll.deleteAllInputs p l) w) = Ev NewClient ri :: seg
    /\ bulk_of_inputs ("projects/" +:+ p +:+ "/locations/" +:+ l) ri seg.
Proof.
  destruct (deleteAllInputs_shape h p l w) as [Hrefused Hgiven]. cbn zeta in *.
  destruct (h _ NewClient w) as [[c|e] w1] eqn:Hnew.
  - destruct (h _ (ListInputs c ("projects/" +:+ p +:+ "/locations/" +:+ l)) w1)
      as [it w2] eqn:Hlist.
    destruct (Hgiven c w1 it w2 eq_refl Hlist) as (loop & -> & Hreq & _).
    eexists (Ok c), _. split; [reflexivity|]. cbn. eexists it, _. split; [reflexivity|].
    by rewrite teardown_requests_app, Hreq, app_nil_r.
  - destruct (Hrefused e w1 eq_refl) as [-> _]. by exists (Err e), [].
Qed.

Ltac count_norm :=
  repeat (rewrite count_requests_cons || rewrite count_requests_app);
  cbn [event_request call_request is_new_client].

(** The phases of a run of the teardown program: it ends in its report,
    with one client asked for at most and nothing torn down, or it goes
    through the report and then through the two bulk deletes, each of which
    starts by asking for a client of its own. *)
Lemma main_phases (w : W) :
  let x := run h DeleteAll.main w in
  let parent :=
    "projects/" +:+ DeleteAll.projectID +:+ "/locations/" +:+ DeleteAll.location in
  (count_requests is_new_client (trace_of x) <= 1 /\ teardown_requests (trace_of x) = [])
  \/ exists c0 report rc channels ri inputs,
       trace_of x
       = Ev NewClient (Ok c0) :: report ++ Ev NewClient rc :: channels
           ++ Ev NewClient ri :: inputs
       /\ count_requests is_new_client report = 0
       /\ teardown_requests report = []
       /\ bulk_of_channels parent rc channels
       /\ bulk_of_inputs parent ri inputs.
Proof.
  cbn zeta. unfold DeleteAll.main, DeleteAll.listInputs, DeleteAll.listChannels.
  run_step h. destruct r as [client|e].
  2:{ run_all h. left. unfold trace_of; cbn [snd]. split; [count_norm; cbn; lia|].
      by td_norm. }
  run_step h. rewrite drain_spec. destruct (first_error r) as [e|] eqn:Hin.
  { cbn [fst snd]. run_all h. left. unfold trace_of; cbn [snd].
    split; [count_norm; cbn; lia | by td_norm]. }
  cbn [fst snd app]. run_step h. rewrite !run_bind.
  pose proof (range_log_only h (yielded r)
                 (fun input => "- " +:+ Input_Name input +:+ nl) w2) as Hr.
  pose proof (no_client_requested h _ w2
                (range_log_seen (yielded r)
                   (fun input => "- " +:+ Input_Name input +:+ nl))) as Hn1.
  destruct (run h (DeleteAll.range (yielded r) _) w2) as [[v w3] t1].
  unfold value_of, trace_of in Hr, Hn1; cbn [fst snd] in Hr, Hn1. destruct Hr as [_ Ht1].
  pose proof (harmless_teardown _ Ht1) as Htd1.
  run_step h. rewrite drain_spec. destruct (first_error r1) as [e|] eqn:Hch.
  { cbn [fst snd]. run_all h. left. unfold trace_of; cbn [snd]. split.
    - count_norm. rewrite Hn1. cbn. lia.
    - td_norm. by rewrite Htd1. }
  cbn [fst snd app]. run_step h. rewrite !run_bind.
  pose proof (report_trace h client (yielded r1) w5) as Hrep.
  pose proof (no_client_requested h _ w5 (report_seen client (yielded r1))) as Hn2.
  destruct (run h (DeleteAll.range (yielded r1) _) w5) as [[go_on w6] t2].
  unfold value_of, trace_of in Hrep, Hn2; cbn [fst snd] in Hrep, Hn2.
  destruct Hrep as [Htd2 _]. destruct go_on.
  - right. rewrite !run_bind.
    destruct (deleteAllChannels_bulk DeleteAll.projectID DeleteAll.location w6)
      as (rc & segC & HtC & HbC).
    destruct (run h (DeleteAll.deleteAllChannels _ _) w6) as [[errc w7] tc].
    unfold trace_of in HtC; cbn [snd] in HtC. subst tc.
    assert (Hmid : exists w8 mid,
               run h (match errc with
                      | Some err => perform (Printf ("Error deleting channels: " +:+ Error err))
                      | None => Ret tt
                      end) w7 = (tt, w8, mid) /\ teardown_requests mid = []).
    { destruct errc; run_all h.
      - destruct r3. eexists _, _. split; [reflexivity|]. by td_norm.
      - eexists _, _. split; reflexivity. }
    destruct Hmid as (w8 & mid & Hrunm & Hmid).
    rewrite !run_bind, Hrunm. cbn [run bind]. rewrite !run_bind.
    destruct (deleteAllInputs_bulk DeleteAll.projectID DeleteAll.location w8)
      as (ri & segI & HtI & HbI).
    destruct (run h (DeleteAll.deleteAllInputs _ _) w8) as [[erri w9] ti].
    unfold trace_of in HtI; cbn [snd] in HtI. subst ti.
    assert (Hpost : exists w10 post,
               run h (match erri with
                      | Some err => perform (Printf ("Error deleting inputs: " +:+ Error err))
                      | None => Ret tt
                      end) w9 = (tt, w10, post) /\ teardown_requests post = []).
    { destruct erri; run_all h.
      - destruct r3. eexists _, _. split; [reflexivity|]. by td_norm.
      - eexists _, _. split; reflexivity. }
    destruct Hpost as (w10 & post & Hrunp & Hpost).
    rewrite !run_bind, Hrunp. run_all h.
    unfold trace_of; cbn [snd].
    exists client,
      (Ev (ListInputs client
             ("projects/" +:+ DeleteAll.projectID +:+ "/locations/" +:+ DeleteAll.location)) r
         :: Ev (Printf ("Inputs:" +:+ nl)) r0
         :: t1 ++ Ev (ListChannels client
                        ("projects/" +:+ DeleteAll.projectID +:+ "/locations/"
                           +:+ DeleteAll.location)) r1
         :: Ev (Printf ("Channels:" +:+ nl)) r2 :: t2),
      rc, (segC ++ mid), ri,
      (segI ++ post ++ [Ev (Printf "Finished deleting all channels and inputs.") r3;
                        Ev (Close client) r4]).
    split; [app_norm; reflexivity|]. split; [|split; [|split]].
    + count_norm. rewrite Hn1, Hn2. reflexivity.
    + td_norm. by rewrite Htd1, Htd2.
    + by apply bulk_of_channels_app.
    + apply bulk_of_inputs_app; [exact HbI|]. td_norm. by rewrite Hpost.
  - left. cbn [run bind]. run_all h. unfold trace_of; cbn [snd]. split.
    + count_norm. rewrite Hn1, Hn2. cbn. lia.
    + td_norm. by rewrite Htd1, Htd2.
Qed.

(** C5 (amended): in the teardown program every stop and every delete is
    made by the two bulk deletes, [deleteAllChannels] first.  Each starts
    by asking for a client of its own.  With its client, [deleteAllChannels]
    lists the channels and attempts, for each channel that listing yields
    and in its order, the stop and then the delete; [deleteAllInputs] then
    lists the inputs with its client and attempts the delete of each input
    yielded.  So every channel delete that is attempted comes before every
    input delete, and each channel's stop comes just before that channel's
    delete.  When [deleteAllChannels] gets no client no channel is touched,
    and the inputs are deleted all the same. *)
Theorem channels_before_inputs (w : W) :
  let x := run h DeleteAll.main w in
  let parent :=
    "projects/" +:+ DeleteAll.projectID +:+ "/locations/" +:+ DeleteAll.location in
  ((count_requests is_new_client (trace_of x) <= 1 /\ teardown_requests (trace_of x) = [])
   \/ exists c0 report rc channels ri inputs,
        trace_of x
        = Ev NewClient (Ok c0) :: report ++ Ev NewClient rc :: channels
            ++ Ev NewClient ri :: inputs
        /\ count_requests is_new_client report = 0
        /\ teardown_requests report = []
        /\ bulk_of_channels parent rc channels
        /\ bulk_of_inputs parent ri inputs)
  /\ (forall i j n m,
        teardown_requests (trace_of x) !! i = Some (ReqDeleteChannel n) ->
        teardown_requests (trace_of x) !! j = Some (ReqDeleteInput m) ->
        i < j)
  /\ (forall i n,
        teardown_requests (trace_of x) !! i = Some (ReqDeleteChannel n) ->
        exists k, i = S k /\ teardown_requests (trace_of x) !! k = Some (ReqStop n)).
Proof.
  intros x parent. pose proof (main_phases w) as Hphases. cbn zeta in Hphases.
  fold x parent in Hphases. split; [exact Hphases|].
  assert (exists cs ins,
             teardown_requests (trace_of x)
             = flat_map channel_teardown cs ++ flat_map input_teardown ins)
    as (cs & ins & ->).
  { destruct Hphases as [[_ ->] | (c0 & report & rc & channels & ri & inputs
                                     & -> & _ & Hrep & Hc & Hi)].
    - by exists [], [].
    - destruct (bulk_teardown_order parent rc ri channels inputs Hc Hi)
        as (cs & ins & Hcs & Hins).
      exists cs, ins. td_norm. rewrite Hrep. td_norm. by rewrite Hcs, Hins. }
  apply teardown_order.
Qed.

End TeardownOrder.

(** C5, as stated, fails: the channel is in the listing, the client of
    [deleteAllChannels] cannot be constructed, [main] logs that and goes
    on, and the input is deleted although no stop and no delete of the
    channel was attempted. *)
Lemma inputs_deleted_channel_untouched :
  let a := mkChannel "projects/p/locations/l/channels/a" [] "gs://b/a" STREAMING [] in
  let i := mkInput "projects/p/locations/l/inputs/i" RTMP_PUSH "rtmp://i" in
  let x := run (second_client_refused [Ok i] [Ok a]) DeleteAll.main 0 in
  trace_of x !! 4
    = Some (Ev (ListChannels (mkClient 0) "projects/<PROJECT_NUMBER>/locations/<REGION>")
              [Ok a])
  /\ steps (trace_of x) !! 8 = Some (ReqNewClient, Some (StatusErr Unavailable "dial"))
  /\ requests (trace_of x) !! 9
     = Some (ReqLog ("Error deleting channels: NewClient: "
                       +:+ "rpc error: code = Unavailable desc = dial"))
  /\ requests (trace_of x) !! 13 = Some (ReqDeleteInput "projects/p/locations/l/inputs/i")
  /\ existsb is_stop (requests (trace_of x)) = false
  /\ existsb is_delete_channel (requests (trace_of x)) = false.
Proof. repeat split. Qed.

Lemma channels_before_inputs_witness :
  let a := mkChannel "projects/p/locations/l/channels/a" [] "gs://b/a" STREAMING [] in
  let i := mkInput "projects/p/locations/l/inputs/i" RTMP_PUSH "rtmp://i" in
  let parent := "projects/<PROJECT_NUMBER>/locations/<REGION>" in
  let x := run (listing [Ok i] [Ok a] []) DeleteAll.main tt in
  teardown_requests (trace_of x)
  = [ReqStop "projects/p/locations/l/channels/a";
     ReqDeleteChannel "projects/p/locations/l/channels/a";
     ReqDeleteInput "projects/p/locations/l/inputs/i"]
  /\ (exists c0 report rc channels ri inputs,
        trace_of x
        = Ev NewClient (Ok c0) :: report ++ Ev NewClient rc :: channels
            ++ Ev NewClient ri :: inputs
        /\ count_requests is_new_client report = 0
        /\ teardown_requests report = []
        /\ bulk_of_channels parent rc channels
        /\ bulk_of_inputs parent ri inputs)
  /\ 1 < 2.
Proof.
  intros a i parent x. split; [reflexivity|]. split.
  - destruct (proj1 (channels_before_inputs (listing [Ok i] [Ok a] []) tt))
      as [[Hcount _] | Hphases].
    + exfalso. vm_compute in Hcount. lia.
    + exact Hphases.
  - apply (proj1 (proj2 (channels_before_inputs (listing [Ok i] [Ok a] []) tt))
             1 2 "projects/p/locations/l/channels/a" "projects/p/locations/l/inputs/i");
      reflexivity.
Defined.
